(** * The spreadsheet-backed record store (src/services/googleSheets.ts)

    A shallow embedding of [GoogleSheetsService]: the row mapping of
    appointments and patients, the owner filter of the listing loops, the
    scan-then-write update and delete, the header initialisation and the
    connection test.  Remote calls are the nodes of a small program monad;
    the clock ([new Date().toISOString()]) and the generated ids are passed
    in as arguments. *)

From Stdlib Require Import String Ascii DecimalString.
From stdpp Require Import base option list strings gmap.

Open Scope string_scope.

(** ** JavaScript values the store manipulates

    A cell is a string; reading a row past its end gives [undefined],
    which is [None] here. *)

Definition Row := list string.

(** [x || d] on a possibly-undefined string: the empty string is falsy. *)
Definition js_or (x : option string) (d : string) : string :=
  match x with
  | Some s => if String.eqb s "" then d else s
  | None => d
  end.

(** [x === s] where [s] is a string. *)
Definition strict_eq (x : option string) (s : string) : bool :=
  match x with
  | Some c => String.eqb c s
  | None => false
  end.

(** [s.includes(sub)]. *)
Fixpoint includes (s sub : string) : bool :=
  String.prefix sub s ||
  match s with
  | EmptyString => false
  | String _ s' => includes s' sub
  end.

(** [Array.prototype.findIndex]; [None] stands for [-1]. *)
Fixpoint findIndex {A} (p : A -> bool) (l : list A) : option nat :=
  match l with
  | [] => None
  | x :: l' => if p x then Some 0 else S <$> findIndex p l'
  end.

(** ** Entities (src/types) *)

Module Appointment.

Record t := mk {
  id : string;
  patientName : string;
  patientPhone : string;
  patientEmail : option string;
  appointmentDate : string;
  appointmentTime : string;
  serviceType : string;
  status : string;
  notes : option string;
  whatsappMessageId : option string;
  smsMessageId : option string;
  createdAt : string;
  updatedAt : string;
  userId : string
}.

(** The keys of an appointment, in column order. *)
Inductive field :=
| Id | PatientName | PatientPhone | PatientEmail | AppointmentDate
| AppointmentTime | ServiceType | Status | Notes | WhatsappMessageId
| SmsMessageId | CreatedAt | UpdatedAt | UserId.

#[global] Instance field_eq_dec : EqDecision field.
Proof. solve_decision. Defined.

Definition column (f : field) : nat :=
  match f with
  | Id => 0 | PatientName => 1 | PatientPhone => 2 | PatientEmail => 3
  | AppointmentDate => 4 | AppointmentTime => 5 | ServiceType => 6
  | Status => 7 | Notes => 8 | WhatsappMessageId => 9 | SmsMessageId => 10
  | CreatedAt => 11 | UpdatedAt => 12 | UserId => 13
  end.

(** [a[f]]: [None] is [undefined]. *)
Definition get (f : field) (a : t) : option string :=
  match f with
  | Id => Some (id a)
  | PatientName => Some (patientName a)
  | PatientPhone => Some (patientPhone a)
  | PatientEmail => patientEmail a
  | AppointmentDate => Some (appointmentDate a)
  | AppointmentTime => Some (appointmentTime a)
  | ServiceType => Some (serviceType a)
  | Status => Some (status a)
  | Notes => notes a
  | WhatsappMessageId => whatsappMessageId a
  | SmsMessageId => smsMessageId a
  | CreatedAt => Some (createdAt a)
  | UpdatedAt => Some (updatedAt a)
  | UserId => Some (userId a)
  end.

(** The declared type of [status]. *)
Definition is_status (s : string) : Prop :=
  s = "pending" \/ s = "confirmed" \/ s = "cancelled" \/ s = "completed".

(** [Partial<Appointment>]: [None] is a key that is not present. *)
Module Partial.
Record t := mk {
  id : option string;
  patientName : option string;
  patientPhone : option string;
  patientEmail : option string;
  appointmentDate : option string;
  appointmentTime : option string;
  serviceType : option string;
  status : option string;
  notes : option string;
  whatsappMessageId : option string;
  smsMessageId : option string;
  createdAt : option string;
  updatedAt : option string;
  userId : option string
}.

Definition empty : t :=
  mk None None None None None None None None None None None None None None.

Definition get (f : field) (u : t) : option string :=
  match f with
  | Id => id u | PatientName => patientName u
  | PatientPhone => patientPhone u | PatientEmail => patientEmail u
  | AppointmentDate => appointmentDate u
  | AppointmentTime => appointmentTime u
  | ServiceType => serviceType u | Status => status u | Notes => notes u
  | WhatsappMessageId => whatsappMessageId u
  | SmsMessageId => smsMessageId u | CreatedAt => createdAt u
  | UpdatedAt => updatedAt u | UserId => userId u
  end.

(** [{ ...u, [f]: v }]. *)
Definition set (f : field) (v : string) (u : t) : t :=
  match f with
  | Id => mk (Some v) (patientName u) (patientPhone u) (patientEmail u) (appointmentDate u) (appointmentTime u) (serviceType u) (status u) (notes u) (whatsappMessageId u) (smsMessageId u) (createdAt u) (updatedAt u) (userId u)
  | PatientName => mk (id u) (Some v) (patientPhone u) (patientEmail u) (appointmentDate u) (appointmentTime u) (serviceType u) (status u) (notes u) (whatsappMessageId u) (smsMessageId u) (createdAt u) (updatedAt u) (userId u)
  | PatientPhone => mk (id u) (patientName u) (Some v) (patientEmail u) (appointmentDate u) (appointmentTime u) (serviceType u) (status u) (notes u) (whatsappMessageId u) (smsMessageId u) (createdAt u) (updatedAt u) (userId u)
  | PatientEmail => mk (id u) (patientName u) (patientPhone u) (Some v) (appointmentDate u) (appointmentTime u) (serviceType u) (status u) (notes u) (whatsappMessageId u) (smsMessageId u) (createdAt u) (updatedAt u) (userId u)
  | AppointmentDate => mk (id u) (patientName u) (patientPhone u) (patientEmail u) (Some v) (appointmentTime u) (serviceType u) (status u) (notes u) (whatsappMessageId u) (smsMessageId u) (createdAt u) (updatedAt u) (userId u)
  | AppointmentTime => mk (id u) (patientName u) (patientPhone u) (patientEmail u) (appointmentDate u) (Some v) (serviceType u) (status u) (notes u) (whatsappMessageId u) (smsMessageId u) (createdAt u) (updatedAt u) (userId u)
  | ServiceType => mk (id u) (patientName u) (patientPhone u) (patientEmail u) (appointmentDate u) (appointmentTime u) (Some v) (status u) (notes u) (whatsappMessageId u) (smsMessageId u) (createdAt u) (updatedAt u) (userId u)
  | Status => mk (id u) (patientName u) (patientPhone u) (patientEmail u) (appointmentDate u) (appointmentTime u) (serviceType u) (Some v) (notes u) (whatsappMessageId u) (smsMessageId u) (createdAt u) (updatedAt u) (userId u)
  | Notes => mk (id u) (patientName u) (patientPhone u) (patientEmail u) (appointmentDate u) (appointmentTime u) (serviceType u) (status u) (Some v) (whatsappMessageId u) (smsMessageId u) (createdAt u) (updatedAt u) (userId u)
  | WhatsappMessageId => mk (id u) (patientName u) (patientPhone u) (patientEmail u) (appointmentDate u) (appointmentTime u) (serviceType u) (status u) (notes u) (Some v) (smsMessageId u) (createdAt u) (updatedAt u) (userId u)
  | SmsMessageId => mk (id u) (patientName u) (patientPhone u) (patientEmail u) (appointmentDate u) (appointmentTime u) (serviceType u) (status u) (notes u) (whatsappMessageId u) (Some v) (createdAt u) (updatedAt u) (userId u)
  | CreatedAt => mk (id u) (patientName u) (patientPhone u) (patientEmail u) (appointmentDate u) (appointmentTime u) (serviceType u) (status u) (notes u) (whatsappMessageId u) (smsMessageId u) (Some v) (updatedAt u) (userId u)
  | UpdatedAt => mk (id u) (patientName u) (patientPhone u) (patientEmail u) (appointmentDate u) (appointmentTime u) (serviceType u) (status u) (notes u) (whatsappMessageId u) (smsMessageId u) (createdAt u) (Some v) (userId u)
  | UserId => mk (id u) (patientName u) (patientPhone u) (patientEmail u) (appointmentDate u) (appointmentTime u) (serviceType u) (status u) (notes u) (whatsappMessageId u) (smsMessageId u) (createdAt u) (updatedAt u) (Some v)
  end.
End Partial.

(** [Omit<Appointment, 'id' | 'createdAt' | 'updatedAt'>]. *)
Module Draft.
Record t := mk {
  patientName : string;
  patientPhone : string;
  patientEmail : option string;
  appointmentDate : string;
  appointmentTime : string;
  serviceType : string;
  status : string;
  notes : option string;
  whatsappMessageId : option string;
  smsMessageId : option string;
  userId : string
}.
End Draft.

End Appointment.

Module Patient.

Record t := mk {
  id : string;
  name : string;
  phone : string;
  email : option string;
  dateOfBirth : option string;
  address : option string;
  emergencyContact : option string;
  medicalNotes : option string;
  createdAt : string;
  updatedAt : string;
  userId : string
}.

Inductive field :=
| Id | Name | Phone | Email | DateOfBirth | Address | EmergencyContact
| MedicalNotes | CreatedAt | UpdatedAt | UserId.

#[global] Instance field_eq_dec : EqDecision field.
Proof. solve_decision. Defined.

Definition column (f : field) : nat :=
  match f with
  | Id => 0 | Name => 1 | Phone => 2 | Email => 3 | DateOfBirth => 4
  | Address => 5 | EmergencyContact => 6 | MedicalNotes => 7
  | CreatedAt => 8 | UpdatedAt => 9 | UserId => 10
  end.

Definition get (f : field) (p : t) : option string :=
  match f with
  | Id => Some (id p)
  | Name => Some (name p)
  | Phone => Some (phone p)
  | Email => email p
  | DateOfBirth => dateOfBirth p
  | Address => address p
  | EmergencyContact => emergencyContact p
  | MedicalNotes => medicalNotes p
  | CreatedAt => Some (createdAt p)
  | UpdatedAt => Some (updatedAt p)
  | UserId => Some (userId p)
  end.

(** [Partial<Patient>]. *)
Module Partial.
Record t := mk {
  id : option string;
  name : option string;
  phone : option string;
  email : option string;
  dateOfBirth : option string;
  address : option string;
  emergencyContact : option string;
  medicalNotes : option string;
  createdAt : option string;
  updatedAt : option string;
  userId : option string
}.

Definition empty : t :=
  mk None None None None None None None None None None None.

Definition get (f : field) (u : t) : option string :=
  match f with
  | Id => id u | Name => name u | Phone => phone u | Email => email u
  | DateOfBirth => dateOfBirth u | Address => address u
  | EmergencyContact => emergencyContact u
  | MedicalNotes => medicalNotes u | CreatedAt => createdAt u
  | UpdatedAt => updatedAt u | UserId => userId u
  end.

Definition set (f : field) (v : string) (u : t) : t :=
  match f with
  | Id => mk (Some v) (name u) (phone u) (email u) (dateOfBirth u) (address u) (emergencyContact u) (medicalNotes u) (createdAt u) (updatedAt u) (userId u)
  | Name => mk (id u) (Some v) (phone u) (email u) (dateOfBirth u) (address u) (emergencyContact u) (medicalNotes u) (createdAt u) (updatedAt u) (userId u)
  | Phone => mk (id u) (name u) (Some v) (email u) (dateOfBirth u) (address u) (emergencyContact u) (medicalNotes u) (createdAt u) (updatedAt u) (userId u)
  | Email => mk (id u) (name u) (phone u) (Some v) (dateOfBirth u) (address u) (emergencyContact u) (medicalNotes u) (createdAt u) (updatedAt u) (userId u)
  | DateOfBirth => mk (id u) (name u) (phone u) (email u) (Some v) (address u) (emergencyContact u) (medicalNotes u) (createdAt u) (updatedAt u) (userId u)
  | Address => mk (id u) (name u) (phone u) (email u) (dateOfBirth u) (Some v) (emergencyContact u) (medicalNotes u) (createdAt u) (updatedAt u) (userId u)
  | EmergencyContact => mk (id u) (name u) (phone u) (email u) (dateOfBirth u) (address u) (Some v) (medicalNotes u) (createdAt u) (updatedAt u) (userId u)
  | MedicalNotes => mk (id u) (name u) (phone u) (email u) (dateOfBirth u) (address u) (emergencyContact u) (Some v) (createdAt u) (updatedAt u) (userId u)
  | CreatedAt => mk (id u) (name u) (phone u) (email u) (dateOfBirth u) (address u) (emergencyContact u) (medicalNotes u) (Some v) (updatedAt u) (userId u)
  | UpdatedAt => mk (id u) (name u) (phone u) (email u) (dateOfBirth u) (address u) (emergencyContact u) (medicalNotes u) (createdAt u) (Some v) (userId u)
  | UserId => mk (id u) (name u) (phone u) (email u) (dateOfBirth u) (address u) (emergencyContact u) (medicalNotes u) (createdAt u) (updatedAt u) (Some v)
  end.
End Partial.

(** [Omit<Patient, 'id' | 'createdAt' | 'updatedAt'>]. *)
Module Draft.
Record t := mk {
  name : string;
  phone : string;
  email : option string;
  dateOfBirth : option string;
  address : option string;
  emergencyContact : option string;
  medicalNotes : option string;
  userId : string
}.
End Draft.

End Patient.

(** ** Row mapping *)

(** The object literal pushed by the loop of [getAppointments]. *)
Definition rowToAppointment (row : Row) : Appointment.t :=
  {| Appointment.id := js_or (row !! 0) "";
     Appointment.patientName := js_or (row !! 1) "";
     Appointment.patientPhone := js_or (row !! 2) "";
     Appointment.patientEmail := Some (js_or (row !! 3) "");
     Appointment.appointmentDate := js_or (row !! 4) "";
     Appointment.appointmentTime := js_or (row !! 5) "";
     Appointment.serviceType := js_or (row !! 6) "";
     Appointment.status := js_or (row !! 7) "pending";
     Appointment.notes := Some (js_or (row !! 8) "");
     Appointment.whatsappMessageId := Some (js_or (row !! 9) "");
     Appointment.smsMessageId := Some (js_or (row !! 10) "");
     Appointment.createdAt := js_or (row !! 11) "";
     Appointment.updatedAt := js_or (row !! 12) "";
     Appointment.userId := js_or (row !! 13) "" |}.

(** The [row] array built by [createAppointment] and [updateAppointment]. *)
Definition appointmentToRow (a : Appointment.t) : Row :=
  [ Appointment.id a;
    Appointment.patientName a;
    Appointment.patientPhone a;
    js_or (Appointment.patientEmail a) "";
    Appointment.appointmentDate a;
    Appointment.appointmentTime a;
    Appointment.serviceType a;
    Appointment.status a;
    js_or (Appointment.notes a) "";
    js_or (Appointment.whatsappMessageId a) "";
    js_or (Appointment.smsMessageId a) "";
    Appointment.createdAt a;
    Appointment.updatedAt a;
    Appointment.userId a ].

(** The object literal pushed by the loop of [getPatients]. *)
Definition rowToPatient (row : Row) : Patient.t :=
  {| Patient.id := js_or (row !! 0) "";
     Patient.name := js_or (row !! 1) "";
     Patient.phone := js_or (row !! 2) "";
     Patient.email := Some (js_or (row !! 3) "");
     Patient.dateOfBirth := Some (js_or (row !! 4) "");
     Patient.address := Some (js_or (row !! 5) "");
     Patient.emergencyContact := Some (js_or (row !! 6) "");
     Patient.medicalNotes := Some (js_or (row !! 7) "");
     Patient.createdAt := js_or (row !! 8) "";
     Patient.updatedAt := js_or (row !! 9) "";
     Patient.userId := js_or (row !! 10) "" |}.

(** The [row] array built by [createPatient] and [updatePatient]. *)
Definition patientToRow (p : Patient.t) : Row :=
  [ Patient.id p;
    Patient.name p;
    Patient.phone p;
    js_or (Patient.email p) "";
    js_or (Patient.dateOfBirth p) "";
    js_or (Patient.address p) "";
    js_or (Patient.emergencyContact p) "";
    js_or (Patient.medicalNotes p) "";
    Patient.createdAt p;
    Patient.updatedAt p;
    Patient.userId p ].

(** The listing loop, [for (let i = 1; i < rows.length; i++)], run over the
    rows after the header: a row is kept when its owner cell is strictly
    equal to [userId]. *)
Fixpoint collectRows {E} (col : nat) (mk : Row -> E) (userId : string)
    (rows : list Row) : list E :=
  match rows with
  | [] => []
  | row :: rest =>
      if strict_eq (row !! col) userId
      then mk row :: collectRows col mk userId rest
      else collectRows col mk userId rest
  end.

(** ** Configuration *)

Record GoogleSheetsConfig := {
  spreadsheetId : string;
  appointmentsSheetName : option string;
  patientsSheetName : option string
}.

(** The constructor: defaults first, then the keys of [config]. *)
Definition construct (config : GoogleSheetsConfig) : GoogleSheetsConfig :=
  {| spreadsheetId := spreadsheetId config;
     appointmentsSheetName :=
       Some (default "Appointments" (appointmentsSheetName config));
     patientsSheetName :=
       Some (default "Patients" (patientsSheetName config)) |}.

(** [`${this.config.appointmentsSheetName}`] inside an endpoint. *)
Definition appointmentsSheet (cfg : GoogleSheetsConfig) : string :=
  default "undefined" (appointmentsSheetName cfg).

Definition patientsSheet (cfg : GoogleSheetsConfig) : string :=
  default "undefined" (patientsSheetName cfg).

(** ** Requests and responses *)

Inductive Method := GET | PUT | POST.

(** The endpoints the store builds, kept structured; [endpoint_path]
    gives the text appended to the spreadsheet URL. *)
Inductive Endpoint :=
| Metadata
| Values (sheet : string)
| ValuesRange (sheet : string) (col1 : string) (row1 : nat)
    (col2 : string) (row2 : nat)
| ValuesAppend (sheet : string)
| ValuesRangeClear (sheet : string) (col1 : string) (row1 : nat)
    (col2 : string) (row2 : nat).

Definition show_nat (n : nat) : string :=
  NilZero.string_of_uint (Nat.to_uint n).

Definition endpoint_path (e : Endpoint) : string :=
  match e with
  | Metadata => ""
  | Values s => "/values/" ++ s
  | ValuesRange s c1 r1 c2 r2 =>
      "/values/" ++ s ++ "!" ++ c1 ++ show_nat r1 ++ ":" ++ c2 ++ show_nat r2
  | ValuesAppend s => "/values/" ++ s ++ ":append"
  | ValuesRangeClear s c1 r1 c2 r2 =>
      "/values/" ++ s ++ "!" ++ c1 ++ show_nat r1 ++ ":" ++ c2 ++ show_nat r2
        ++ ":clear"
  end.

(** The JSON body of a write. *)
Record RequestBody := {
  body_values : list Row;
  valueInputOption : option string
}.

(** [RequestInit] as the store uses it. *)
Record RequestInit := {
  init_method : option Method;
  init_body : option RequestBody
}.

Definition no_options : RequestInit :=
  {| init_method := None; init_body := None |}.

(** The argument of [blink.data.fetch]. *)
Record Request := {
  req_spreadsheet : string;
  req_endpoint : Endpoint;
  req_method : Method;
  req_body : option RequestBody
}.

Definition request_url (r : Request) : string :=
  "https://sheets.googleapis.com/v4/spreadsheets/" ++ req_spreadsheet r
    ++ endpoint_path (req_endpoint r).

(** [response.body.error], as far as [makeRequest] reads it.  Both fields
    are tested for truthiness before they are used: [error_details] is
    [Some d] exactly when [details] is truthy, [d] being the text that
    [JSON.stringify] gives for it, and [None] when [details] is missing or
    falsy; a missing [message] is [None], and the empty message is tested
    where it is used. *)
Record ApiErrorBody := {
  error_message : option string;
  error_details : option string
}.

(** The part of a response body the store reads: [values],
    whether [properties] is truthy, and [error] ([error_body]). *)
Record ResponseBody := {
  values : option (list Row);
  properties : bool;
  error_body : option ApiErrorBody
}.

(** What a thrown value is, by the statement that threw it.  A value
    thrown by the fetch itself is an [Error] with a message ([Some]) or some
    other value ([None]). *)
Inductive Thrown :=
| TransportError (message : option string)   (* thrown by the fetch *)
| ApiError (message : string)         (* [makeRequest], status >= 400 *)
| NotFound (message : string)         (* [update]/[delete], index -1 *)
| TypeError (message : string).       (* property read on [undefined] *)

(** [error instanceof Error ? Some error.message : None]. *)
Definition error_message_of (e : Thrown) : option string :=
  match e with
  | TransportError m => m
  | ApiError m | NotFound m | TypeError m => Some m
  end.

(** The outcome of [await blink.data.fetch(...)]; the body is [None] when
    the response carries none. *)
Inductive FetchResult :=
| FetchThrows (message : option string)
| Response (status : nat) (body : option ResponseBody).

(** ** Programs: sequences of awaited fetches *)

Inductive Prog (A : Type) : Type :=
| Ret (a : A)
| Throw (e : Thrown)
| Fetch (r : Request) (k : FetchResult -> Prog A).

Arguments Ret {A} a.
Arguments Throw {A} e.
Arguments Fetch {A} r k.

Fixpoint bind {A B} (p : Prog A) (f : A -> Prog B) : Prog B :=
  match p with
  | Ret a => f a
  | Throw e => Throw e
  | Fetch r k => Fetch r (fun x => bind (k x) f)
  end.

(** [try { p } catch (error) { handler error }]. *)
Fixpoint try_catch {A} (p : Prog A) (handler : Thrown -> Prog A) : Prog A :=
  match p with
  | Ret a => Ret a
  | Throw e => handler e
  | Fetch r k => Fetch r (fun x => try_catch (k x) handler)
  end.

Notation "'await' x <- p ; q" := (bind p (fun x => q))
  (at level 10, x name, p at level 100, q at level 200,
   format "'[v' 'await'  x  <-  p ; '/' q ']'").
Notation "'await_' p ; q" := (bind p (fun _ => q))
  (at level 10, p at level 100, q at level 200,
   format "'[v' 'await_'  p ; '/' q ']'").

Inductive Outcome (A : Type) : Type :=
| Returned (a : A)
| Raised (e : Thrown).

Arguments Returned {A} a.
Arguments Raised {A} e.

(** Running a program against a backend [h] from world [w]: the outcome,
    the final world and the requests issued, in order. *)
Fixpoint run {W A} (h : Request -> W -> FetchResult * W) (p : Prog A) (w : W)
    : Outcome A * W * list Request :=
  match p with
  | Ret a => (Returned a, w, [])
  | Throw e => (Raised e, w, [])
  | Fetch r k =>
      let '(res, w1) := h r w in
      let '(out, w2, trace) := run h (k res) w1 in
      (out, w2, r :: trace)
  end.

(** ** [makeRequest] *)

(** The message of the error thrown on a status of 400 or more: the
    status, then the provider's message when it is truthy, then the
    details when they are truthy ([error_details] is [Some] only then). *)
Definition errorMessage (status : nat) (body : option ResponseBody) : string :=
  let err := body ≫= error_body in
  let m0 := "Google Sheets API error: " ++ show_nat status in
  let m1 :=
    match err ≫= error_message with
    | Some m => if String.eqb m "" then m0 else m0 ++ " - " ++ m
    | None => m0
    end in
  match err ≫= error_details with
  | Some d => m1 ++ " (" ++ d ++ ")"
  | None => m1
  end.

Definition makeRequest (cfg : GoogleSheetsConfig) (endpoint : Endpoint)
    (options : RequestInit) : Prog (option ResponseBody) :=
  Fetch {| req_spreadsheet := spreadsheetId cfg;
           req_endpoint := endpoint;
           req_method := default GET (init_method options);
           req_body := init_body options |}
    (fun response =>
       match response with
       | FetchThrows e => Throw (TransportError e)
       | Response status body =>
           if (400 <=? status)%nat
           then Throw (ApiError (errorMessage status body))
           else Ret body
       end).

(** ** Header initialisation *)

Definition appointmentHeaders : Row :=
  [ "ID"; "Patient Name"; "Patient Phone"; "Patient Email";
    "Appointment Date"; "Appointment Time"; "Service Type";
    "Status"; "Notes"; "WhatsApp Message ID"; "SMS Message ID";
    "Created At"; "Updated At"; "User ID" ].

Definition patientHeaders : Row :=
  [ "ID"; "Name"; "Phone"; "Email"; "Date of Birth";
    "Address"; "Emergency Contact"; "Medical Notes";
    "Created At"; "Updated At"; "User ID" ].

Definition put_rows (rows : list Row) : RequestInit :=
  {| init_method := Some PUT;
     init_body := Some {| body_values := rows; valueInputOption := None |} |}.

Definition ensureAppointmentsSheet (cfg : GoogleSheetsConfig) : Prog unit :=
  try_catch
    (await_ makeRequest cfg
       (ValuesRange (appointmentsSheet cfg) "A" 1 "N" 1) no_options;
     Ret tt)
    (fun _ =>
       await_ makeRequest cfg
         (ValuesRange (appointmentsSheet cfg) "A" 1 "N" 1)
         (put_rows [appointmentHeaders]);
       Ret tt).

Definition ensurePatientsSheet (cfg : GoogleSheetsConfig) : Prog unit :=
  try_catch
    (await_ makeRequest cfg
       (ValuesRange (patientsSheet cfg) "A" 1 "K" 1) no_options;
     Ret tt)
    (fun _ =>
       await_ makeRequest cfg
         (ValuesRange (patientsSheet cfg) "A" 1 "K" 1)
         (put_rows [patientHeaders]);
       Ret tt).

Definition initializeSheets (cfg : GoogleSheetsConfig) : Prog unit :=
  try_catch
    (await_ ensureAppointmentsSheet cfg; ensurePatientsSheet cfg)
    (fun error => Throw error).

(** ** Appointments *)

Definition getAppointments (cfg : GoogleSheetsConfig) (userId : string)
    : Prog (list Appointment.t) :=
  try_catch
    (await response <- makeRequest cfg (Values (appointmentsSheet cfg))
                         no_options;
     match response with
     | None => Throw (TypeError "Cannot read properties of undefined")
     | Some body =>
         let rows := default [] (values body) in
         if (length rows <=? 1)%nat then Ret []
         else Ret (collectRows 13 rowToAppointment userId (drop 1 rows))
     end)
    (fun _ => Ret []).

Definition post_append (row : Row) : RequestInit :=
  {| init_method := Some POST;
     init_body := Some {| body_values := [row];
                          valueInputOption := Some "RAW" |} |}.

Definition post_clear : RequestInit :=
  {| init_method := Some POST; init_body := None |}.

(** [millis] and [random] are the two generated parts of the id, [now] the
    clock reading. *)
Definition createAppointment (cfg : GoogleSheetsConfig)
    (millis random now : string) (appointment : Appointment.Draft.t)
    : Prog Appointment.t :=
  let id := "apt_" ++ millis ++ "_" ++ random in
  let newAppointment :=
    {| Appointment.id := id;
       Appointment.patientName := Appointment.Draft.patientName appointment;
       Appointment.patientPhone := Appointment.Draft.patientPhone appointment;
       Appointment.patientEmail := Appointment.Draft.patientEmail appointment;
       Appointment.appointmentDate :=
         Appointment.Draft.appointmentDate appointment;
       Appointment.appointmentTime :=
         Appointment.Draft.appointmentTime appointment;
       Appointment.serviceType := Appointment.Draft.serviceType appointment;
       Appointment.status := Appointment.Draft.status appointment;
       Appointment.notes := Appointment.Draft.notes appointment;
       Appointment.whatsappMessageId :=
         Appointment.Draft.whatsappMessageId appointment;
       Appointment.smsMessageId := Appointment.Draft.smsMessageId appointment;
       Appointment.createdAt := now;
       Appointment.updatedAt := now;
       Appointment.userId := Appointment.Draft.userId appointment |} in
  let row := appointmentToRow newAppointment in
  await_ makeRequest cfg (ValuesAppend (appointmentsSheet cfg))
           (post_append row);
  Ret newAppointment.

(** A key of the spread [{ ...existing, ...updates }] whose value may be
    [undefined] in [existing]. *)
Definition merge_optional (existing update : option string) : option string :=
  match update with
  | Some v => Some v
  | None => existing
  end.

(** [{ ...existing, ...updates, updatedAt: now }]. *)
Definition mergeAppointment (existing : Appointment.t)
    (updates : Appointment.Partial.t) (now : string) : Appointment.t :=
  {| Appointment.id :=
       default (Appointment.id existing) (Appointment.Partial.id updates);
     Appointment.patientName :=
       default (Appointment.patientName existing)
         (Appointment.Partial.patientName updates);
     Appointment.patientPhone :=
       default (Appointment.patientPhone existing)
         (Appointment.Partial.patientPhone updates);
     Appointment.patientEmail :=
       merge_optional (Appointment.patientEmail existing)
         (Appointment.Partial.patientEmail updates);
     Appointment.appointmentDate :=
       default (Appointment.appointmentDate existing)
         (Appointment.Partial.appointmentDate updates);
     Appointment.appointmentTime :=
       default (Appointment.appointmentTime existing)
         (Appointment.Partial.appointmentTime updates);
     Appointment.serviceType :=
       default (Appointment.serviceType existing)
         (Appointment.Partial.serviceType updates);
     Appointment.status :=
       default (Appointment.status existing)
         (Appointment.Partial.status updates);
     Appointment.notes :=
       merge_optional (Appointment.notes existing)
         (Appointment.Partial.notes updates);
     Appointment.whatsappMessageId :=
       merge_optional (Appointment.whatsappMessageId existing)
         (Appointment.Partial.whatsappMessageId updates);
     Appointment.smsMessageId :=
       merge_optional (Appointment.smsMessageId existing)
         (Appointment.Partial.smsMessageId updates);
     Appointment.createdAt :=
       default (Appointment.createdAt existing)
         (Appointment.Partial.createdAt updates);
     Appointment.updatedAt := now;
     Appointment.userId :=
       default (Appointment.userId existing)
         (Appointment.Partial.userId updates) |}.

(** The owner is read from the updates: [updates.userId || '']. An index
    returned by [findIndex] is always in range, so the [None] case of the
    lookup is never taken. *)
Definition updateAppointment (cfg : GoogleSheetsConfig) (now : string)
    (id : string) (updates : Appointment.Partial.t) : Prog unit :=
  try_catch
    (await appointments <-
       getAppointments cfg (js_or (Appointment.Partial.userId updates) "");
     match findIndex (fun apt => String.eqb (Appointment.id apt) id)
             appointments with
     | None => Throw (NotFound "Appointment not found")
     | Some appointmentIndex =>
         match appointments !! appointmentIndex with
         | None => Throw (TypeError "Cannot read properties of undefined")
         | Some existing =>
             let updatedAppointment :=
               mergeAppointment existing updates now in
             let row := appointmentToRow updatedAppointment in
             let rowNumber := appointmentIndex + 2 in
             await_ makeRequest cfg
                      (ValuesRange (appointmentsSheet cfg)
                         "A" rowNumber "N" rowNumber)
                      (put_rows [row]);
             Ret tt
         end
     end)
    (fun error => Throw error).

Definition deleteAppointment (cfg : GoogleSheetsConfig) (id userId : string)
    : Prog unit :=
  try_catch
    (await appointments <- getAppointments cfg userId;
     match findIndex (fun apt => String.eqb (Appointment.id apt) id)
             appointments with
     | None => Throw (NotFound "Appointment not found")
     | Some appointmentIndex =>
         let rowNumber := appointmentIndex + 2 in
         await_ makeRequest cfg
                  (ValuesRangeClear (appointmentsSheet cfg)
                     "A" rowNumber "N" rowNumber)
                  post_clear;
         Ret tt
     end)
    (fun error => Throw error).

(** ** Patients *)

Definition getPatients (cfg : GoogleSheetsConfig) (userId : string)
    : Prog (list Patient.t) :=
  try_catch
    (await response <- makeRequest cfg (Values (patientsSheet cfg))
                         no_options;
     match response with
     | None => Throw (TypeError "Cannot read properties of undefined")
     | Some body =>
         let rows := default [] (values body) in
         if (length rows <=? 1)%nat then Ret []
         else Ret (collectRows 10 rowToPatient userId (drop 1 rows))
     end)
    (fun _ => Ret []).

Definition createPatient (cfg : GoogleSheetsConfig)
    (millis random now : string) (patient : Patient.Draft.t)
    : Prog Patient.t :=
  let id := "pat_" ++ millis ++ "_" ++ random in
  let newPatient :=
    {| Patient.id := id;
       Patient.name := Patient.Draft.name patient;
       Patient.phone := Patient.Draft.phone patient;
       Patient.email := Patient.Draft.email patient;
       Patient.dateOfBirth := Patient.Draft.dateOfBirth patient;
       Patient.address := Patient.Draft.address patient;
       Patient.emergencyContact := Patient.Draft.emergencyContact patient;
       Patient.medicalNotes := Patient.Draft.medicalNotes patient;
       Patient.createdAt := now;
       Patient.updatedAt := now;
       Patient.userId := Patient.Draft.userId patient |} in
  let row := patientToRow newPatient in
  await_ makeRequest cfg (ValuesAppend (patientsSheet cfg)) (post_append row);
  Ret newPatient.

(** [{ ...existing, ...updates, updatedAt: now }]. *)
Definition mergePatient (existing : Patient.t) (updates : Patient.Partial.t)
    (now : string) : Patient.t :=
  {| Patient.id := default (Patient.id existing) (Patient.Partial.id updates);
     Patient.name :=
       default (Patient.name existing) (Patient.Partial.name updates);
     Patient.phone :=
       default (Patient.phone existing) (Patient.Partial.phone updates);
     Patient.email :=
       merge_optional (Patient.email existing) (Patient.Partial.email updates);
     Patient.dateOfBirth :=
       merge_optional (Patient.dateOfBirth existing)
         (Patient.Partial.dateOfBirth updates);
     Patient.address :=
       merge_optional (Patient.address existing)
         (Patient.Partial.address updates);
     Patient.emergencyContact :=
       merge_optional (Patient.emergencyContact existing)
         (Patient.Partial.emergencyContact updates);
     Patient.medicalNotes :=
       merge_optional (Patient.medicalNotes existing)
         (Patient.Partial.medicalNotes updates);
     Patient.createdAt :=
       default (Patient.createdAt existing)
         (Patient.Partial.createdAt updates);
     Patient.updatedAt := now;
     Patient.userId :=
       default (Patient.userId existing) (Patient.Partial.userId updates) |}.

Definition updatePatient (cfg : GoogleSheetsConfig) (now : string)
    (id : string) (updates : Patient.Partial.t) : Prog unit :=
  try_catch
    (await patients <-
       getPatients cfg (js_or (Patient.Partial.userId updates) "");
     match findIndex (fun pat => String.eqb (Patient.id pat) id) patients with
     | None => Throw (NotFound "Patient not found")
     | Some patientIndex =>
         match patients !! patientIndex with
         | None => Throw (TypeError "Cannot read properties of undefined")
         | Some existing =>
             let updatedPatient := mergePatient existing updates now in
             let row := patientToRow updatedPatient in
             let rowNumber := patientIndex + 2 in
             await_ makeRequest cfg
                      (ValuesRange (patientsSheet cfg)
                         "A" rowNumber "K" rowNumber)
                      (put_rows [row]);
             Ret tt
         end
     end)
    (fun error => Throw error).

Definition deletePatient (cfg : GoogleSheetsConfig) (id userId : string)
    : Prog unit :=
  try_catch
    (await patients <- getPatients cfg userId;
     match findIndex (fun pat => String.eqb (Patient.id pat) id) patients with
     | None => Throw (NotFound "Patient not found")
     | Some patientIndex =>
         let rowNumber := patientIndex + 2 in
         await_ makeRequest cfg
                  (ValuesRangeClear (patientsSheet cfg)
                     "A" rowNumber "K" rowNumber)
                  post_clear;
         Ret tt
     end)
    (fun error => Throw error).

(** ** Connection test *)

Record ConnectionResult := {
  success : bool;
  error : option string
}.

Definition msg_not_found : string :=
  "Spreadsheet not found. Please check the spreadsheet ID and make sure it's publicly accessible.".

Definition msg_access_denied : string :=
  "Access denied. Please check your API key and spreadsheet permissions.".

Definition msg_invalid_request : string :=
  "Invalid request. Please check your API key and spreadsheet ID.".

(** The [catch] block of [testConnection]. *)
Definition connectionError (e : Thrown) : string :=
  match error_message_of e with
  | None => "Connection failed"
  | Some errorMessage =>
      if includes errorMessage "404" then msg_not_found
      else if includes errorMessage "403" then msg_access_denied
      else if includes errorMessage "400" then msg_invalid_request
      else errorMessage
  end.

Definition testConnection (cfg : GoogleSheetsConfig) : Prog ConnectionResult :=
  try_catch
    (if String.eqb (spreadsheetId cfg) ""
     then Ret {| success := false;
                 error := Some "Spreadsheet ID is required" |}
     else
       await response <- makeRequest cfg Metadata no_options;
       match response with
       | Some body =>
           if properties body
           then Ret {| success := true; error := None |}
           else Ret {| success := false;
                       error := Some "Invalid spreadsheet response" |}
       | None =>
           Ret {| success := false;
                  error := Some "Invalid spreadsheet response" |}
       end)
    (fun e => Ret {| success := false; error := Some (connectionError e) |}).

(** ** The remote table

    The backend is outside the repository.  It is modelled as the grid of
    cell values per sheet name, with the four range operations the store
    relies on: read, overwrite of one row, append of a row, and clearing of
    one row (the row stays, blank). *)

Definition values_body (rows : list Row) : ResponseBody :=
  {| values := match rows with [] => None | _ => Some rows end;
     properties := false;
     error_body := None |}.

Definition empty_body : ResponseBody :=
  {| values := None; properties := false; error_body := None |}.

Definition metadata_body : ResponseBody :=
  {| values := None; properties := true; error_body := None |}.

Definition bad_range (sheet : string) : FetchResult :=
  Response 400
    (Some {| values := None;
             properties := false;
             error_body :=
               Some {| error_message :=
                         Some ("Unable to parse range: " ++ sheet);
                       error_details := None |} |}).

(** Overwrite of grid row [n] (0-based); rows are added when the grid is
    shorter. *)
Definition put_row (n : nat) (row : Row) (rows : list Row) : list Row :=
  if (n <? length rows)%nat then <[n := row]> rows
  else rows ++ replicate (n - length rows) [] ++ [row].

(** Clearing of grid row [n] (0-based); nothing to clear past the end. *)
Definition clear_row (n : nat) (rows : list Row) : list Row :=
  <[n := []]> rows.

(** The rows a write request carries. *)
Definition written_rows (r : Request) : list Row :=
  match req_body r with
  | Some b => body_values b
  | None => []
  end.

Definition sheets_backend (r : Request) (w : gmap string (list Row))
    : FetchResult * gmap string (list Row) :=
  match req_endpoint r, req_method r with
  | Metadata, GET => (Response 200 (Some metadata_body), w)
  | Values s, GET =>
      match w !! s with
      | Some rows => (Response 200 (Some (values_body rows)), w)
      | None => (bad_range s, w)
      end
  | ValuesRange s _ (S n) _ r2, GET =>
      match w !! s with
      | Some rows =>
          (Response 200
             (Some (values_body (take (r2 - n) (drop n rows)))), w)
      | None => (bad_range s, w)
      end
  | ValuesRange s _ (S n) _ _, PUT =>
      match w !! s, written_rows r with
      | Some rows, [row] =>
          (Response 200 (Some empty_body), <[s := put_row n row rows]> w)
      | _, _ => (bad_range s, w)
      end
  | ValuesAppend s, POST =>
      match w !! s with
      | Some rows =>
          (Response 200 (Some empty_body),
           <[s := (rows ++ written_rows r)%list]> w)
      | None => (bad_range s, w)
      end
  | ValuesRangeClear s _ (S n) _ _, POST =>
      match w !! s with
      | Some rows =>
          (Response 200 (Some empty_body), <[s := clear_row n rows]> w)
      | None => (bad_range s, w)
      end
  | _, _ => (Response 404 None, w)
  end.

(** Scan position of a record among all data rows: the 0-based index, in
    the rows after the header, of the first row owned by [userId] whose id
    cell is [id]. *)
Definition scanPosition (ownerCol : nat) (id userId : string)
    (rows : list Row) : option nat :=
  findIndex
    (fun row => strict_eq (row !! ownerCol) userId
                && String.eqb (js_or (row !! 0) "") id)
    (drop 1 rows).

(** A backend that answers every request with one fixed result. *)
Definition answer (res : FetchResult) (r : Request) (w : unit)
    : FetchResult * unit := (res, w).

(** ** Vocabulary of the statements *)

(** The read request of a listing. *)
Definition listRequest (cfg : GoogleSheetsConfig) (sheet : string) : Request :=
  {| req_spreadsheet := spreadsheetId cfg;
     req_endpoint := Values sheet;
     req_method := GET;
     req_body := None |}.

(** A fetch fails when it throws or answers with a status of 400 or more. *)
Definition fetch_failed (res : FetchResult) : Prop :=
  match res with
  | FetchThrows _ => True
  | Response status _ => (400 <= status)%nat
  end.

(** The rows of the table a successful fetch delivers. *)
Definition fetched_rows (res : FetchResult) : list Row :=
  match res with
  | Response _ (Some body) => default [] (values body)
  | _ => []
  end.

(** What a listing makes of a fetched table: nothing when there is at most
    the header, otherwise the owner's rows after the header. *)
Definition listedRows {E} (col : nat) (mk : Row -> E) (userId : string)
    (rows : list Row) : list E :=
  if (length rows <=? 1)%nat then []
  else collectRows col mk userId (drop 1 rows).

(** The result of a listing, from the answer to its read. *)
Definition listingOf {E} (col : nat) (mk : Row -> E) (userId : string)
    (res : FetchResult) : list E :=
  match res with
  | Response status (Some body) =>
      if (400 <=? status)%nat then []
      else listedRows col mk userId (default [] (values body))
  | _ => []
  end.

(** The metadata probe of [testConnection]. *)
Definition probeRequest (cfg : GoogleSheetsConfig) : Request :=
  {| req_spreadsheet := spreadsheetId cfg;
     req_endpoint := Metadata;
     req_method := GET;
     req_body := None |}.

(** The probe succeeded and its body carries [properties]. *)
Definition carries_properties (res : FetchResult) : Prop :=
  exists status body,
    res = Response status (Some body) /\ (status < 400)%nat /\
    properties body = true.

(** What [makeRequest] throws on a failed fetch. *)
Definition thrown_by (res : FetchResult) : option Thrown :=
  match res with
  | FetchThrows e => Some (TransportError e)
  | Response status body =>
      if (400 <=? status)%nat
      then Some (ApiError (errorMessage status body))
      else None
  end.

(** What follows a write whose answer is [res]. *)
Definition after_write (res : FetchResult) : Outcome unit :=
  match thrown_by res with
  | Some e => Raised e
  | None => Returned tt
  end.

(** A response body without provider message and details. *)
Definition bare_error (body : option ResponseBody) : Prop :=
  ((body ≫= error_body) ≫= error_message) = None /\
  ((body ≫= error_body) ≫= error_details) = None.

(** The read and the write of the header range of a sheet. *)
Definition headerRead (cfg : GoogleSheetsConfig) (sheet lastCol : string)
    : Request :=
  {| req_spreadsheet := spreadsheetId cfg;
     req_endpoint := ValuesRange sheet "A" 1 lastCol 1;
     req_method := GET;
     req_body := None |}.

Definition headerWrite (cfg : GoogleSheetsConfig) (sheet lastCol : string)
    (headers : Row) : Request :=
  {| req_spreadsheet := spreadsheetId cfg;
     req_endpoint := ValuesRange sheet "A" 1 lastCol 1;
     req_method := PUT;
     req_body := Some {| body_values := [headers];
                         valueInputOption := None |} |}.

(** The overwrite of one row, and the clearing of one row. *)
Definition rowWrite (cfg : GoogleSheetsConfig) (sheet lastCol : string)
    (rowNumber : nat) (row : Row) : Request :=
  {| req_spreadsheet := spreadsheetId cfg;
     req_endpoint := ValuesRange sheet "A" rowNumber lastCol rowNumber;
     req_method := PUT;
     req_body := Some {| body_values := [row]; valueInputOption := None |} |}.

Definition rowClear (cfg : GoogleSheetsConfig) (sheet lastCol : string)
    (rowNumber : nat) : Request :=
  {| req_spreadsheet := spreadsheetId cfg;
     req_endpoint := ValuesRangeClear sheet "A" rowNumber lastCol rowNumber;
     req_method := POST;
     req_body := None |}.

Definition is_not_found {A} (o : Outcome A) : Prop :=
  exists message, o = Raised (NotFound message).

(** ** Further vocabulary: create, delete, callers *)

(** The [newAppointment] object of [createAppointment]. *)
Definition newAppointment (millis random now : string)
    (appointment : Appointment.Draft.t) : Appointment.t :=
  {| Appointment.id := "apt_" ++ millis ++ "_" ++ random;
     Appointment.patientName := Appointment.Draft.patientName appointment;
     Appointment.patientPhone := Appointment.Draft.patientPhone appointment;
     Appointment.patientEmail := Appointment.Draft.patientEmail appointment;
     Appointment.appointmentDate :=
       Appointment.Draft.appointmentDate appointment;
     Appointment.appointmentTime :=
       Appointment.Draft.appointmentTime appointment;
     Appointment.serviceType := Appointment.Draft.serviceType appointment;
     Appointment.status := Appointment.Draft.status appointment;
     Appointment.notes := Appointment.Draft.notes appointment;
     Appointment.whatsappMessageId :=
       Appointment.Draft.whatsappMessageId appointment;
     Appointment.smsMessageId := Appointment.Draft.smsMessageId appointment;
     Appointment.createdAt := now;
     Appointment.updatedAt := now;
     Appointment.userId := Appointment.Draft.userId appointment |}.

(** The [newPatient] object of [createPatient]. *)
Definition newPatient (millis random now : string)
    (patient : Patient.Draft.t) : Patient.t :=
  {| Patient.id := "pat_" ++ millis ++ "_" ++ random;
     Patient.name := Patient.Draft.name patient;
     Patient.phone := Patient.Draft.phone patient;
     Patient.email := Patient.Draft.email patient;
     Patient.dateOfBirth := Patient.Draft.dateOfBirth patient;
     Patient.address := Patient.Draft.address patient;
     Patient.emergencyContact := Patient.Draft.emergencyContact patient;
     Patient.medicalNotes := Patient.Draft.medicalNotes patient;
     Patient.createdAt := now;
     Patient.updatedAt := now;
     Patient.userId := Patient.Draft.userId patient |}.

(** The append of one row. *)
Definition rowAppend (cfg : GoogleSheetsConfig) (sheet : string) (row : Row)
    : Request :=
  {| req_spreadsheet := spreadsheetId cfg;
     req_endpoint := ValuesAppend sheet;
     req_method := POST;
     req_body := Some {| body_values := [row];
                         valueInputOption := Some "RAW" |} |}.

(** The outcome of a request that returns [a] unless it throws. *)
Definition unless_thrown {A} (res : FetchResult) (a : A) : Outcome A :=
  match thrown_by res with
  | Some e => Raised e
  | None => Returned a
  end.

(** A request for the header range of the appointments or of the patients
    sheet, carrying the canonical header row when it is a write and nothing
    when it is a read. *)
Definition is_header_request (cfg : GoogleSheetsConfig) (r : Request) : Prop :=
  r = headerRead cfg (appointmentsSheet cfg) "N" \/
  r = headerWrite cfg (appointmentsSheet cfg) "N" appointmentHeaders \/
  r = headerRead cfg (patientsSheet cfg) "K" \/
  r = headerWrite cfg (patientsSheet cfg) "K" patientHeaders.

(** The cell of grid row [j] of a sheet, as a row ([None] when the sheet or
    the row does not exist). *)
Definition grid_row (ws : gmap string (list Row)) (sheet : string) (j : nat)
    : option Row :=
  ws !! sheet ≫= (fun rows => rows !! j).

(** The number of rows of a sheet. *)
Definition grid_height (ws : gmap string (list Row)) (sheet : string)
    : option nat :=
  length <$> ws !! sheet.

(** A data row belongs to [userId]. *)
Definition owned_by (col : nat) (userId : string) (row : Row) : bool :=
  strict_eq (row !! col) userId.

(** What an operation on one sheet may change, from [ws] to [ws']: no
    other sheet, not the number of rows, not the header row, and at most
    one row in all. *)
Definition changes_one_data_row (sheet : string)
    (ws ws' : gmap string (list Row)) : Prop :=
  (forall s, s <> sheet -> ws' !! s = ws !! s) /\
  grid_height ws' sheet = grid_height ws sheet /\
  grid_row ws' sheet 0 = grid_row ws sheet 0 /\
  exists i, forall j, j <> i -> grid_row ws' sheet j = grid_row ws sheet j.

(** ** Appointments view (src/components/appointments/AppointmentsView.tsx) *)

(** [statusCounts]. *)
Record StatusCounts := {
  count_all : nat;
  count_pending : nat;
  count_confirmed : nat;
  count_completed : nat;
  count_cancelled : nat
}.

Definition has_status (s : string) (a : Appointment.t) : bool :=
  String.eqb (Appointment.status a) s.

Definition statusCounts (appointments : list Appointment.t) : StatusCounts :=
  {| count_all := length appointments;
     count_pending := length (List.filter (has_status "pending") appointments);
     count_confirmed :=
       length (List.filter (has_status "confirmed") appointments);
     count_completed :=
       length (List.filter (has_status "completed") appointments);
     count_cancelled :=
       length (List.filter (has_status "cancelled") appointments) |}.

(** The form of a new appointment. *)
Record AppointmentForm := {
  form_patientName : string;
  form_patientPhone : string;
  form_patientEmail : string;
  form_appointmentDate : string;
  form_appointmentTime : string;
  form_serviceType : string;
  form_notes : string
}.

Definition emptyAppointmentForm : AppointmentForm :=
  {| form_patientName := ""; form_patientPhone := "";
     form_patientEmail := ""; form_appointmentDate := "";
     form_appointmentTime := ""; form_serviceType := "";
     form_notes := "" |}.

Inductive Toast :=
| ToastError (message : string)
| ToastSuccess (message : string).

(** What [handleCreateAppointment] leaves behind: the local list of
    appointments, the form, whether it closed the dialog, and the toast
    shown ([None] when the handler returned at once). *)
Record AppointmentsViewState := {
  view_appointments : list Appointment.t;
  view_form : AppointmentForm;
  view_dialogClosed : bool;
  view_toast : option Toast
}.

(** [{ ...newAppointment, status: 'pending', userId: user.id }]. *)
Definition draftOfForm (form : AppointmentForm) (userId : string)
    : Appointment.Draft.t :=
  {| Appointment.Draft.patientName := form_patientName form;
     Appointment.Draft.patientPhone := form_patientPhone form;
     Appointment.Draft.patientEmail := Some (form_patientEmail form);
     Appointment.Draft.appointmentDate := form_appointmentDate form;
     Appointment.Draft.appointmentTime := form_appointmentTime form;
     Appointment.Draft.serviceType := form_serviceType form;
     Appointment.Draft.status := "pending";
     Appointment.Draft.notes := Some (form_notes form);
     Appointment.Draft.whatsappMessageId := None;
     Appointment.Draft.smsMessageId := None;
     Appointment.Draft.userId := userId |}.

(** The required-field test of [handleCreateAppointment]. *)
Definition form_incomplete (form : AppointmentForm) : bool :=
  String.eqb (form_patientName form) "" ||
  String.eqb (form_patientPhone form) "" ||
  String.eqb (form_appointmentDate form) "" ||
  String.eqb (form_appointmentTime form) "" ||
  String.eqb (form_serviceType form) "".

(** [handleCreateAppointment]; [service] and [user] are [None] when the
    view has no service or no signed-in user. *)
Definition handleCreateAppointment (service : option GoogleSheetsConfig)
    (user : option string) (millis random now : string)
    (appointments : list Appointment.t) (form : AppointmentForm)
    : Prog AppointmentsViewState :=
  let untouched toast :=
    {| view_appointments := appointments; view_form := form;
       view_dialogClosed := false; view_toast := toast |} in
  match service, user with
  | Some cfg, Some userId =>
      if form_incomplete form
      then Ret (untouched
                  (Some (ToastError "Please fill in all required fields")))
      else
        try_catch
          (await appointment <-
             createAppointment cfg millis random now
               (draftOfForm form userId);
           Ret {| view_appointments := appointment :: appointments;
                  view_form := emptyAppointmentForm;
                  view_dialogClosed := true;
                  view_toast :=
                    Some (ToastSuccess "Appointment created successfully!") |})
          (fun _ =>
             Ret (untouched (Some (ToastError "Failed to create appointment"))))
  | _, _ => Ret (untouched None)
  end.

(** [{ status: newStatus, userId: user.id }]. *)
Definition statusChange (newStatus userId : string) : Appointment.Partial.t :=
  {| Appointment.Partial.id := None;
     Appointment.Partial.patientName := None;
     Appointment.Partial.patientPhone := None;
     Appointment.Partial.patientEmail := None;
     Appointment.Partial.appointmentDate := None;
     Appointment.Partial.appointmentTime := None;
     Appointment.Partial.serviceType := None;
     Appointment.Partial.status := Some newStatus;
     Appointment.Partial.notes := None;
     Appointment.Partial.whatsappMessageId := None;
     Appointment.Partial.smsMessageId := None;
     Appointment.Partial.createdAt := None;
     Appointment.Partial.updatedAt := None;
     Appointment.Partial.userId := Some userId |}.

(** [{ ...apt, status: newStatus, updatedAt: now }]. *)
Definition withStatus (newStatus now : string) (apt : Appointment.t)
    : Appointment.t :=
  {| Appointment.id := Appointment.id apt;
     Appointment.patientName := Appointment.patientName apt;
     Appointment.patientPhone := Appointment.patientPhone apt;
     Appointment.patientEmail := Appointment.patientEmail apt;
     Appointment.appointmentDate := Appointment.appointmentDate apt;
     Appointment.appointmentTime := Appointment.appointmentTime apt;
     Appointment.serviceType := Appointment.serviceType apt;
     Appointment.status := newStatus;
     Appointment.notes := Appointment.notes apt;
     Appointment.whatsappMessageId := Appointment.whatsappMessageId apt;
     Appointment.smsMessageId := Appointment.smsMessageId apt;
     Appointment.createdAt := Appointment.createdAt apt;
     Appointment.updatedAt := now;
     Appointment.userId := Appointment.userId apt |}.

(** The local list after a status change of [appointmentId]. *)
Definition markStatus (appointmentId newStatus now : string)
    (appointments : list Appointment.t) : list Appointment.t :=
  List.map
    (fun apt =>
       if String.eqb (Appointment.id apt) appointmentId
       then withStatus newStatus now apt
       else apt)
    appointments.

(** [handleStatusChange]: the local list it leaves and the toast it shows.
    [now] is the clock reading inside [updateAppointment], [nowLocal] the
    later reading of the handler itself. *)
Definition handleStatusChange (service : option GoogleSheetsConfig)
    (user : option string) (now nowLocal : string)
    (appointments : list Appointment.t) (appointmentId newStatus : string)
    : Prog (list Appointment.t * option Toast) :=
  match service, user with
  | Some cfg, Some userId =>
      try_catch
        (await_ updateAppointment cfg now appointmentId
                  (statusChange newStatus userId);
         Ret (markStatus appointmentId newStatus nowLocal appointments,
              Some (ToastSuccess ("Appointment " ++ newStatus))))
        (fun _ =>
           Ret (appointments,
                Some (ToastError "Failed to update appointment")))
  | _, _ => Ret (appointments, None)
  end.

(** ** Patients view *)

(** The form of the patient dialog. *)
Record PatientForm := {
  form_name : string;
  form_phone : string;
  form_email : string;
  form_dateOfBirth : string;
  form_address : string;
  form_emergencyContact : string;
  form_medicalNotes : string
}.

(** The form [handleEdit] fills from a patient. *)
Definition formOfPatient (patient : Patient.t) : PatientForm :=
  {| form_name := Patient.name patient;
     form_phone := Patient.phone patient;
     form_email := js_or (Patient.email patient) "";
     form_dateOfBirth := js_or (Patient.dateOfBirth patient) "";
     form_address := js_or (Patient.address patient) "";
     form_emergencyContact := js_or (Patient.emergencyContact patient) "";
     form_medicalNotes := js_or (Patient.medicalNotes patient) "" |}.

(** [{ ...formData, userId: user.id }] as the updates of [updatePatient]. *)
Definition updatesOfForm (form : PatientForm) (userId : string)
    : Patient.Partial.t :=
  {| Patient.Partial.id := None;
     Patient.Partial.name := Some (form_name form);
     Patient.Partial.phone := Some (form_phone form);
     Patient.Partial.email := Some (form_email form);
     Patient.Partial.dateOfBirth := Some (form_dateOfBirth form);
     Patient.Partial.address := Some (form_address form);
     Patient.Partial.emergencyContact := Some (form_emergencyContact form);
     Patient.Partial.medicalNotes := Some (form_medicalNotes form);
     Patient.Partial.createdAt := None;
     Patient.Partial.updatedAt := None;
     Patient.Partial.userId := Some userId |}.

(** [{ ...formData, userId: user.id }] as the argument of [createPatient]. *)
Definition patientDraftOfForm (form : PatientForm) (userId : string)
    : Patient.Draft.t :=
  {| Patient.Draft.name := form_name form;
     Patient.Draft.phone := form_phone form;
     Patient.Draft.email := Some (form_email form);
     Patient.Draft.dateOfBirth := Some (form_dateOfBirth form);
     Patient.Draft.address := Some (form_address form);
     Patient.Draft.emergencyContact := Some (form_emergencyContact form);
     Patient.Draft.medicalNotes := Some (form_medicalNotes form);
     Patient.Draft.userId := userId |}.

(** What [handleSubmit] leaves behind: the reloaded list when
    [loadPatients] ran, whether the form was reset and the dialog closed,
    and the toast. *)
Record PatientsViewState := {
  view_patients : option (list Patient.t);
  view_patientDialogClosed : bool;
  view_patientToast : option Toast
}.

(** [handleSubmit] of the patients view; [editingPatient] is the patient
    being edited, if any. *)
Definition handleSubmit (service : option GoogleSheetsConfig)
    (user : option string) (millis random now : string)
    (editingPatient : option Patient.t) (formData : PatientForm)
    : Prog PatientsViewState :=
  match service, user with
  | Some cfg, Some userId =>
      try_catch
        (await toast <-
           match editingPatient with
           | Some patient =>
               await_ updatePatient cfg now (Patient.id patient)
                        (updatesOfForm formData userId);
               Ret (ToastSuccess "Patient updated successfully")
           | None =>
               await_ createPatient cfg millis random now
                        (patientDraftOfForm formData userId);
               Ret (ToastSuccess "Patient added successfully")
           end;
         await patientsData <- getPatients cfg userId;
         Ret {| view_patients := Some patientsData;
                view_patientDialogClosed := true;
                view_patientToast := Some toast |})
        (fun _ =>
           Ret {| view_patients := None;
                  view_patientDialogClosed := false;
                  view_patientToast :=
                    Some (ToastError "Failed to save patient") |})
  | _, _ => Ret {| view_patients := None;
                   view_patientDialogClosed := false;
                   view_patientToast := None |}
  end.

(** ** Settings (src/components/settings/GoogleSheetsSettings.tsx) *)

(** The class [[a-zA-Z0-9-_]]. *)
Definition is_id_char (c : ascii) : bool :=
  let n := nat_of_ascii c in
  ((97 <=? n) && (n <=? 122))%nat || ((65 <=? n) && (n <=? 90))%nat ||
  ((48 <=? n) && (n <=? 57))%nat || (n =? 45)%nat || (n =? 95)%nat.

(** The longest run of class characters at the start of [s]. *)
Fixpoint id_run (s : string) : string :=
  match s with
  | EmptyString => EmptyString
  | String c s' => if is_id_char c then String c (id_run s') else EmptyString
  end.

(** Every character of [s] is in the class. *)
Fixpoint all_id_chars (s : string) : bool :=
  match s with
  | EmptyString => true
  | String c s' => is_id_char c && all_id_chars s'
  end.

(** [s] without its first [n] characters. *)
Fixpoint string_drop (n : nat) (s : string) : string :=
  match n, s with
  | O, _ => s
  | S n', String _ s' => string_drop n' s'
  | S _, EmptyString => EmptyString
  end.

(** Group 1 of [url.match(/\/spreadsheets\/d\/([a-zA-Z0-9-_]+)/)]: the
    leftmost place where the marker is followed by a class character, and
    the longest run of class characters there. *)
Fixpoint spreadsheetIdMatch (url : string) : option string :=
  let here :=
    if String.prefix "/spreadsheets/d/" url
    then match id_run (string_drop 16 url) with
         | EmptyString => None
         | run => Some run
         end
    else None in
  match here with
  | Some run => Some run
  | None =>
      match url with
      | EmptyString => None
      | String _ rest => spreadsheetIdMatch rest
      end
  end.

Definition extractSpreadsheetId (url : string) : string :=
  match spreadsheetIdMatch url with
  | Some id => id
  | None => url
  end.

(** What [handleSave] leaves behind: whether the configuration was written
    to the local storage, the connection flag and the connection error it
    set last ([None] when it set none; the error [Some None] is [null]),
    and the toast. *)
Record SaveState := {
  save_stored : bool;
  save_isConnected : option bool;
  save_connectionError : option (option string);
  save_toast : Toast
}.

(** [handleSave]; the settings component builds the service from the
    configuration it holds. *)
Definition handleSave (config : GoogleSheetsConfig) : Prog SaveState :=
  if String.eqb (spreadsheetId config) ""
  then Ret {| save_stored := false;
              save_isConnected := None;
              save_connectionError := None;
              save_toast := ToastError "Please enter a spreadsheet ID" |}
  else
    try_catch
      (await result <- testConnection (construct config);
       if success result
       then
         await_ initializeSheets (construct config);
         Ret {| save_stored := true;
                save_isConnected := Some true;
                save_connectionError := Some None;
                save_toast :=
                  ToastSuccess
                    "Google Sheets configuration saved successfully!" |}
       else
         let errorMsg :=
           js_or (error result)
             "Failed to connect to Google Sheets. Please check your configuration." in
         Ret {| save_stored := false;
                save_isConnected := None;
                save_connectionError := Some (Some errorMsg);
                save_toast := ToastError errorMsg |})
      (fun e =>
         let errorMsg :=
           default "Failed to save configuration" (error_message_of e) in
         Ret {| save_stored := false;
                save_isConnected := None;
                save_connectionError := Some (Some errorMsg);
                save_toast := ToastError errorMsg |}).

(** The result of [testConnection] for a configuration with a spreadsheet
    id, from the answer to its probe. *)
Definition probeResult (res : FetchResult) : ConnectionResult :=
  match thrown_by res with
  | Some e => {| success := false; error := Some (connectionError e) |}
  | None =>
      match res with
      | Response _ (Some body) =>
          if properties body
          then {| success := true; error := None |}
          else {| success := false;
                  error := Some "Invalid spreadsheet response" |}
      | _ => {| success := false;
                error := Some "Invalid spreadsheet response" |}
      end
  end.

(** ** Dashboard (src/components/dashboard/Dashboard.tsx) *)

Record DashboardStats := {
  totalAppointments : nat;
  todayAppointments : nat;
  pendingAppointments : nat;
  totalPatients : nat;
  whatsappMessages : nat;
  smsMessages : nat
}.

(** What [loadDashboardData] sets: the counters and the recent
    appointments. *)
Record DashboardData := {
  dashboard_stats : DashboardStats;
  dashboard_recent : list Appointment.t
}.

(** Truthiness of a possibly-absent string. *)
Definition truthy (x : option string) : bool :=
  match x with
  | Some s => negb (String.eqb s "")
  | None => false
  end.

(** [loadDashboardData].  The date library and the sort are taken as
    given: [isTodayDate s] stands for [isToday(new Date(s))], and
    [sortNewestFirst] for the sort by [createdAt], newest first.  The
    result is [None] when the handler sets nothing. *)
Definition loadDashboardData (isTodayDate : string -> bool)
    (sortNewestFirst : list Appointment.t -> list Appointment.t)
    (service : option GoogleSheetsConfig) (user : option string)
    : Prog (option DashboardData) :=
  match service, user with
  | Some cfg, Some userId =>
      try_catch
        (await appointments <- getAppointments cfg userId;
         await patients <- getPatients cfg userId;
         let todayAppointments :=
           length (List.filter
                     (fun apt => isTodayDate (Appointment.appointmentDate apt))
                     appointments) in
         let pendingAppointments :=
           length (List.filter (has_status "pending") appointments) in
         Ret (Some
                {| dashboard_stats :=
                     {| totalAppointments := length appointments;
                        todayAppointments := todayAppointments;
                        pendingAppointments := pendingAppointments;
                        totalPatients := length patients;
                        whatsappMessages :=
                          length (List.filter
                                    (fun apt =>
                                       truthy
                                         (Appointment.whatsappMessageId apt))
                                    appointments);
                        smsMessages :=
                          length (List.filter
                                    (fun apt =>
                                       truthy (Appointment.smsMessageId apt))
                                    appointments) |};
                   dashboard_recent :=
                     take 5 (sortNewestFirst appointments) |}))
        (fun _ => Ret None)
  | _, _ => Ret None
  end.

(** ** Sample data *)

Definition sampleConfig : GoogleSheetsConfig :=
  construct {| spreadsheetId := "sheet-1";
               appointmentsSheetName := None;
               patientsSheetName := None |}.

Definition sampleAppointment (id userId status : string) : Appointment.t :=
  {| Appointment.id := id;
     Appointment.patientName := "Ann Lee";
     Appointment.patientPhone := "555-0100";
     Appointment.patientEmail := Some "";
     Appointment.appointmentDate := "2025-03-01";
     Appointment.appointmentTime := "10:00";
     Appointment.serviceType := "checkup";
     Appointment.status := status;
     Appointment.notes := Some "";
     Appointment.whatsappMessageId := Some "";
     Appointment.smsMessageId := Some "";
     Appointment.createdAt := "2025-02-01T09:00:00.000Z";
     Appointment.updatedAt := "2025-02-01T09:00:00.000Z";
     Appointment.userId := userId |}.

(** An appointment booked without an e-mail address. *)
Definition walkIn : Appointment.t :=
  {| Appointment.id := "apt_1";
     Appointment.patientName := "Ann Lee";
     Appointment.patientPhone := "555-0100";
     Appointment.patientEmail := None;
     Appointment.appointmentDate := "2025-03-01";
     Appointment.appointmentTime := "10:00";
     Appointment.serviceType := "checkup";
     Appointment.status := "pending";
     Appointment.notes := Some "first visit";
     Appointment.whatsappMessageId := Some "";
     Appointment.smsMessageId := Some "";
     Appointment.createdAt := "2025-02-01T09:00:00.000Z";
     Appointment.updatedAt := "2025-02-01T09:00:00.000Z";
     Appointment.userId := "user-a" |}.

Definition samplePatient (id userId : string) : Patient.t :=
  {| Patient.id := id;
     Patient.name := "Ann Lee";
     Patient.phone := "555-0100";
     Patient.email := Some "ann@example.org";
     Patient.dateOfBirth := Some "";
     Patient.address := Some "";
     Patient.emergencyContact := Some "";
     Patient.medicalNotes := Some "";
     Patient.createdAt := "2025-02-01T09:00:00.000Z";
     Patient.updatedAt := "2025-02-01T09:00:00.000Z";
     Patient.userId := userId |}.

(** A table shared by two owners: the record of [user-b] sits in row 2,
    the record of [user-a] in row 3. *)
Definition sharedAppointments : list Row :=
  [ appointmentHeaders;
    appointmentToRow (sampleAppointment "apt_2" "user-b" "pending");
    appointmentToRow (sampleAppointment "apt_1" "user-a" "pending") ].

Definition sharedPatients : list Row :=
  [ patientHeaders;
    patientToRow (samplePatient "pat_2" "user-b");
    patientToRow (samplePatient "pat_1" "user-a") ].

Definition sharedWorld : gmap string (list Row) :=
  {[ "Appointments" := sharedAppointments; "Patients" := sharedPatients ]}.

(** A table in which two rows of [user-a] carry the same id. *)
Definition twinWorld : gmap string (list Row) :=
  {[ "Appointments" :=
       [ appointmentHeaders;
         appointmentToRow (sampleAppointment "apt_1" "user-a" "pending");
         appointmentToRow walkIn ];
     "Patients" := [ patientHeaders ] ]}.

(** Both sheets exist and hold no cell yet. *)
Definition blankWorld : gmap string (list Row) :=
  {[ "Appointments" := []; "Patients" := [] ]}.

(** A configuration saved without a spreadsheet id. *)
Definition unconfigured : GoogleSheetsConfig :=
  construct {| spreadsheetId := "";
               appointmentsSheetName := None;
               patientsSheetName := None |}.

(** A 403 answer whose provider message names a project number. *)
Definition deniedResponse : FetchResult :=
  Response 403
    (Some {| values := None;
             properties := false;
             error_body :=
               Some {| error_message :=
                         Some "The caller does not have permission for project 240417";
                       error_details := None |} |}).

(** The status change the appointments view sends. *)
Definition confirmFor (userId : string) : Appointment.Partial.t :=
  Appointment.Partial.set Appointment.UserId userId
    (Appointment.Partial.set Appointment.Status "confirmed"
       Appointment.Partial.empty).

(** A partial update that supplies an id and both timestamps. *)
Definition backdated : Appointment.Partial.t :=
  Appointment.Partial.set Appointment.Id "apt_7"
    (Appointment.Partial.set Appointment.CreatedAt "1999-01-01T00:00:00.000Z"
       (Appointment.Partial.set Appointment.UpdatedAt
          "1999-01-01T00:00:00.000Z"
          (Appointment.Partial.set Appointment.UserId "user-a"
             Appointment.Partial.empty))).

(** What the booking form sends for a new appointment of [user-a]. *)
Definition sampleDraft : Appointment.Draft.t :=
  {| Appointment.Draft.patientName := "Ann Lee";
     Appointment.Draft.patientPhone := "555-0100";
     Appointment.Draft.patientEmail := Some "";
     Appointment.Draft.appointmentDate := "2025-03-01";
     Appointment.Draft.appointmentTime := "10:00";
     Appointment.Draft.serviceType := "checkup";
     Appointment.Draft.status := "pending";
     Appointment.Draft.notes := Some "";
     Appointment.Draft.whatsappMessageId := None;
     Appointment.Draft.smsMessageId := None;
     Appointment.Draft.userId := "user-a" |}.

(** A sheet with its header row, and the creation of the sample
    appointment in it. *)
Definition headedWorld : gmap string (list Row) :=
  {[ "Appointments" := [appointmentHeaders];
     "Patients" := [patientHeaders] ]}.

Definition sampleCreation
    : Outcome Appointment.t * gmap string (list Row) * list Request :=
  run sheets_backend
    (createAppointment sampleConfig "1738400000000" "k3x9q2m1z"
       "2025-02-01T09:00:00.000Z" sampleDraft)
    headedWorld.

Definition createdId : string := "apt_1738400000000_k3x9q2m1z".

(** The created appointment as a listing returns it. *)
Definition createdAppointment : Appointment.t :=
  {| Appointment.id := createdId;
     Appointment.patientName := "Ann Lee";
     Appointment.patientPhone := "555-0100";
     Appointment.patientEmail := Some "";
     Appointment.appointmentDate := "2025-03-01";
     Appointment.appointmentTime := "10:00";
     Appointment.serviceType := "checkup";
     Appointment.status := "pending";
     Appointment.notes := Some "";
     Appointment.whatsappMessageId := Some "";
     Appointment.smsMessageId := Some "";
     Appointment.createdAt := "2025-02-01T09:00:00.000Z";
     Appointment.updatedAt := "2025-02-01T09:00:00.000Z";
     Appointment.userId := "user-a" |}.

(** * Lemmas *)

#[local] Arguments Nat.leb : simpl never.
#[local] Arguments Nat.ltb : simpl never.

Section Lists.
Context {A : Type} (p : A -> bool).

Lemma findIndex_Some (l : list A) (k : nat) :
  findIndex p l = Some k ->
  exists x, l !! k = Some x /\ p x = true /\
            forall i y, i < k -> l !! i = Some y -> p y = false.
Proof.
  revert k. induction l as [|a l IH]; intros k; simpl; [done|].
  destruct (p a) eqn:Ha.
  - intros [= <-]. exists a. repeat split; auto. intros; lia.
  - destruct (findIndex p l) as [j|]; simpl; [|done].
    intros [= <-]. destruct (IH j eq_refl) as (x & Hx & Hp & Hlt).
    exists x. repeat split; auto.
    intros [|i] y Hi; simpl.
    + by intros [= <-].
    + apply Hlt. lia.
Qed.

Lemma findIndex_None (l : list A) :
  findIndex p l = None <-> forall x, x ∈ l -> p x = false.
Proof.
  induction l as [|a l IH]; simpl.
  - split; [|done]. intros _ x Hx. by apply elem_of_nil in Hx.
  - destruct (p a) eqn:Ha.
    + split; [done|]. intros H. rewrite H in Ha; [done|]. left.
    + destruct (findIndex p l) as [j|]; simpl.
      * split; [done|]. intros H.
        assert (Some j = None) as Hj; [|done].
        apply IH. intros x Hx. apply H. by right.
      * split; [|done]. intros _ x Hx.
        apply elem_of_cons in Hx as [->|Hx]; [done|]. by apply IH.
Qed.

Lemma findIndex_app_first (l1 l2 : list A) (y : A) :
  (forall x, x ∈ l1 -> p x = false) -> p y = true ->
  findIndex p (l1 ++ y :: l2)%list = Some (length l1).
Proof.
  induction l1 as [|a l1 IH]; simpl; intros Hl Hy.
  - by rewrite Hy.
  - rewrite (Hl a); [|left]. rewrite IH; auto.
    intros x Hx. apply Hl. by right.
Qed.
End Lists.

Section Collect.
Context {E : Type} (col : nat) (mk : Row -> E) (userId : string).

Lemma collectRows_app (l1 l2 : list Row) :
  collectRows col mk userId (l1 ++ l2)
  = (collectRows col mk userId l1 ++ collectRows col mk userId l2)%list.
Proof.
  induction l1 as [|row l1 IH]; simpl; [done|].
  destruct (strict_eq (row !! col) userId); simpl; by rewrite IH.
Qed.

Lemma collectRows_length (l : list Row) :
  length (collectRows col mk userId l) <= length l.
Proof.
  induction l as [|row l IH]; simpl; [done|].
  destruct (strict_eq (row !! col) userId); simpl; lia.
Qed.

Lemma elem_of_collectRows (l : list Row) (x : E) :
  x ∈ collectRows col mk userId l <->
  exists row, row ∈ l /\ strict_eq (row !! col) userId = true /\ x = mk row.
Proof.
  induction l as [|row l IH]; simpl.
  - split; [intros H; by apply elem_of_nil in H|].
    intros (r & Hr & _). by apply elem_of_nil in Hr.
  - destruct (strict_eq (row !! col) userId) eqn:Hrow.
    + rewrite elem_of_cons, IH. split.
      * intros [->|(r & Hr & Ho & ->)].
        -- exists row. split; [left|done].
        -- exists r. split; [by right|done].
      * intros (r & Hr & Ho & ->).
        apply elem_of_cons in Hr as [->|Hr]; [by left|].
        right. by exists r.
    + rewrite IH. split.
      * intros (r & Hr & Ho & ->). exists r. split; [by right|done].
      * intros (r & Hr & Ho & ->).
        apply elem_of_cons in Hr as [->|Hr]; [congruence|].
        by exists r.
Qed.

Lemma elem_of_listedRows (rows : list Row) (x : E) :
  x ∈ listedRows col mk userId rows ->
  exists row, row ∈ rows /\ strict_eq (row !! col) userId = true
              /\ x = mk row.
Proof.
  unfold listedRows. destruct (length rows <=? 1)%nat.
  - intros H. by apply elem_of_nil in H.
  - intros (row & Hr & Ho & ->)%elem_of_collectRows.
    exists row. split; [|done].
    destruct rows; simpl in *; [done|]. by right.
Qed.
End Collect.

Lemma strict_eq_true (x : option string) (s : string) :
  strict_eq x s = true <-> x = Some s.
Proof.
  destruct x as [c|]; simpl; [|done].
  rewrite String.eqb_eq. split; congruence.
Qed.

Lemma js_or_same (s : string) : js_or (Some s) "" = s.
Proof. simpl. destruct (String.eqb_spec s ""); congruence. Qed.

Lemma js_or_nonempty (s d : string) : s <> "" -> js_or (Some s) d = s.
Proof. simpl. destruct (String.eqb_spec s ""); congruence. Qed.

Lemma js_or_default (x : option string) : js_or x "" = default "" x.
Proof. destruct x; [apply js_or_same|done]. Qed.

Section Run.
Context {W : Type} (h : Request -> W -> FetchResult * W).

Lemma run_bind {A B} (p : Prog A) (f : A -> Prog B) (w : W) :
  run h (bind p f) w =
    match run h p w with
    | (Returned a, w1, t1) =>
        let '(o, w2, t2) := run h (f a) w1 in (o, w2, (t1 ++ t2)%list)
    | (Raised e, w1, t1) => (Raised e, w1, t1)
    end.
Proof.
  revert w. induction p as [a|e|r k IH]; intros w; simpl.
  - by destruct (run h (f a) w) as [[o w2] t2].
  - done.
  - destruct (h r w) as [res w1]. rewrite IH.
    destruct (run h (k res) w1) as [[[a|e] w2] t1]; [|done].
    by destruct (run h (f a) w2) as [[o w3] t2].
Qed.

Lemma run_try_catch {A} (p : Prog A) (g : Thrown -> Prog A) (w : W) :
  run h (try_catch p g) w =
    match run h p w with
    | (Returned a, w1, t1) => (Returned a, w1, t1)
    | (Raised e, w1, t1) =>
        let '(o, w2, t2) := run h (g e) w1 in (o, w2, (t1 ++ t2)%list)
    end.
Proof.
  revert w. induction p as [a|e|r k IH]; intros w; simpl.
  - done.
  - by destruct (run h (g e) w) as [[o w2] t2].
  - destruct (h r w) as [res w1]. rewrite IH.
    destruct (run h (k res) w1) as [[[a|e] w2] t1]; [done|].
    by destruct (run h (g e) w2) as [[o w3] t2].
Qed.

(** [catch (error) { throw error }] changes nothing. *)
Lemma run_rethrow {A} (p : Prog A) (w : W) :
  run h (try_catch p (fun error => Throw error)) w = run h p w.
Proof.
  rewrite run_try_catch.
  destruct (run h p w) as [[[a|e] w1] t1]; simpl; [done|].
  by rewrite app_nil_r.
Qed.

Lemma run_makeRequest cfg endpoint options (w : W) :
  run h (makeRequest cfg endpoint options) w =
    let r := {| req_spreadsheet := spreadsheetId cfg;
                req_endpoint := endpoint;
                req_method := default GET (init_method options);
                req_body := init_body options |} in
    (match (h r w).1 with
     | FetchThrows e => Raised (TransportError e)
     | Response status body =>
         if (400 <=? status)%nat
         then Raised (ApiError (errorMessage status body))
         else Returned body
     end, (h r w).2, [r]).
Proof.
  unfold makeRequest. simpl. destruct (h _ w) as [[e|status body] w1]; simpl.
  - done.
  - by destruct (400 <=? status)%nat.
Qed.

Lemma run_getAppointments cfg userId (w : W) :
  run h (getAppointments cfg userId) w =
    let r := listRequest cfg (appointmentsSheet cfg) in
    (Returned (listingOf 13 rowToAppointment userId (h r w).1),
     (h r w).2, [r]).
Proof.
  unfold getAppointments, makeRequest, listRequest, listingOf, listedRows.
  simpl. destruct (h _ w) as [[e|status [body|]] w1]; simpl; try done.
  - destruct (400 <=? status)%nat; simpl; [done|].
    by destruct (length (default [] (values body)) <=? 1)%nat.
  - by destruct (400 <=? status)%nat.
Qed.

Lemma run_getPatients cfg userId (w : W) :
  run h (getPatients cfg userId) w =
    let r := listRequest cfg (patientsSheet cfg) in
    (Returned (listingOf 10 rowToPatient userId (h r w).1),
     (h r w).2, [r]).
Proof.
  unfold getPatients, makeRequest, listRequest, listingOf, listedRows.
  simpl. destruct (h _ w) as [[e|status [body|]] w1]; simpl; try done.
  - destruct (400 <=? status)%nat; simpl; [done|].
    by destruct (length (default [] (values body)) <=? 1)%nat.
  - by destruct (400 <=? status)%nat.
Qed.
End Run.

Lemma elem_of_listingOf {E} col (mk : Row -> E) userId res (x : E) :
  x ∈ listingOf col mk userId res ->
  exists row, strict_eq (row !! col) userId = true /\ x = mk row.
Proof.
  unfold listingOf. destruct res as [e|status [body|]];
    try (intros H; by apply elem_of_nil in H).
  destruct (400 <=? status)%nat; [intros H; by apply elem_of_nil in H|].
  intros (row & _ & Ho & ->)%elem_of_listedRows. by exists row.
Qed.

(** The listing loop keeps the rows whose owner cell holds exactly
    [userId], in the order of the table. *)
Lemma collectRows_filter {E} col (mk : Row -> E) (userId : string)
    (rows : list Row) :
  collectRows col mk userId rows
  = mk <$> filter (fun row => row !! col = Some userId) rows.
Proof.
  induction rows as [|row rows IH]; [done|].
  cbn [collectRows]. rewrite filter_cons.
  destruct (strict_eq (row !! col) userId) eqn:Ho.
  - apply strict_eq_true in Ho. rewrite decide_True by done.
    by rewrite fmap_cons, IH.
  - rewrite decide_False; [done|].
    intros Hcell%strict_eq_true. congruence.
Qed.

Lemma listingOf_filter {E} col (mk : Row -> E) (userId : string)
    (res : FetchResult) :
  listingOf col mk userId res
  = mk <$> match thrown_by res with
           | Some _ => []
           | None =>
               filter (fun row => row !! col = Some userId)
                 (drop 1 (fetched_rows res))
           end.
Proof.
  unfold listingOf, thrown_by, fetched_rows.
  destruct res as [e|status [body|]]; [done| |].
  - destruct (400 <=? status)%nat; [done|].
    unfold listedRows.
    destruct (default [] (values body)) as [|hd [|row rows]]; [done|done|].
    apply collectRows_filter.
  - by destruct (400 <=? status)%nat.
Qed.

Lemma owner_cell_in_row (row : Row) (col : nat) (userId : string) :
  row !! col = Some userId -> col < length row.
Proof. intros H. by apply lookup_lt_Some in H. Qed.

(** * Properties of the record store *)

(** C3. Whatever the backend answers, a listing is the parse of a
    selection of the fetched rows after the header, taken in the order of
    the table, and every selected row has an owner cell that holds exactly
    the requested [userId].  So every record a listing returns carries the
    requested owner, and rows whose owner cell differs from [userId],
    blank rows and rows too short to have an owner cell are never
    returned, for any owner, the empty one included.  When the read does
    not fail, the selection is all such rows.  Holds for appointments and
    for patients. *)
Theorem list_returns_only_owner_records {W}
    (h : Request -> W -> FetchResult * W) (w : W) cfg (userId : string) :
  (forall L w' trace,
     run h (getAppointments cfg userId) w = (Returned L, w', trace) ->
     let res := (h (listRequest cfg (appointmentsSheet cfg)) w).1 in
     let data := drop 1 (fetched_rows res) in
     (exists kept,
        L = rowToAppointment <$> kept /\
        kept `sublist_of` data /\
        (forall row, row ∈ kept ->
                     row !! 13 = Some userId /\ 13 < length row) /\
        (thrown_by res = None ->
         kept = filter (fun row => row !! 13 = Some userId) data)) /\
     (forall a, a ∈ L -> Appointment.userId a = userId)) /\
  (forall L w' trace,
     run h (getPatients cfg userId) w = (Returned L, w', trace) ->
     let res := (h (listRequest cfg (patientsSheet cfg)) w).1 in
     let data := drop 1 (fetched_rows res) in
     (exists kept,
        L = rowToPatient <$> kept /\
        kept `sublist_of` data /\
        (forall row, row ∈ kept ->
                     row !! 10 = Some userId /\ 10 < length row) /\
        (thrown_by res = None ->
         kept = filter (fun row => row !! 10 = Some userId) data)) /\
     (forall p, p ∈ L -> Patient.userId p = userId)).
Proof.
  split; intros L w' trace Hrun res data.
  - rewrite run_getAppointments in Hrun. simpl in Hrun.
    injection Hrun as <- _ _. fold res. split.
    + rewrite listingOf_filter. fold data. eexists. split; [done|].
      destruct (thrown_by res) as [e|].
      * split; [apply sublist_nil_l|]. split; [|done].
        intros row Hrow. by apply elem_of_nil in Hrow.
      * split; [apply sublist_filter|]. split; [|done].
        intros row [Hcell _]%list_elem_of_filter.
        split; [done|]. by apply (owner_cell_in_row row 13 userId).
    + intros a (row & Ho%strict_eq_true & ->)%elem_of_listingOf.
      simpl. rewrite Ho. apply js_or_same.
  - rewrite run_getPatients in Hrun. simpl in Hrun.
    injection Hrun as <- _ _. fold res. split.
    + rewrite listingOf_filter. fold data. eexists. split; [done|].
      destruct (thrown_by res) as [e|].
      * split; [apply sublist_nil_l|]. split; [|done].
        intros row Hrow. by apply elem_of_nil in Hrow.
      * split; [apply sublist_filter|]. split; [|done].
        intros row [Hcell _]%list_elem_of_filter.
        split; [done|]. by apply (owner_cell_in_row row 10 userId).
    + intros p (row & Ho%strict_eq_true & ->)%elem_of_listingOf.
      simpl. rewrite Ho. apply js_or_same.
Qed.

Lemma list_returns_only_owner_records_witness :
  (exists kept,
     [sampleAppointment "apt_1" "user-a" "pending"]
     = rowToAppointment <$> kept /\
     forall row, row ∈ kept -> row !! 13 = Some "user-a" /\ 13 < length row)
  /\ Appointment.userId (sampleAppointment "apt_1" "user-a" "pending")
     = "user-a"
  /\ Patient.userId (samplePatient "pat_1" "user-a") = "user-a".
Proof.
  pose proof (list_returns_only_owner_records sheets_backend sharedWorld
                sampleConfig "user-a") as [Ha Hp].
  destruct (Ha [sampleAppointment "apt_1" "user-a" "pending"] sharedWorld
              [listRequest sampleConfig "Appointments"])
    as [(kept & Hkept & _ & Hcells & _) Howner].
  { vm_compute. reflexivity. }
  destruct (Hp [samplePatient "pat_1" "user-a"] sharedWorld
              [listRequest sampleConfig "Patients"])
    as [_ Howner'].
  { vm_compute. reflexivity. }
  split; [|split].
  - exists kept. split; [exact Hkept|exact Hcells].
  - apply Howner. apply list_elem_of_here.
  - apply Howner'. apply list_elem_of_here.
Defined.

(** C6. A listing always returns: no thrown value leaves it, whatever the
    backend does.  It issues its one read, and its result is the empty
    sequence whenever that read fails (throws, or answers with a status of
    400 or more) and whenever the fetched table has at most one row. *)
Theorem list_swallows_failures {W}
    (h : Request -> W -> FetchResult * W) (w : W) cfg (userId : string) :
  let ra := listRequest cfg (appointmentsSheet cfg) in
  let rp := listRequest cfg (patientsSheet cfg) in
  (exists L,
     run h (getAppointments cfg userId) w = (Returned L, (h ra w).2, [ra]) /\
     (fetch_failed (h ra w).1 -> L = []) /\
     (length (fetched_rows (h ra w).1) <= 1 -> L = [])) /\
  (exists L,
     run h (getPatients cfg userId) w = (Returned L, (h rp w).2, [rp]) /\
     (fetch_failed (h rp w).1 -> L = []) /\
     (length (fetched_rows (h rp w).1) <= 1 -> L = [])).
Proof.
  intros ra rp. split.
  - exists (listingOf 13 rowToAppointment userId (h ra w).1).
    split; [apply run_getAppointments|].
    destruct (h ra w).1 as [e|status [body|]]; simpl; try done.
    split.
    + intros Hs. by apply Nat.leb_le in Hs as ->.
    + intros Hl. destruct (400 <=? status)%nat; [done|].
      unfold listedRows. by apply Nat.leb_le in Hl as ->.
  - exists (listingOf 10 rowToPatient userId (h rp w).1).
    split; [apply run_getPatients|].
    destruct (h rp w).1 as [e|status [body|]]; simpl; try done.
    split.
    + intros Hs. by apply Nat.leb_le in Hs as ->.
    + intros Hl. destruct (400 <=? status)%nat; [done|].
      unfold listedRows. by apply Nat.leb_le in Hl as ->.
Qed.

Lemma list_swallows_failures_witness :
  (run (answer (Response 503 None)) (getAppointments sampleConfig "user-a") tt).1.1
    = Returned [] /\
  (run sheets_backend (getPatients sampleConfig "user-a")
     {[ "Patients" := [patientHeaders] ]}).1.1 = Returned [].
Proof.
  split.
  - destruct (list_swallows_failures (answer (Response 503 None)) tt
                sampleConfig "user-a") as [(L & Hrun & Hfail & _) _].
    rewrite Hrun. simpl. f_equal. apply Hfail. simpl. lia.
  - destruct (list_swallows_failures sheets_backend
                {[ "Patients" := [patientHeaders] ]}
                sampleConfig "user-a") as [_ (L & Hrun & _ & Hshort)].
    rewrite Hrun. simpl. f_equal. apply Hshort. vm_compute. lia.
Defined.

(** ** Round trip *)

Lemma rowToAppointment_appointmentToRow (a : Appointment.t) :
  Appointment.status a <> "" ->
  (forall f, Appointment.get f a <> None) ->
  rowToAppointment (appointmentToRow a) = a.
Proof.
  intros Hs Hall.
  pose proof (Hall Appointment.PatientEmail) as H1.
  pose proof (Hall Appointment.Notes) as H2.
  pose proof (Hall Appointment.WhatsappMessageId) as H3.
  pose proof (Hall Appointment.SmsMessageId) as H4.
  destruct a as [? ? ? [e|] ? ? ? st [n|] [wa|] [sm|] ? ? ?];
    simpl in *; try done.
  unfold rowToAppointment, appointmentToRow.
  cbn [lookup list_lookup Appointment.status
       Appointment.id Appointment.patientName Appointment.patientPhone
       Appointment.patientEmail Appointment.appointmentDate
       Appointment.appointmentTime Appointment.serviceType
       Appointment.notes Appointment.whatsappMessageId
       Appointment.smsMessageId Appointment.createdAt
       Appointment.updatedAt Appointment.userId].
  rewrite !js_or_same. by rewrite (js_or_nonempty st).
Qed.

Lemma rowToPatient_patientToRow (p : Patient.t) :
  (forall f, Patient.get f p <> None) ->
  rowToPatient (patientToRow p) = p.
Proof.
  intros Hall.
  pose proof (Hall Patient.Email) as H1.
  pose proof (Hall Patient.DateOfBirth) as H2.
  pose proof (Hall Patient.Address) as H3.
  pose proof (Hall Patient.EmergencyContact) as H4.
  pose proof (Hall Patient.MedicalNotes) as H5.
  destruct p as [? ? ? [e|] [d|] [ad|] [em|] [mn|] ? ? ?];
    simpl in *; try done.
  unfold rowToPatient, patientToRow.
  cbn [lookup list_lookup Patient.id Patient.name
       Patient.phone Patient.email Patient.dateOfBirth Patient.address
       Patient.emergencyContact Patient.medicalNotes Patient.createdAt
       Patient.updatedAt Patient.userId].
  by rewrite !js_or_same.
Qed.

(** C5, as the code has it.  Serializing an entity and parsing the row
    back gives, field for field, the value that was stored, where a field
    that was absent comes back as the empty string; an entity whose
    optional fields are all present (empty or not) comes back equal.  The
    status of an appointment is one of its declared values, hence not
    empty. *)
Theorem roundtrip_up_to_absent_fields :
  (forall (a : Appointment.t) (f : Appointment.field),
     Appointment.status a <> "" ->
     Appointment.get f (rowToAppointment (appointmentToRow a))
     = Some (default "" (Appointment.get f a))) /\
  (forall a : Appointment.t,
     Appointment.status a <> "" ->
     (forall f, Appointment.get f a <> None) ->
     rowToAppointment (appointmentToRow a) = a) /\
  (forall (p : Patient.t) (f : Patient.field),
     Patient.get f (rowToPatient (patientToRow p))
     = Some (default "" (Patient.get f p))) /\
  (forall p : Patient.t,
     (forall f, Patient.get f p <> None) ->
     rowToPatient (patientToRow p) = p).
Proof.
  repeat split.
  - intros a f Hs. destruct a, f; unfold rowToAppointment, appointmentToRow;
      cbn [Appointment.get lookup list_lookup Appointment.status
           Appointment.id Appointment.patientName Appointment.patientPhone
           Appointment.patientEmail Appointment.appointmentDate
           Appointment.appointmentTime Appointment.serviceType
           Appointment.notes Appointment.whatsappMessageId
           Appointment.smsMessageId Appointment.createdAt
           Appointment.updatedAt Appointment.userId default] in *;
      rewrite ?js_or_same, ?js_or_default; try done.
    by rewrite js_or_nonempty.
  - apply rowToAppointment_appointmentToRow.
  - intros p f. destruct p, f; unfold rowToPatient, patientToRow;
      cbn [Patient.get lookup list_lookup Patient.id Patient.name
           Patient.phone Patient.email Patient.dateOfBirth Patient.address
           Patient.emergencyContact Patient.medicalNotes Patient.createdAt
           Patient.updatedAt Patient.userId default];
      by rewrite ?js_or_same, ?js_or_default.
  - apply rowToPatient_patientToRow.
Qed.

Lemma roundtrip_up_to_absent_fields_witness :
  rowToAppointment
    (appointmentToRow (sampleAppointment "apt_1" "user-a" "confirmed"))
  = sampleAppointment "apt_1" "user-a" "confirmed"
  /\ Appointment.patientEmail (rowToAppointment (appointmentToRow walkIn))
     = Some "".
Proof.
  destruct roundtrip_up_to_absent_fields as (Hget & Hall & _ & _).
  split.
  - apply Hall.
    + simpl. discriminate.
    + intros f. destruct f; simpl; discriminate.
  - apply (Hget walkIn Appointment.PatientEmail). simpl. discriminate.
Defined.

(** C5, counterexample to the claim as worded.  [walkIn] is a well-typed
    appointment without an e-mail address; its row holds the empty string
    in that column, and parsing gives an appointment whose e-mail is the
    empty string, not an absent one. *)
Lemma roundtrip_absent_email_not_preserved :
  Appointment.is_status (Appointment.status walkIn) /\
  Appointment.patientEmail walkIn = None /\
  Appointment.patientEmail (rowToAppointment (appointmentToRow walkIn))
    = Some "" /\
  rowToAppointment (appointmentToRow walkIn) <> walkIn.
Proof.
  repeat split.
  - by left.
  - discriminate.
Qed.

(** ** Connection test *)

Lemma prefix_app_l (s a b : string) :
  String.prefix s a = true -> String.prefix s (a ++ b) = true.
Proof.
  revert s. induction a as [|c' a IH]; intros [|c s]; simpl.
  all: try (by destruct b).
  all: try done.
  destruct (Ascii.ascii_dec c c'); [apply IH|done].
Qed.

Lemma includes_app_l (a b s : string) :
  includes a s = true -> includes (a ++ b) s = true.
Proof.
  induction a as [|c a IH].
  - change ("" ++ b) with b. cbn [includes]. rewrite orb_false_r. intros H.
    destruct s; [|done]. by destruct b.
  - change (String c a ++ b) with (String c (a ++ b)). cbn [includes].
    intros [H|H]%orb_true_iff.
    + apply (prefix_app_l _ _ b) in H.
      change (String c a ++ b) with (String c (a ++ b)) in H. by rewrite H.
    + rewrite IH; [|done]. apply orb_true_r.
Qed.

(** The text of an API error starts with the status code, so it contains
    whatever the status code contains. *)
Lemma errorMessage_includes (status : nat) body (s : string) :
  includes ("Google Sheets API error: " ++ show_nat status) s = true ->
  includes (errorMessage status body) s = true.
Proof.
  intros H. unfold errorMessage.
  destruct ((body ≫= error_body) ≫= error_message) as [m|],
           ((body ≫= error_body) ≫= error_details) as [d|];
    try destruct (String.eqb m ""); auto using includes_app_l.
Qed.

Lemma errorMessage_bare (status : nat) body :
  bare_error body ->
  errorMessage status body = "Google Sheets API error: " ++ show_nat status.
Proof. intros [Hm Hd]. unfold errorMessage. by rewrite Hm, Hd. Qed.

(** C9.  The claim selects the error of a failed probe by the status
    code of the probe.  The code means to, and misses: it searches the
    whole text of the thrown error, which holds the provider's message
    after the status code, for "404" before "403" and "400".  The probe
    is answered with status 403 and a provider message that names a
    project number containing the digits 404; the test reports the
    not-found message, where the claim selects access-denied.  The same
    status without a provider message reports access-denied. *)
Lemma testConnection_403_reported_as_not_found :
  (run (answer deniedResponse) (testConnection sampleConfig) tt).1.1
  = Returned {| success := false; error := Some msg_not_found |} /\
  msg_not_found <> msg_access_denied /\
  (exists body, deniedResponse = Response 403 body) /\
  (run (answer (Response 403 None)) (testConnection sampleConfig) tt).1.1
  = Returned {| success := false; error := Some msg_access_denied |}.
Proof.
  split; [reflexivity|]. split; [discriminate|].
  split; [by eexists|reflexivity].
Qed.

(** ** Header initialisation *)

(** The header row is written exactly when the read of the header range
    throws: a read that succeeds, whatever it delivers, is followed by no
    write. *)
Lemma ensureAppointmentsSheet_trace {W}
    (h : Request -> W -> FetchResult * W) (w : W) cfg :
  let rd := headerRead cfg (appointmentsSheet cfg) "N" in
  let wr := headerWrite cfg (appointmentsSheet cfg) "N" appointmentHeaders in
  (run h (ensureAppointmentsSheet cfg) w).2
  = match thrown_by (h rd w).1 with
    | Some _ => [rd; wr]
    | None => [rd]
    end.
Proof.
  intros rd wr. subst rd wr.
  unfold ensureAppointmentsSheet, headerRead, headerWrite, thrown_by.
  rewrite run_try_catch, run_bind, run_makeRequest. simpl.
  destruct (h _ w) as [[e|status body] w1]; simpl.
  - by destruct (h _ w1) as [[e'|st' b'] w2]; simpl;
      try destruct (400 <=? st')%nat.
  - destruct (400 <=? status)%nat; simpl; [|done].
    by destruct (h _ w1) as [[e'|st' b'] w2]; simpl;
      try destruct (400 <=? st')%nat.
Qed.

(** C4, the code at the failing input.  Both sheets exist and are blank:
    each read of a header range succeeds and delivers no values.
    [initializeSheets] returns after the two reads, writes nothing, and
    the sheets still have no header row. *)
Lemma initializeSheets_blank_sheet_gets_no_headers :
  (sheets_backend (headerRead sampleConfig "Appointments" "N") blankWorld).1
  = Response 200 (Some empty_body) /\
  run sheets_backend (initializeSheets sampleConfig) blankWorld
  = (Returned tt, blankWorld,
     [ headerRead sampleConfig "Appointments" "N";
       headerRead sampleConfig "Patients" "K" ]) /\
  blankWorld !! "Appointments" = Some [].
Proof. repeat split; vm_compute; reflexivity. Qed.

(** ** Row addressing *)

(** The row that delete clears is numbered by the position of the record
    in the owner's listing, plus two. *)
Lemma deleteAppointment_trace {W}
    (h : Request -> W -> FetchResult * W) (w : W) cfg (id userId : string) :
  let r := listRequest cfg (appointmentsSheet cfg) in
  let L := listingOf 13 rowToAppointment userId (h r w).1 in
  (run h (deleteAppointment cfg id userId) w).2
  = match findIndex (fun apt => String.eqb (Appointment.id apt) id) L with
    | Some k => [r; rowClear cfg (appointmentsSheet cfg) "N" (k + 2)]
    | None => [r]
    end.
Proof.
  intros r L. subst r L. unfold deleteAppointment, rowClear.
  rewrite run_rethrow, run_bind, run_getAppointments. simpl.
  destruct (findIndex _ _) as [k|]; simpl; [|done].
  by destruct (h _ (h _ w).2) as [[e'|st' b'] w2]; simpl;
    try destruct (400 <=? st')%nat.
Qed.

(** The range text of a row: row 2 of the appointments is [A2:N2]. *)
Example endpoint_path_of_row_2 :
  endpoint_path (ValuesRange "Appointments" "A" 2 "N" 2)
  = "/values/Appointments!A2:N2" /\
  endpoint_path (ValuesRangeClear "Appointments" "A" 2 "N" 2)
  = "/values/Appointments!A2:N2:clear".
Proof. split; reflexivity. Qed.

(** C1, the code at the failing input.  In the shared table the record
    [apt_1] of [user-a] is the second data row (scan position 1, row 3),
    after a record of [user-b].  Delete and update find it at index 0 of
    the listing of [user-a] and address row 2, the row of [user-b]. *)
Lemma update_and_delete_address_row_of_other_owner :
  scanPosition 13 "apt_1" "user-a" sharedAppointments = Some 1 /\
  (run sheets_backend (deleteAppointment sampleConfig "apt_1" "user-a")
     sharedWorld).2
  = [ listRequest sampleConfig "Appointments";
      rowClear sampleConfig "Appointments" "N" 2 ] /\
  (run sheets_backend
     (updateAppointment sampleConfig "2025-02-02T08:00:00.000Z" "apt_1"
        (confirmFor "user-a"))
     sharedWorld).2
  = [ listRequest sampleConfig "Appointments";
      rowWrite sampleConfig "Appointments" "N" 2
        (appointmentToRow
           (mergeAppointment (sampleAppointment "apt_1" "user-a" "pending")
              (confirmFor "user-a") "2025-02-02T08:00:00.000Z")) ] /\
  scanPosition 10 "pat_1" "user-a" sharedPatients = Some 1 /\
  (run sheets_backend (deletePatient sampleConfig "pat_1" "user-a")
     sharedWorld).2
  = [ listRequest sampleConfig "Patients";
      rowClear sampleConfig "Patients" "K" 2 ].
Proof. repeat split; vm_compute; reflexivity. Qed.

(** C8, the code at the failing input.  Deleting [apt_1] of [user-a] from
    the shared table blanks row 2, the record of [user-b]: the listing of
    [user-a] still holds [apt_1], the listing of [user-b] is empty, and a
    second delete of [apt_1] returns normally as well.  Deleting the
    patient [pat_1] of [user-a] leaves it listed in the same way. *)
Lemma delete_leaves_record_listed :
  let first := run sheets_backend
                 (deleteAppointment sampleConfig "apt_1" "user-a")
                 sharedWorld in
  let w1 := first.1.2 in
  first.1.1 = Returned tt /\
  w1 !! "Appointments"
  = Some [ appointmentHeaders; [];
           appointmentToRow (sampleAppointment "apt_1" "user-a" "pending") ] /\
  (run sheets_backend (getAppointments sampleConfig "user-a") w1).1.1
  = Returned [sampleAppointment "apt_1" "user-a" "pending"] /\
  (run sheets_backend (getAppointments sampleConfig "user-b") w1).1.1
  = Returned [] /\
  (run sheets_backend (deleteAppointment sampleConfig "apt_1" "user-a")
     w1).1.1 = Returned tt /\
  (run sheets_backend (getPatients sampleConfig "user-a")
     (run sheets_backend (deletePatient sampleConfig "pat_1" "user-a")
        sharedWorld).1.2).1.1
  = Returned [samplePatient "pat_1" "user-a"].
Proof. repeat split; vm_compute; reflexivity. Qed.

(** ** Update *)

Lemma after_write_not_found (res : FetchResult) :
  ~ is_not_found (after_write res).
Proof.
  unfold after_write, thrown_by. intros [m Hm].
  destruct res as [e|status body]; [done|].
  by destruct (400 <=? status)%nat.
Qed.

Section Update.
Context {W : Type} (h : Request -> W -> FetchResult * W).

Lemma run_updateAppointment (w : W) cfg (now id : string)
    (updates : Appointment.Partial.t) :
  let r := listRequest cfg (appointmentsSheet cfg) in
  let L := listingOf 13 rowToAppointment
             (js_or (Appointment.Partial.userId updates) "") (h r w).1 in
  run h (updateAppointment cfg now id updates) w =
    match findIndex (fun apt => String.eqb (Appointment.id apt) id) L with
    | None => (Raised (NotFound "Appointment not found"), (h r w).2, [r])
    | Some k =>
        match L !! k with
        | None =>
            (Raised (TypeError "Cannot read properties of undefined"),
             (h r w).2, [r])
        | Some existing =>
            let wr := rowWrite cfg (appointmentsSheet cfg) "N" (k + 2)
                        (appointmentToRow
                           (mergeAppointment existing updates now)) in
            (after_write (h wr (h r w).2).1, (h wr (h r w).2).2, [r; wr])
        end
    end.
Proof.
  intros r L. subst r L. unfold updateAppointment, rowWrite, after_write.
  rewrite run_rethrow, run_bind, run_getAppointments. simpl.
  destruct (findIndex _ _) as [k|]; simpl; [|done].
  destruct (_ !! k) as [existing|]; simpl; [|done].
  by destruct (h _ (h _ w).2) as [[e'|st' b'] w2]; simpl;
    try destruct (400 <=? st')%nat.
Qed.

Lemma run_updatePatient (w : W) cfg (now id : string)
    (updates : Patient.Partial.t) :
  let r := listRequest cfg (patientsSheet cfg) in
  let L := listingOf 10 rowToPatient
             (js_or (Patient.Partial.userId updates) "") (h r w).1 in
  run h (updatePatient cfg now id updates) w =
    match findIndex (fun pat => String.eqb (Patient.id pat) id) L with
    | None => (Raised (NotFound "Patient not found"), (h r w).2, [r])
    | Some k =>
        match L !! k with
        | None =>
            (Raised (TypeError "Cannot read properties of undefined"),
             (h r w).2, [r])
        | Some existing =>
            let wr := rowWrite cfg (patientsSheet cfg) "K" (k + 2)
                        (patientToRow (mergePatient existing updates now)) in
            (after_write (h wr (h r w).2).1, (h wr (h r w).2).2, [r; wr])
        end
    end.
Proof.
  intros r L. subst r L. unfold updatePatient, rowWrite, after_write.
  rewrite run_rethrow, run_bind, run_getPatients. simpl.
  destruct (findIndex _ _) as [k|]; simpl; [|done].
  destruct (_ !! k) as [existing|]; simpl; [|done].
  by destruct (h _ (h _ w).2) as [[e'|st' b'] w2]; simpl;
    try destruct (400 <=? st')%nat.
Qed.
End Update.

Lemma findIndex_id_None {A} (get_id : A -> string) (id : string) (L : list A) :
  findIndex (fun x => String.eqb (get_id x) id) L = None <->
  forall x, x ∈ L -> get_id x <> id.
Proof.
  rewrite findIndex_None. split; intros H x Hx.
  - by apply String.eqb_neq, H.
  - by apply String.eqb_neq, H.
Qed.

(** A read leaves the remote table as it is. *)
Lemma sheets_backend_read cfg sheet (ws : gmap string (list Row)) :
  (sheets_backend (listRequest cfg sheet) ws).2 = ws.
Proof. unfold sheets_backend, listRequest. simpl. by destruct (ws !! sheet). Qed.

(** C2, as the code has it.  Update has no owner argument: it reads the
    owner from the partial fields ([updates.userId || ''], the empty owner
    when the key is missing or empty), starts with the listing of that
    owner and scans the listing for the id.  It raises the not-found
    error exactly when no record of that listing has the id; it has then
    issued the read of the listing and nothing else, so no write reaches
    the backend, and the remote table is as it was.  Holds for
    appointments and patients. *)
Theorem update_not_found_iff_absent {W}
    (h : Request -> W -> FetchResult * W) (w : W)
    (ws : gmap string (list Row)) cfg (now id : string) :
  (forall updates : Appointment.Partial.t,
     let ownerId := js_or (Appointment.Partial.userId updates) "" in
     let r := listRequest cfg (appointmentsSheet cfg) in
     let out := run h (updateAppointment cfg now id updates) w in
     exists L,
       run h (getAppointments cfg ownerId) w = (Returned L, (h r w).2, [r]) /\
       (exists rest, out.2 = r :: rest) /\
       (is_not_found out.1.1 <->
        forall a, a ∈ L -> Appointment.id a <> id) /\
       (is_not_found out.1.1 ->
        out = (Raised (NotFound "Appointment not found"), (h r w).2, [r])) /\
       (is_not_found
          (run sheets_backend (updateAppointment cfg now id updates) ws).1.1 ->
        (run sheets_backend (updateAppointment cfg now id updates) ws).1.2
        = ws)) /\
  (forall updates : Patient.Partial.t,
     let ownerId := js_or (Patient.Partial.userId updates) "" in
     let r := listRequest cfg (patientsSheet cfg) in
     let out := run h (updatePatient cfg now id updates) w in
     exists L,
       run h (getPatients cfg ownerId) w = (Returned L, (h r w).2, [r]) /\
       (exists rest, out.2 = r :: rest) /\
       (is_not_found out.1.1 <-> forall p, p ∈ L -> Patient.id p <> id) /\
       (is_not_found out.1.1 ->
        out = (Raised (NotFound "Patient not found"), (h r w).2, [r])) /\
       (is_not_found
          (run sheets_backend (updatePatient cfg now id updates) ws).1.1 ->
        (run sheets_backend (updatePatient cfg now id updates) ws).1.2
        = ws)).
Proof.
  split.
  - intros updates ownerId r out. eexists.
    split; [apply run_getAppointments|]. fold r.
    assert (forall V (g : Request -> V -> FetchResult * V) (v : V),
              let o := run g (updateAppointment cfg now id updates) v in
              let Lv := listingOf 13 rowToAppointment ownerId (g r v).1 in
              (exists rest, o.2 = r :: rest) /\
              (is_not_found o.1.1 <->
               findIndex (fun apt => String.eqb (Appointment.id apt) id) Lv
               = None) /\
              (is_not_found o.1.1 ->
               o = (Raised (NotFound "Appointment not found"),
                    (g r v).2, [r]))) as Hgen.
    { intros V g v o Lv. subst o. rewrite run_updateAppointment.
      fold r ownerId Lv. simpl.
      destruct (findIndex _ Lv) as [k|] eqn:Hk.
      - destruct (findIndex_Some _ _ _ Hk) as (x & -> & _). simpl.
        repeat split; eauto.
        + by intros ?%after_write_not_found.
        + done.
        + by intros ?%after_write_not_found.
      - simpl. repeat split; eauto. by eexists. }
    destruct (Hgen W h w) as (Htrace & Hiff & Hout).
    repeat split; auto.
    + intros Hnf. by apply findIndex_id_None, Hiff.
    + intros Hnone. by apply Hiff, findIndex_id_None.
    + intros Hnf. destruct (Hgen _ sheets_backend ws) as (_ & _ & Hws).
      rewrite (Hws Hnf). simpl. apply sheets_backend_read.
  - intros updates ownerId r out. eexists.
    split; [apply run_getPatients|]. fold r.
    assert (forall V (g : Request -> V -> FetchResult * V) (v : V),
              let o := run g (updatePatient cfg now id updates) v in
              let Lv := listingOf 10 rowToPatient ownerId (g r v).1 in
              (exists rest, o.2 = r :: rest) /\
              (is_not_found o.1.1 <->
               findIndex (fun pat => String.eqb (Patient.id pat) id) Lv
               = None) /\
              (is_not_found o.1.1 ->
               o = (Raised (NotFound "Patient not found"),
                    (g r v).2, [r]))) as Hgen.
    { intros V g v o Lv. subst o. rewrite run_updatePatient.
      fold r ownerId Lv. simpl.
      destruct (findIndex _ Lv) as [k|] eqn:Hk.
      - destruct (findIndex_Some _ _ _ Hk) as (x & -> & _). simpl.
        repeat split; eauto.
        + by intros ?%after_write_not_found.
        + done.
        + by intros ?%after_write_not_found.
      - simpl. repeat split; eauto. by eexists. }
    destruct (Hgen W h w) as (Htrace & Hiff & Hout).
    repeat split; auto.
    + intros Hnf. by apply findIndex_id_None, Hiff.
    + intros Hnone. by apply Hiff, findIndex_id_None.
    + intros Hnf. destruct (Hgen _ sheets_backend ws) as (_ & _ & Hws).
      rewrite (Hws Hnf). simpl. apply sheets_backend_read.
Qed.

Lemma update_not_found_iff_absent_witness :
  run sheets_backend
    (updateAppointment sampleConfig "2025-02-02T08:00:00.000Z" "apt_9"
       (confirmFor "user-a"))
    sharedWorld
  = (Raised (NotFound "Appointment not found"), sharedWorld,
     [listRequest sampleConfig "Appointments"]).
Proof.
  destruct (proj1 (update_not_found_iff_absent sheets_backend sharedWorld
                     sharedWorld sampleConfig "2025-02-02T08:00:00.000Z"
                     "apt_9") (confirmFor "user-a"))
    as (L & _ & _ & _ & Hout & _).
  rewrite Hout.
  - vm_compute. reflexivity.
  - exists "Appointment not found". vm_compute. reflexivity.
Defined.

(** C2, counterexample to the claim as worded.  In the shared table the
    patient [pat_1] is in the listing of [user-a].  An update of [pat_1]
    whose partial fields hold the phone only, made for [user-a], raises
    the not-found error although the listing of [user-a] has the record:
    the listing that update scans is the one of the empty owner.  The
    same update with [userId: "user-b"] among its fields raises it too,
    and with [userId: "user-a"] it returns normally. *)
Lemma update_not_found_for_record_of_the_owner :
  let now := "2025-02-02T08:00:00.000Z" in
  let phone_only :=
    Patient.Partial.set Patient.Phone "555-0199" Patient.Partial.empty in
  let update updates :=
    (run sheets_backend (updatePatient sampleConfig now "pat_1" updates)
       sharedWorld).1 in
  (run sheets_backend (getPatients sampleConfig "user-a") sharedWorld).1.1
  = Returned [samplePatient "pat_1" "user-a"] /\
  update phone_only = (Raised (NotFound "Patient not found"), sharedWorld) /\
  update (Patient.Partial.set Patient.UserId "user-b" phone_only)
  = (Raised (NotFound "Patient not found"), sharedWorld) /\
  (update (Patient.Partial.set Patient.UserId "user-a" phone_only)).1
  = Returned tt.
Proof. repeat split; vm_compute; reflexivity. Qed.

(** ** Merge *)

Lemma mergeAppointment_get existing updates now (f : Appointment.field) :
  f <> Appointment.UpdatedAt ->
  Appointment.get f (mergeAppointment existing updates now)
  = match Appointment.Partial.get f updates with
    | Some v => Some v
    | None => Appointment.get f existing
    end.
Proof.
  intros Hf. destruct f; try done; simpl;
    by destruct updates as [? ? ? ? ? ? ? ? ? ? ? ? ? ?]; simpl;
    match goal with |- context [default _ ?x] => destruct x end.
Qed.

Lemma mergePatient_get existing updates now (f : Patient.field) :
  f <> Patient.UpdatedAt ->
  Patient.get f (mergePatient existing updates now)
  = match Patient.Partial.get f updates with
    | Some v => Some v
    | None => Patient.get f existing
    end.
Proof.
  intros Hf. destruct f; try done; simpl;
    by destruct updates as [? ? ? ? ? ? ? ? ? ? ?]; simpl;
    match goal with |- context [default _ ?x] => destruct x end.
Qed.

Lemma appointmentToRow_lookup (a : Appointment.t) (f : Appointment.field) :
  appointmentToRow a !! Appointment.column f
  = Some (default "" (Appointment.get f a)).
Proof. destruct f; simpl; by rewrite ?js_or_default. Qed.

Lemma patientToRow_lookup (p : Patient.t) (f : Patient.field) :
  patientToRow p !! Patient.column f = Some (default "" (Patient.get f p)).
Proof. destruct f; simpl; by rewrite ?js_or_default. Qed.

(** C10. When update finds the record, the row it writes is the
    serialization of the merge: every key present in the partial fields,
    [id], [createdAt] and [userId] included, has the supplied value in the
    merged record and in its column of the written row; every absent key
    keeps the value of the listed record; and [updatedAt] is the fresh
    timestamp whatever the partial fields say, so a supplied [updatedAt]
    is never stored.  Holds for appointments and patients. *)
Theorem update_merges_partial_fields_verbatim {W}
    (h : Request -> W -> FetchResult * W) (w : W) cfg (now id : string) :
  (forall (updates : Appointment.Partial.t) L w1 trace k,
     run h (getAppointments cfg
              (js_or (Appointment.Partial.userId updates) "")) w
     = (Returned L, w1, trace) ->
     findIndex (fun apt => String.eqb (Appointment.id apt) id) L = Some k ->
     exists existing,
       L !! k = Some existing /\
       let merged := mergeAppointment existing updates now in
       let row := appointmentToRow merged in
       (run h (updateAppointment cfg now id updates) w).2
       = (trace ++ [rowWrite cfg (appointmentsSheet cfg) "N" (k + 2) row])%list
       /\
       (forall f v,
          f <> Appointment.UpdatedAt ->
          Appointment.Partial.get f updates = Some v ->
          Appointment.get f merged = Some v /\
          row !! Appointment.column f = Some v) /\
       (forall f,
          f <> Appointment.UpdatedAt ->
          Appointment.Partial.get f updates = None ->
          Appointment.get f merged = Appointment.get f existing) /\
       Appointment.updatedAt merged = now /\
       row !! Appointment.column Appointment.UpdatedAt = Some now) /\
  (forall (updates : Patient.Partial.t) L w1 trace k,
     run h (getPatients cfg (js_or (Patient.Partial.userId updates) "")) w
     = (Returned L, w1, trace) ->
     findIndex (fun pat => String.eqb (Patient.id pat) id) L = Some k ->
     exists existing,
       L !! k = Some existing /\
       let merged := mergePatient existing updates now in
       let row := patientToRow merged in
       (run h (updatePatient cfg now id updates) w).2
       = (trace ++ [rowWrite cfg (patientsSheet cfg) "K" (k + 2) row])%list /\
       (forall f v,
          f <> Patient.UpdatedAt ->
          Patient.Partial.get f updates = Some v ->
          Patient.get f merged = Some v /\
          row !! Patient.column f = Some v) /\
       (forall f,
          f <> Patient.UpdatedAt ->
          Patient.Partial.get f updates = None ->
          Patient.get f merged = Patient.get f existing) /\
       Patient.updatedAt merged = now /\
       row !! Patient.column Patient.UpdatedAt = Some now).
Proof.
  split.
  - intros updates L w1 trace k Hrun Hk.
    rewrite run_getAppointments in Hrun. simpl in Hrun.
    injection Hrun as <- <- <-.
    destruct (findIndex_Some _ _ _ Hk) as (existing & Hex & _).
    exists existing. split; [done|]. intros merged row.
    split; [|split; [|split; [|split]]].
    + rewrite run_updateAppointment. simpl. by rewrite Hk, Hex.
    + intros f v Hf Hv. subst row.
      rewrite appointmentToRow_lookup. subst merged.
      by rewrite mergeAppointment_get, Hv.
    + intros f Hf Hv. subst merged. by rewrite mergeAppointment_get, Hv.
    + done.
    + done.
  - intros updates L w1 trace k Hrun Hk.
    rewrite run_getPatients in Hrun. simpl in Hrun.
    injection Hrun as <- <- <-.
    destruct (findIndex_Some _ _ _ Hk) as (existing & Hex & _).
    exists existing. split; [done|]. intros merged row.
    split; [|split; [|split; [|split]]].
    + rewrite run_updatePatient. simpl. by rewrite Hk, Hex.
    + intros f v Hf Hv. subst row.
      rewrite patientToRow_lookup. subst merged.
      by rewrite mergePatient_get, Hv.
    + intros f Hf Hv. subst merged. by rewrite mergePatient_get, Hv.
    + done.
    + done.
Qed.

Lemma update_merges_partial_fields_verbatim_witness :
  let row := appointmentToRow
               (mergeAppointment (sampleAppointment "apt_1" "user-a" "pending")
                  backdated "2025-02-02T08:00:00.000Z") in
  row !! 0 = Some "apt_7" /\
  row !! 11 = Some "1999-01-01T00:00:00.000Z" /\
  row !! 12 = Some "2025-02-02T08:00:00.000Z".
Proof.
  destruct (proj1 (update_merges_partial_fields_verbatim sheets_backend
                     sharedWorld sampleConfig "2025-02-02T08:00:00.000Z"
                     "apt_1")
              backdated [sampleAppointment "apt_1" "user-a" "pending"]
              sharedWorld [listRequest sampleConfig "Appointments"] 0)
    as (existing & Hex & _ & Hsupplied & _ & _ & Hstamp).
  - vm_compute. reflexivity.
  - vm_compute. reflexivity.
  - injection Hex as <-. split; [|split].
    + apply (Hsupplied Appointment.Id "apt_7"); [discriminate|reflexivity].
    + apply (Hsupplied Appointment.CreatedAt "1999-01-01T00:00:00.000Z");
        [discriminate|reflexivity].
    + exact Hstamp.
Defined.

(** ** Update followed by list *)

Section Overwrite.
Context {E : Type} (col : nat) (mk : Row -> E) (userId : string).
Context (p : E -> bool).

(** Overwriting the data row numbered by a listing index with a row of
    the same owner: the new record is listed, before any other record
    that satisfies [p]. *)
Lemma collectRows_insert (data : list Row) (k : nat) (row : Row) :
  findIndex p (collectRows col mk userId data) = Some k ->
  strict_eq (row !! col) userId = true ->
  exists P Q,
    collectRows col mk userId (<[k := row]> data)
    = (P ++ mk row :: Q)%list /\
    forall x, x ∈ P -> p x = false.
Proof.
  intros Hk Hrow.
  destruct (findIndex_Some _ _ _ Hk) as (x & Hx & _ & Hbefore).
  pose proof (lookup_lt_Some _ _ _ Hx) as Hlt.
  pose proof (collectRows_length col mk userId data) as Hlen.
  exists (collectRows col mk userId (take k data)),
         (collectRows col mk userId (drop (S k) data)).
  split.
  - rewrite insert_take_drop by lia.
    rewrite collectRows_app. simpl. by rewrite Hrow.
  - intros y Hy. apply list_elem_of_lookup in Hy as [i Hi].
    pose proof (lookup_lt_Some _ _ _ Hi) as Hi_lt.
    pose proof (collectRows_length col mk userId (take k data)) as Hlen'.
    rewrite length_take in Hlen'.
    apply (Hbefore i); [lia|].
    rewrite <- (take_drop k data), collectRows_app.
    by apply lookup_app_l_Some.
Qed.

Lemma listedRows_cons (rows : list Row) (x : E) :
  x ∈ listedRows col mk userId rows ->
  exists hd data,
    rows = hd :: data /\
    listedRows col mk userId rows = collectRows col mk userId data /\
    forall k row,
      k < length data ->
      listedRows col mk userId (hd :: <[k := row]> data)
      = collectRows col mk userId (<[k := row]> data).
Proof.
  unfold listedRows. destruct rows as [|hd [|r1 data]]; simpl.
  - intros H. by apply elem_of_nil in H.
  - intros H. by apply elem_of_nil in H.
  - intros _. exists hd, (r1 :: data). repeat split.
    intros k row Hlt. rewrite length_insert. simpl. by rewrite drop_0.
Qed.
End Overwrite.

Lemma listing_sheets {E} cfg sheet col (mk : Row -> E) userId
    (ws : gmap string (list Row)) :
  listingOf col mk userId (sheets_backend (listRequest cfg sheet) ws).1
  = listedRows col mk userId (default [] (ws !! sheet)).
Proof.
  unfold listingOf, sheets_backend, listRequest. simpl.
  by destruct (ws !! sheet) as [[|r rows]|].
Qed.

Lemma sheets_put cfg sheet lastCol (k : nat) (row hd : Row) (data : list Row)
    (ws : gmap string (list Row)) :
  ws !! sheet = Some (hd :: data) -> k < length data ->
  sheets_backend (rowWrite cfg sheet lastCol (k + 2) row) ws
  = (Response 200 (Some empty_body), <[sheet := hd :: <[k := row]> data]> ws).
Proof.
  intros Hws Hlt. unfold sheets_backend, rowWrite.
  replace (k + 2) with (S (S k)) by lia. simpl. rewrite Hws.
  unfold written_rows, put_row. simpl.
  assert ((S k <? S (length data))%nat = true) as ->
    by (apply Nat.ltb_lt; lia).
  done.
Qed.

(** The listing that follows an overwrite of the row addressed through a
    listing index, when the written row parses back to [updated] and
    belongs to the same owner. *)
Lemma overwrite_then_list {E} cfg sheet lastCol col (mk : Row -> E)
    (ser : E -> Row) userId (p : E -> bool) (ws : gmap string (list Row))
    (k : nat) (updated : E) :
  findIndex p (listedRows col mk userId (default [] (ws !! sheet))) = Some k ->
  strict_eq (ser updated !! col) userId = true ->
  mk (ser updated) = updated ->
  exists ws',
    sheets_backend (rowWrite cfg sheet lastCol (k + 2) (ser updated)) ws
    = (Response 200 (Some empty_body), ws') /\
    let L' := listedRows col mk userId (default [] (ws' !! sheet)) in
    updated ∈ L' /\
    (p updated = true ->
     exists j, findIndex p L' = Some j /\ L' !! j = Some updated).
Proof.
  intros Hk Hown Hparse.
  destruct (findIndex_Some _ _ _ Hk) as (x & Hx & _).
  pose proof (list_elem_of_lookup_2 _ _ _ Hx) as Hin.
  destruct (listedRows_cons col mk userId _ x Hin)
    as (hd & data & Hrows & HL & HL').
  destruct (ws !! sheet) as [rows|] eqn:Hws; simpl in Hrows; [|done].
  subst rows. simpl in *. rewrite HL in Hk, Hx.
  pose proof (lookup_lt_Some _ _ _ Hx) as Hlt.
  pose proof (collectRows_length col mk userId data) as Hlen.
  eexists. split; [apply sheets_put; [done|lia]|].
  rewrite lookup_insert_eq. simpl. rewrite HL' by lia.
  destruct (collectRows_insert col mk userId p data k (ser updated) Hk Hown)
    as (P & Q & -> & HP).
  rewrite Hparse. split.
  - apply elem_of_app. right. left.
  - intros Hp. exists (length P). split.
    + by apply findIndex_app_first.
    + by apply list_lookup_middle.
Qed.

Lemma js_or_pending (x : option string) : js_or x "pending" <> "".
Proof.
  destruct x as [s|]; simpl; [|done].
  by destruct (String.eqb_spec s "").
Qed.

(** A parsed row has every optional field present and a status. *)
Lemma rowToAppointment_present (row : Row) :
  Appointment.status (rowToAppointment row) <> "" /\
  forall f, Appointment.get f (rowToAppointment row) <> None.
Proof. split; [apply js_or_pending|]. by intros []. Qed.

Lemma rowToPatient_present (row : Row) (f : Patient.field) :
  Patient.get f (rowToPatient row) <> None.
Proof. by destruct f. Qed.

Lemma appointment_partial_get_set (f g : Appointment.field) (v : string)
    (u : Appointment.Partial.t) :
  Appointment.Partial.get g (Appointment.Partial.set f v u)
  = if decide (g = f) then Some v else Appointment.Partial.get g u.
Proof. destruct f, g; by case_decide. Qed.

Lemma patient_partial_get_set (f g : Patient.field) (v : string)
    (u : Patient.Partial.t) :
  Patient.Partial.get g (Patient.Partial.set f v u)
  = if decide (g = f) then Some v else Patient.Partial.get g u.
Proof. destruct f, g; by case_decide. Qed.

(** C7, as the code has it.  The partial update carries the owner
    ([userId]) next to the one field it changes, because update looks the
    record up in the listing of [updates.userId]; the changed field is
    neither a timestamp nor the owner, and a status is not empty.  Take
    the record that the lookup of update finds: the first record of the
    owner's listing with the id ([existing], at position [k]).  Update
    then returns normally and the next listing of the owner holds the
    merge of that record: the field has the new value, every other field
    but [updatedAt] is as listed before, [createdAt] included, and
    [updatedAt] is the fresh timestamp.  Unless the changed field is the
    id, the merged record is the first record of the next listing with
    that id.  Nothing is said of a later record of the listing with the
    same id: update never merges over it.  Holds for appointments and
    patients. *)
Theorem single_field_update_then_list (ws : gmap string (list Row)) cfg
    (now id ownerId : string) :
  (forall (f : Appointment.field) (v : string) L k existing,
     (run sheets_backend (getAppointments cfg ownerId) ws).1.1 = Returned L ->
     findIndex (fun apt => String.eqb (Appointment.id apt) id) L = Some k ->
     L !! k = Some existing ->
     f <> Appointment.CreatedAt -> f <> Appointment.UpdatedAt ->
     f <> Appointment.UserId ->
     (f = Appointment.Status -> v <> "") ->
     let updates :=
       Appointment.Partial.set f v
         (Appointment.Partial.set Appointment.UserId ownerId
            Appointment.Partial.empty) in
     let updated := mergeAppointment existing updates now in
     exists ws' L',
       (run sheets_backend (updateAppointment cfg now id updates) ws).1
       = (Returned tt, ws') /\
       (run sheets_backend (getAppointments cfg ownerId) ws').1
       = (Returned L', ws') /\
       updated ∈ L' /\
       (f <> Appointment.Id ->
        exists j,
          findIndex (fun apt => String.eqb (Appointment.id apt) id) L'
          = Some j /\ L' !! j = Some updated) /\
       Appointment.get f updated = Some v /\
       (forall g, g <> f -> g <> Appointment.UpdatedAt ->
                  Appointment.get g updated = Appointment.get g existing) /\
       Appointment.createdAt updated = Appointment.createdAt existing /\
       Appointment.updatedAt updated = now) /\
  (forall (f : Patient.field) (v : string) L k existing,
     (run sheets_backend (getPatients cfg ownerId) ws).1.1 = Returned L ->
     findIndex (fun pat => String.eqb (Patient.id pat) id) L = Some k ->
     L !! k = Some existing ->
     f <> Patient.CreatedAt -> f <> Patient.UpdatedAt ->
     f <> Patient.UserId ->
     let updates :=
       Patient.Partial.set f v
         (Patient.Partial.set Patient.UserId ownerId Patient.Partial.empty) in
     let updated := mergePatient existing updates now in
     exists ws' L',
       (run sheets_backend (updatePatient cfg now id updates) ws).1
       = (Returned tt, ws') /\
       (run sheets_backend (getPatients cfg ownerId) ws').1
       = (Returned L', ws') /\
       updated ∈ L' /\
       (f <> Patient.Id ->
        exists j,
          findIndex (fun pat => String.eqb (Patient.id pat) id) L' = Some j /\
          L' !! j = Some updated) /\
       Patient.get f updated = Some v /\
       (forall g, g <> f -> g <> Patient.UpdatedAt ->
                  Patient.get g updated = Patient.get g existing) /\
       Patient.createdAt updated = Patient.createdAt existing /\
       Patient.updatedAt updated = now).
Proof.
  split.
  - intros f v L k existing Hrun Hk Hex Hf1 Hf2 Hf3 Hstatus updates updated.
    rewrite run_getAppointments in Hrun. simpl in Hrun.
    injection Hrun as <-. rewrite listing_sheets in Hk, Hex.
    (* the listed record is a parsed row of the owner *)
    pose proof (list_elem_of_lookup_2 _ _ _ Hex) as Hin.
    apply elem_of_listedRows in Hin as (row0 & _ & Hown0 & Hparse0).
    apply strict_eq_true in Hown0.
    destruct (rowToAppointment_present row0) as [Hst0 Hall0].
    rewrite <- Hparse0 in Hst0, Hall0.
    assert (Appointment.userId existing = ownerId) as Howner.
    { rewrite Hparse0. simpl. rewrite Hown0. apply js_or_same. }
    destruct (findIndex_Some _ _ _ Hk) as (x & Hx & Hid & _).
    rewrite Hex in Hx. injection Hx as <-. apply String.eqb_eq in Hid.
    (* the fields of the merged record *)
    assert (forall g, g <> Appointment.UpdatedAt ->
              Appointment.get g updated
              = if decide (g = f) then Some v
                else Appointment.get g existing) as Hget.
    { intros g Hg. subst updated updates.
      rewrite mergeAppointment_get, !appointment_partial_get_set by done.
      repeat case_decide; try done; [|by destruct g].
      subst g. simpl. by rewrite Howner. }
    assert (Appointment.Partial.userId updates = Some ownerId) as Hu.
    { change (Appointment.Partial.get Appointment.UserId updates
              = Some ownerId).
      subst updates. rewrite !appointment_partial_get_set.
      by repeat case_decide. }
    assert (rowToAppointment (appointmentToRow updated) = updated) as Hrt.
    { apply rowToAppointment_appointmentToRow.
      - pose proof (Hget Appointment.Status ltac:(done)) as Hs.
        change (Some (Appointment.status updated)
                = if decide (Appointment.Status = f) then Some v
                  else Some (Appointment.status existing)) in Hs.
        intros Hempty. rewrite Hempty in Hs.
        case_decide as Hd; injection Hs as Hs; [by apply Hstatus|done].
      - intros g. destruct (decide (g = Appointment.UpdatedAt)) as [->|Hg].
        + done.
        + rewrite Hget by done. case_decide; [done|apply Hall0]. }
    assert (strict_eq (appointmentToRow updated !! 13) ownerId = true) as Hown.
    { apply strict_eq_true.
      change 13 with (Appointment.column Appointment.UserId).
      rewrite appointmentToRow_lookup.
      rewrite Hget by done. case_decide; [done|]. simpl. by rewrite Howner. }
    destruct (overwrite_then_list cfg (appointmentsSheet cfg) "N" 13
                rowToAppointment appointmentToRow ownerId
                (fun apt => String.eqb (Appointment.id apt) id)
                ws k updated Hk Hown Hrt) as (ws' & Hput & Hin' & Hfirst).
    exists ws', (listedRows 13 rowToAppointment ownerId
                   (default [] (ws' !! appointmentsSheet cfg))).
    split; [|split; [|split; [|split; [|split; [|split; [|split]]]]]].
    + rewrite run_updateAppointment. simpl. rewrite Hu, js_or_same.
      rewrite listing_sheets, Hk, Hex, sheets_backend_read. simpl.
      fold updates. fold updated. by rewrite Hput.
    + rewrite run_getAppointments. simpl.
      by rewrite listing_sheets, sheets_backend_read.
    + exact Hin'.
    + intros Hf. apply Hfirst. apply String.eqb_eq.
      pose proof (Hget Appointment.Id ltac:(done)) as Hi.
      transitivity (Appointment.id existing); [|done].
      case_decide; [congruence|]. by injection Hi.
    + rewrite Hget by done. by case_decide.
    + intros g Hg1 Hg2. rewrite Hget by done. by case_decide.
    + pose proof (Hget Appointment.CreatedAt ltac:(done)) as Hc.
      case_decide; [congruence|]. by injection Hc.
    + done.
  - intros f v L k existing Hrun Hk Hex Hf1 Hf2 Hf3 updates updated.
    rewrite run_getPatients in Hrun. simpl in Hrun.
    injection Hrun as <-. rewrite listing_sheets in Hk, Hex.
    pose proof (list_elem_of_lookup_2 _ _ _ Hex) as Hin.
    apply elem_of_listedRows in Hin as (row0 & _ & Hown0 & Hparse0).
    apply strict_eq_true in Hown0.
    pose proof (rowToPatient_present row0) as Hall0.
    rewrite <- Hparse0 in Hall0.
    assert (Patient.userId existing = ownerId) as Howner.
    { rewrite Hparse0. simpl. rewrite Hown0. apply js_or_same. }
    destruct (findIndex_Some _ _ _ Hk) as (x & Hx & Hid & _).
    rewrite Hex in Hx. injection Hx as <-. apply String.eqb_eq in Hid.
    assert (forall g, g <> Patient.UpdatedAt ->
              Patient.get g updated
              = if decide (g = f) then Some v
                else Patient.get g existing) as Hget.
    { intros g Hg. subst updated updates.
      rewrite mergePatient_get, !patient_partial_get_set by done.
      repeat case_decide; try done; [|by destruct g].
      subst g. simpl. by rewrite Howner. }
    assert (Patient.Partial.userId updates = Some ownerId) as Hu.
    { change (Patient.Partial.get Patient.UserId updates = Some ownerId).
      subst updates. rewrite !patient_partial_get_set.
      by repeat case_decide. }
    assert (rowToPatient (patientToRow updated) = updated) as Hrt.
    { apply rowToPatient_patientToRow.
      intros g. destruct (decide (g = Patient.UpdatedAt)) as [->|Hg].
      - done.
      - rewrite Hget by done. case_decide; [done|apply Hall0]. }
    assert (strict_eq (patientToRow updated !! 10) ownerId = true) as Hown.
    { apply strict_eq_true.
      change 10 with (Patient.column Patient.UserId).
      rewrite patientToRow_lookup.
      rewrite Hget by done. case_decide; [done|]. simpl. by rewrite Howner. }
    destruct (overwrite_then_list cfg (patientsSheet cfg) "K" 10
                rowToPatient patientToRow ownerId
                (fun pat => String.eqb (Patient.id pat) id)
                ws k updated Hk Hown Hrt) as (ws' & Hput & Hin' & Hfirst).
    exists ws', (listedRows 10 rowToPatient ownerId
                   (default [] (ws' !! patientsSheet cfg))).
    split; [|split; [|split; [|split; [|split; [|split; [|split]]]]]].
    + rewrite run_updatePatient. simpl. rewrite Hu, js_or_same.
      rewrite listing_sheets, Hk, Hex, sheets_backend_read. simpl.
      fold updates. fold updated. by rewrite Hput.
    + rewrite run_getPatients. simpl.
      by rewrite listing_sheets, sheets_backend_read.
    + exact Hin'.
    + intros Hf. apply Hfirst. apply String.eqb_eq.
      pose proof (Hget Patient.Id ltac:(done)) as Hi.
      transitivity (Patient.id existing); [|done].
      case_decide; [congruence|]. by injection Hi.
    + rewrite Hget by done. by case_decide.
    + intros g Hg1 Hg2. rewrite Hget by done. by case_decide.
    + pose proof (Hget Patient.CreatedAt ltac:(done)) as Hc.
      case_decide; [congruence|]. by injection Hc.
    + done.
Qed.

Lemma single_field_update_then_list_witness :
  exists ws' L',
    (run sheets_backend
       (updateAppointment sampleConfig "2025-02-02T08:00:00.000Z" "apt_1"
          (Appointment.Partial.set Appointment.Status "confirmed"
             (Appointment.Partial.set Appointment.UserId "user-a"
                Appointment.Partial.empty)))
       sharedWorld).1 = (Returned tt, ws') /\
    (run sheets_backend (getAppointments sampleConfig "user-a") ws').1
    = (Returned L', ws') /\
    exists j updated,
      findIndex (fun apt => String.eqb (Appointment.id apt) "apt_1") L'
      = Some j /\
      L' !! j = Some updated /\
      Appointment.status updated = "confirmed" /\
      Appointment.updatedAt updated = "2025-02-02T08:00:00.000Z".
Proof.
  destruct (proj1 (single_field_update_then_list sharedWorld sampleConfig
                     "2025-02-02T08:00:00.000Z" "apt_1" "user-a")
              Appointment.Status "confirmed"
              [sampleAppointment "apt_1" "user-a" "pending"] 0
              (sampleAppointment "apt_1" "user-a" "pending"))
    as (ws' & L' & Hupd & Hlist & _ & Hfirst & Hfield & _ & _ & Hstamp).
  - vm_compute. reflexivity.
  - vm_compute. reflexivity.
  - reflexivity.
  - discriminate.
  - discriminate.
  - discriminate.
  - discriminate.
  - exists ws', L'. split; [exact Hupd|]. split; [exact Hlist|].
    destruct Hfirst as (j & Hj & Hlook); [discriminate|].
    exists j. eexists. split; [exact Hj|]. split; [exact Hlook|].
    split; [|exact Hstamp]. apply (inj Some). exact Hfield.
Defined.

(** C7, counterexample to the claim as worded.  An appointment is created
    for [user-a] in a sheet that holds only the header row.  The
    single-field update [{status: "confirmed"}] of that appointment raises
    the not-found error, because update lists the records of
    [updates.userId || ''], the empty owner; the listing of [user-a]
    afterwards still shows the status [pending].  The single-field update
    [{userId: "user-b"}] of the same appointment raises not-found too. *)
Lemma single_field_update_alone_is_not_found :
  let w1 := sampleCreation.1.2 in
  let status_only :=
    Appointment.Partial.set Appointment.Status "confirmed"
      Appointment.Partial.empty in
  let owner_only :=
    Appointment.Partial.set Appointment.UserId "user-b"
      Appointment.Partial.empty in
  let out := run sheets_backend
               (updateAppointment sampleConfig "2025-02-02T08:00:00.000Z"
                  createdId status_only) w1 in
  Appointment.id <$> match sampleCreation.1.1 with
                     | Returned a => Some a
                     | Raised _ => None
                     end = Some createdId /\
  (run sheets_backend (getAppointments sampleConfig "user-a") w1).1.1
  = Returned [createdAppointment] /\
  out.1.1 = Raised (NotFound "Appointment not found") /\
  (run sheets_backend (getAppointments sampleConfig "user-a") out.1.2).1.1
  = Returned [createdAppointment] /\
  Appointment.status createdAppointment = "pending" /\
  (run sheets_backend
     (updateAppointment sampleConfig "2025-02-02T08:00:00.000Z"
        createdId owner_only) w1).1.1
  = Raised (NotFound "Appointment not found").
Proof. repeat split; vm_compute; reflexivity. Qed.

(** Update merges over the first record with the id only.  In a table
    where two rows of [user-a] carry the id [apt_1], the update
    [{status: "confirmed", userId: "user-a"}] rewrites the first of them;
    the second is listed afterwards as it was, with the status
    [pending]. *)
Lemma update_leaves_later_record_with_same_id :
  let second := rowToAppointment (appointmentToRow walkIn) in
  let out := run sheets_backend
               (updateAppointment sampleConfig "2025-02-02T08:00:00.000Z"
                  "apt_1" (confirmFor "user-a")) twinWorld in
  (run sheets_backend (getAppointments sampleConfig "user-a") twinWorld).1.1
  = Returned [sampleAppointment "apt_1" "user-a" "pending"; second] /\
  out.1.1 = Returned tt /\
  (run sheets_backend (getAppointments sampleConfig "user-a") out.1.2).1.1
  = Returned
      [mergeAppointment (sampleAppointment "apt_1" "user-a" "pending")
         (confirmFor "user-a") "2025-02-02T08:00:00.000Z";
       second] /\
  Appointment.status second = "pending".
Proof. repeat split; vm_compute; reflexivity. Qed.

(** * Further properties *)

(** ** Create *)

Section Create.
Context {W : Type} (h : Request -> W -> FetchResult * W).

Lemma run_createAppointment (w : W) cfg (millis random now : string)
    (draft : Appointment.Draft.t) :
  let a := newAppointment millis random now draft in
  let r := rowAppend cfg (appointmentsSheet cfg) (appointmentToRow a) in
  run h (createAppointment cfg millis random now draft) w
  = (unless_thrown (h r w).1 a, (h r w).2, [r]).
Proof.
  intros a r. subst a r.
  unfold createAppointment, rowAppend, unless_thrown, thrown_by, makeRequest.
  simpl. destruct (h _ w) as [[e|status body] w1]; simpl; [done|].
  by destruct (400 <=? status)%nat.
Qed.

Lemma run_createPatient (w : W) cfg (millis random now : string)
    (draft : Patient.Draft.t) :
  let p := newPatient millis random now draft in
  let r := rowAppend cfg (patientsSheet cfg) (patientToRow p) in
  run h (createPatient cfg millis random now draft) w
  = (unless_thrown (h r w).1 p, (h r w).2, [r]).
Proof.
  intros p r. subst p r.
  unfold createPatient, rowAppend, unless_thrown, thrown_by, makeRequest.
  simpl. destruct (h _ w) as [[e|status body] w1]; simpl; [done|].
  by destruct (400 <=? status)%nat.
Qed.
End Create.

Lemma sheets_append cfg sheet (row : Row) (ws : gmap string (list Row)) :
  sheets_backend (rowAppend cfg sheet row) ws
  = match ws !! sheet with
    | Some rows =>
        (Response 200 (Some empty_body), <[sheet := (rows ++ [row])%list]> ws)
    | None => (bad_range sheet, ws)
    end.
Proof. unfold sheets_backend, rowAppend. simpl. by destruct (ws !! sheet). Qed.

Lemma listedRows_drop {E} col (mk : Row -> E) userId (rows : list Row) :
  listedRows col mk userId rows = collectRows col mk userId (drop 1 rows).
Proof. unfold listedRows. by destruct rows as [|hd [|r data]]. Qed.

Lemma listedRows_snoc {E} col (mk : Row -> E) userId (rows : list Row)
    (row : Row) :
  rows <> [] ->
  listedRows col mk userId (rows ++ [row])
  = (listedRows col mk userId rows
     ++ if owned_by col userId row then [mk row] else [])%list.
Proof.
  intros Hrows. rewrite !listedRows_drop.
  destruct rows as [|hd data]; [done|]. simpl. rewrite !drop_0.
  rewrite collectRows_app. simpl. unfold owned_by.
  by destruct (strict_eq (row !! col) userId).
Qed.

Lemma run_list_appointments_sheets cfg userId (ws : gmap string (list Row)) :
  run sheets_backend (getAppointments cfg userId) ws
  = (Returned (listedRows 13 rowToAppointment userId
                 (default [] (ws !! appointmentsSheet cfg))),
     ws, [listRequest cfg (appointmentsSheet cfg)]).
Proof.
  rewrite run_getAppointments. simpl.
  by rewrite listing_sheets, sheets_backend_read.
Qed.

Lemma run_list_patients_sheets cfg userId (ws : gmap string (list Row)) :
  run sheets_backend (getPatients cfg userId) ws
  = (Returned (listedRows 10 rowToPatient userId
                 (default [] (ws !! patientsSheet cfg))),
     ws, [listRequest cfg (patientsSheet cfg)]).
Proof.
  rewrite run_getPatients. simpl.
  by rewrite listing_sheets, sheets_backend_read.
Qed.

Lemma rowToAppointment_get (a : Appointment.t) (f : Appointment.field) :
  Appointment.status a <> "" ->
  Appointment.get f (rowToAppointment (appointmentToRow a))
  = Some (default "" (Appointment.get f a)).
Proof.
  intros Hs. destruct a, f; unfold rowToAppointment, appointmentToRow;
    cbn [Appointment.get lookup list_lookup Appointment.status
         Appointment.id Appointment.patientName Appointment.patientPhone
         Appointment.patientEmail Appointment.appointmentDate
         Appointment.appointmentTime Appointment.serviceType
         Appointment.notes Appointment.whatsappMessageId
         Appointment.smsMessageId Appointment.createdAt
         Appointment.updatedAt Appointment.userId default] in *;
    rewrite ?js_or_same, ?js_or_default; try done.
  by rewrite js_or_nonempty.
Qed.

Lemma rowToPatient_get (p : Patient.t) (f : Patient.field) :
  Patient.get f (rowToPatient (patientToRow p))
  = Some (default "" (Patient.get f p)).
Proof.
  destruct p, f; unfold rowToPatient, patientToRow;
    cbn [Patient.get lookup list_lookup Patient.id Patient.name
         Patient.phone Patient.email Patient.dateOfBirth Patient.address
         Patient.emergencyContact Patient.medicalNotes Patient.createdAt
         Patient.updatedAt Patient.userId default];
    by rewrite ?js_or_same, ?js_or_default.
Qed.

(** X1. Create followed by list, on a sheet that has at least its header
    row.  Create returns the new record and appends its row after the
    existing rows.  The next listing of any owner is the listing before,
    followed by the parsed new row when the owner is the record's owner,
    and unchanged for every other owner.  The listed record has, field
    for field, the values of the returned one, an absent optional field
    being listed as the empty string (for an appointment, provided the
    status is not empty). *)
Theorem create_then_list (ws : gmap string (list Row)) cfg
    (millis random now : string) :
  (forall (draft : Appointment.Draft.t) rows,
     ws !! appointmentsSheet cfg = Some rows -> rows <> [] ->
     let a := newAppointment millis random now draft in
     let ws' := <[appointmentsSheet cfg
                  := (rows ++ [appointmentToRow a])%list]> ws in
     run sheets_backend (createAppointment cfg millis random now draft) ws
     = (Returned a, ws',
        [rowAppend cfg (appointmentsSheet cfg) (appointmentToRow a)]) /\
     (forall owner L,
        (run sheets_backend (getAppointments cfg owner) ws).1.1 = Returned L ->
        (run sheets_backend (getAppointments cfg owner) ws').1.1
        = Returned
            (L ++ if String.eqb (Appointment.userId a) owner
                  then [rowToAppointment (appointmentToRow a)]
                  else [])%list) /\
     (Appointment.Draft.status draft <> "" ->
      forall f,
        Appointment.get f (rowToAppointment (appointmentToRow a))
        = Some (default "" (Appointment.get f a)))) /\
  (forall (draft : Patient.Draft.t) rows,
     ws !! patientsSheet cfg = Some rows -> rows <> [] ->
     let p := newPatient millis random now draft in
     let ws' := <[patientsSheet cfg := (rows ++ [patientToRow p])%list]> ws in
     run sheets_backend (createPatient cfg millis random now draft) ws
     = (Returned p, ws', [rowAppend cfg (patientsSheet cfg) (patientToRow p)])
     /\
     (forall owner L,
        (run sheets_backend (getPatients cfg owner) ws).1.1 = Returned L ->
        (run sheets_backend (getPatients cfg owner) ws').1.1
        = Returned
            (L ++ if String.eqb (Patient.userId p) owner
                  then [rowToPatient (patientToRow p)]
                  else [])%list) /\
     (forall f,
        Patient.get f (rowToPatient (patientToRow p))
        = Some (default "" (Patient.get f p)))).
Proof.
  split.
  - intros draft rows Hws Hrows a ws'. split; [|split].
    + rewrite run_createAppointment. simpl. fold a.
      by rewrite sheets_append, Hws.
    + intros owner L. rewrite !run_list_appointments_sheets. simpl.
      intros [= <-]. subst ws'. rewrite lookup_insert_eq, Hws. simpl.
      by rewrite listedRows_snoc.
    + intros Hs f. by apply rowToAppointment_get.
  - intros draft rows Hws Hrows p ws'. split; [|split].
    + rewrite run_createPatient. simpl. fold p.
      by rewrite sheets_append, Hws.
    + intros owner L. rewrite !run_list_patients_sheets. simpl.
      intros [= <-]. subst ws'. rewrite lookup_insert_eq, Hws. simpl.
      by rewrite listedRows_snoc.
    + intros f. apply rowToPatient_get.
Qed.

Lemma create_then_list_witness :
  (run sheets_backend (getAppointments sampleConfig "user-a")
     sampleCreation.1.2).1.1
  = Returned [createdAppointment] /\
  (run sheets_backend (getAppointments sampleConfig "user-b")
     sampleCreation.1.2).1.1
  = Returned [].
Proof.
  destruct (proj1 (create_then_list headedWorld sampleConfig "1738400000000"
                     "k3x9q2m1z" "2025-02-01T09:00:00.000Z")
              sampleDraft [appointmentHeaders])
    as (Hrun & Hlist & _).
  - reflexivity.
  - discriminate.
  - unfold sampleCreation. rewrite Hrun. simpl. split.
    + apply (Hlist "user-a" []). vm_compute. reflexivity.
    + apply (Hlist "user-b" []). vm_compute. reflexivity.
Defined.

(** X2. Create raises exactly when its append fails.  Whatever the
    backend, create issues one request, the append of the serialized new
    record, and never reads the table; it returns the new record when the
    append succeeds and raises the error of the failed append otherwise.
    On the remote table a missing sheet makes it raise, and the table is
    then as it was. *)
Theorem create_propagates_failure {W}
    (h : Request -> W -> FetchResult * W) (w : W)
    (ws : gmap string (list Row)) cfg (millis random now : string) :
  (forall draft : Appointment.Draft.t,
     let a := newAppointment millis random now draft in
     let r := rowAppend cfg (appointmentsSheet cfg) (appointmentToRow a) in
     let out := run h (createAppointment cfg millis random now draft) w in
     out.2 = [r] /\
     (forall e, out.1.1 = Raised e <-> thrown_by (h r w).1 = Some e) /\
     (thrown_by (h r w).1 = None -> out.1.1 = Returned a) /\
     (ws !! appointmentsSheet cfg = None ->
      exists e,
        run sheets_backend (createAppointment cfg millis random now draft) ws
        = (Raised (ApiError e), ws, [r]))) /\
  (forall draft : Patient.Draft.t,
     let p := newPatient millis random now draft in
     let r := rowAppend cfg (patientsSheet cfg) (patientToRow p) in
     let out := run h (createPatient cfg millis random now draft) w in
     out.2 = [r] /\
     (forall e, out.1.1 = Raised e <-> thrown_by (h r w).1 = Some e) /\
     (thrown_by (h r w).1 = None -> out.1.1 = Returned p) /\
     (ws !! patientsSheet cfg = None ->
      exists e,
        run sheets_backend (createPatient cfg millis random now draft) ws
        = (Raised (ApiError e), ws, [r]))).
Proof.
  split.
  - intros draft a r out.
    assert (ws !! appointmentsSheet cfg = None ->
            exists e,
              run sheets_backend
                (createAppointment cfg millis random now draft) ws
              = (Raised (ApiError e), ws, [r])) as Hmissing.
    { intros Hws. eexists. rewrite run_createAppointment. cbv zeta.
      rewrite sheets_append, Hws. reflexivity. }
    subst out. rewrite run_createAppointment. fold a r.
    unfold unless_thrown. cbn [fst snd].
    split; [done|]. split; [|split; [|done]].
    + intros e. destruct (thrown_by (h r w).1); split; congruence.
    + by intros ->.
  - intros draft p r out.
    assert (ws !! patientsSheet cfg = None ->
            exists e,
              run sheets_backend
                (createPatient cfg millis random now draft) ws
              = (Raised (ApiError e), ws, [r])) as Hmissing.
    { intros Hws. eexists. rewrite run_createPatient. cbv zeta.
      rewrite sheets_append, Hws. reflexivity. }
    subst out. rewrite run_createPatient. fold p r.
    unfold unless_thrown. cbn [fst snd].
    split; [done|]. split; [|split; [|done]].
    + intros e. destruct (thrown_by (h r w).1); split; congruence.
    + by intros ->.
Qed.

Lemma create_propagates_failure_witness :
  exists e,
    run sheets_backend
      (createAppointment sampleConfig "1738400000000" "k3x9q2m1z"
         "2025-02-01T09:00:00.000Z" sampleDraft)
      (∅ : gmap string (list Row))
    = (Raised (ApiError e), ∅,
       [rowAppend sampleConfig "Appointments"
          (appointmentToRow
             (newAppointment "1738400000000" "k3x9q2m1z"
                "2025-02-01T09:00:00.000Z" sampleDraft))]).
Proof.
  destruct (proj1 (create_propagates_failure sheets_backend
                     (∅ : gmap string (list Row)) ∅ sampleConfig
                     "1738400000000" "k3x9q2m1z" "2025-02-01T09:00:00.000Z")
              sampleDraft) as (_ & _ & _ & Hmissing).
  apply Hmissing. reflexivity.
Defined.

(** ** Header initialisation on the remote table *)

Lemma initializeSheets_sheets cfg (ws : gmap string (list Row)) :
  run sheets_backend (initializeSheets cfg) ws
  = match ws !! appointmentsSheet cfg, ws !! patientsSheet cfg with
    | Some _, Some _ =>
        (Returned tt, ws,
         [headerRead cfg (appointmentsSheet cfg) "N";
          headerRead cfg (patientsSheet cfg) "K"])
    | Some _, None =>
        (Raised (ApiError (errorMessage 400
                             (match bad_range (patientsSheet cfg) with
                              | Response _ b => b
                              | FetchThrows _ => None
                              end))), ws,
         [headerRead cfg (appointmentsSheet cfg) "N";
          headerRead cfg (patientsSheet cfg) "K";
          headerWrite cfg (patientsSheet cfg) "K" patientHeaders])
    | None, _ =>
        (Raised (ApiError (errorMessage 400
                             (match bad_range (appointmentsSheet cfg) with
                              | Response _ b => b
                              | FetchThrows _ => None
                              end))), ws,
         [headerRead cfg (appointmentsSheet cfg) "N";
          headerWrite cfg (appointmentsSheet cfg) "N" appointmentHeaders])
    end.
Proof.
  unfold initializeSheets, ensureAppointmentsSheet, ensurePatientsSheet,
    makeRequest, headerRead, headerWrite, sheets_backend, written_rows.
  simpl.
  destruct (ws !! appointmentsSheet cfg) as [rowsA|] eqn:HA; simpl.
  - destruct (ws !! patientsSheet cfg) as [rowsP|] eqn:HP; simpl.
    + done.
    + by rewrite HP.
  - by rewrite HA.
Qed.



(** X4. Initialise, create, list on a blank sheet.  When the sheet exists
    and holds no cell, initialisation writes no header, create returns the
    new record normally and its row becomes row 1 of the sheet, and the
    listing of every owner, the record's own included, is empty: the
    listing takes row 1 for the header. *)
Theorem record_created_in_blank_sheet_is_not_listed
    (ws : gmap string (list Row)) cfg (millis random now owner : string) :
  (forall draft : Appointment.Draft.t,
     ws !! appointmentsSheet cfg = Some [] ->
     let a := newAppointment millis random now draft in
     let w1 := (run sheets_backend (initializeSheets cfg) ws).1.2 in
     let created :=
       run sheets_backend (createAppointment cfg millis random now draft) w1 in
     created.1.1 = Returned a /\
     created.1.2 !! appointmentsSheet cfg = Some [appointmentToRow a] /\
     (run sheets_backend (getAppointments cfg owner) created.1.2).1.1
     = Returned []) /\
  (forall draft : Patient.Draft.t,
     ws !! patientsSheet cfg = Some [] ->
     let p := newPatient millis random now draft in
     let w1 := (run sheets_backend (initializeSheets cfg) ws).1.2 in
     let created :=
       run sheets_backend (createPatient cfg millis random now draft) w1 in
     created.1.1 = Returned p /\
     created.1.2 !! patientsSheet cfg = Some [patientToRow p] /\
     (run sheets_backend (getPatients cfg owner) created.1.2).1.1
     = Returned []).
Proof.
  assert (forall c, (run sheets_backend (initializeSheets c) ws).1.2 = ws)
    as Hinit.
  { intros c. rewrite initializeSheets_sheets.
    by destruct (ws !! appointmentsSheet c), (ws !! patientsSheet c). }
  split.
  - intros draft Hws a w1 created. subst created w1. rewrite Hinit.
    rewrite run_createAppointment. cbv zeta. rewrite sheets_append, Hws.
    cbn [fst snd]. split; [done|]. split; [by rewrite lookup_insert_eq|].
    rewrite run_list_appointments_sheets. cbn [fst snd].
    by rewrite lookup_insert_eq.
  - intros draft Hws p w1 created. subst created w1. rewrite Hinit.
    rewrite run_createPatient. cbv zeta. rewrite sheets_append, Hws.
    cbn [fst snd]. split; [done|]. split; [by rewrite lookup_insert_eq|].
    rewrite run_list_patients_sheets. cbn [fst snd].
    by rewrite lookup_insert_eq.
Qed.

Lemma record_created_in_blank_sheet_is_not_listed_witness :
  (run sheets_backend (getAppointments sampleConfig "user-a")
     (run sheets_backend
        (createAppointment sampleConfig "1738400000000" "k3x9q2m1z"
           "2025-02-01T09:00:00.000Z" sampleDraft)
        (run sheets_backend (initializeSheets sampleConfig)
           blankWorld).1.2).1.2).1.1
  = Returned [].
Proof.
  apply (proj1 (record_created_in_blank_sheet_is_not_listed blankWorld
                  sampleConfig "1738400000000" "k3x9q2m1z"
                  "2025-02-01T09:00:00.000Z" "user-a") sampleDraft).
  reflexivity.
Defined.

(** X5. Whatever the backend answers, header initialisation sends only
    reads and overwrites of the two header ranges, an overwrite always
    carrying the canonical header row; it sends at most four requests, and
    when it raises, the last request it sent is a header overwrite (a
    failed read alone never makes it raise). *)
Theorem initializeSheets_requests {W}
    (h : Request -> W -> FetchResult * W) (w : W) cfg :
  let out := run h (initializeSheets cfg) w in
  Forall (is_header_request cfg) out.2 /\
  length out.2 <= 4 /\
  (forall e, out.1.1 = Raised e ->
             exists r, last out.2 = Some r /\ req_method r = PUT).
Proof.
  intros out. subst out.
  unfold initializeSheets, ensureAppointmentsSheet, ensurePatientsSheet,
    makeRequest. simpl.
  fold (headerRead cfg (appointmentsSheet cfg) "N").
  fold (headerRead cfg (patientsSheet cfg) "K").
  fold (headerWrite cfg (appointmentsSheet cfg) "N" appointmentHeaders).
  fold (headerWrite cfg (patientsSheet cfg) "K" patientHeaders).
  assert (forall r, r = headerRead cfg (appointmentsSheet cfg) "N" \/
                    r = headerWrite cfg (appointmentsSheet cfg) "N"
                          appointmentHeaders \/
                    r = headerRead cfg (patientsSheet cfg) "K" \/
                    r = headerWrite cfg (patientsSheet cfg) "K" patientHeaders
                    -> is_header_request cfg r) as Hreq by done.
  repeat (match goal with
          | |- context [h ?r ?v] =>
              let res := fresh "res" in
              let v' := fresh "w" in
              let st := fresh "status" in
              destruct (h r v) as [res v']; destruct res as [?|st ?];
              simpl; try destruct (400 <=? st)%nat; simpl
          end).
  all: split;
    [repeat (apply Forall_cons_2; [apply Hreq; tauto|]); apply Forall_nil_2|].
  all: split; [simpl; lia|].
  all: intros e He; try done.
  all: eexists; split; [reflexivity|done].
Qed.

Lemma initializeSheets_requests_witness :
  exists r,
    last (run (answer (Response 503 None)) (initializeSheets sampleConfig)
            tt).2 = Some r /\
    req_method r = PUT.
Proof.
  destruct (initializeSheets_requests (answer (Response 503 None)) tt
              sampleConfig) as (_ & _ & Hraise).
  apply (Hraise (ApiError "Google Sheets API error: 503")).
  vm_compute. reflexivity.
Defined.

(** ** Delete *)

Section Delete.
Context {W : Type} (h : Request -> W -> FetchResult * W).

Lemma run_deleteAppointment (w : W) cfg (id userId : string) :
  let r := listRequest cfg (appointmentsSheet cfg) in
  let L := listingOf 13 rowToAppointment userId (h r w).1 in
  run h (deleteAppointment cfg id userId) w =
    match findIndex (fun apt => String.eqb (Appointment.id apt) id) L with
    | None => (Raised (NotFound "Appointment not found"), (h r w).2, [r])
    | Some k =>
        let cl := rowClear cfg (appointmentsSheet cfg) "N" (k + 2) in
        (after_write (h cl (h r w).2).1, (h cl (h r w).2).2, [r; cl])
    end.
Proof.
  intros r L. subst r L. unfold deleteAppointment, rowClear, after_write.
  rewrite run_rethrow, run_bind, run_getAppointments. simpl.
  destruct (findIndex _ _) as [k|]; simpl; [|done].
  by destruct (h _ (h _ w).2) as [[e'|st' b'] w2]; simpl;
    try destruct (400 <=? st')%nat.
Qed.

Lemma run_deletePatient (w : W) cfg (id userId : string) :
  let r := listRequest cfg (patientsSheet cfg) in
  let L := listingOf 10 rowToPatient userId (h r w).1 in
  run h (deletePatient cfg id userId) w =
    match findIndex (fun pat => String.eqb (Patient.id pat) id) L with
    | None => (Raised (NotFound "Patient not found"), (h r w).2, [r])
    | Some k =>
        let cl := rowClear cfg (patientsSheet cfg) "K" (k + 2) in
        (after_write (h cl (h r w).2).1, (h cl (h r w).2).2, [r; cl])
    end.
Proof.
  intros r L. subst r L. unfold deletePatient, rowClear, after_write.
  rewrite run_rethrow, run_bind, run_getPatients. simpl.
  destruct (findIndex _ _) as [k|]; simpl; [|done].
  by destruct (h _ (h _ w).2) as [[e'|st' b'] w2]; simpl;
    try destruct (400 <=? st')%nat.
Qed.
End Delete.

(** X6. Delete lists the records of the given owner and scans the listing
    for the id.  It raises the not-found error exactly when no record of
    the listing has the id; it has then issued the read of the listing and
    nothing else, and the remote table is as it was.  Holds for
    appointments and patients. *)
Theorem delete_not_found_iff_absent {W}
    (h : Request -> W -> FetchResult * W) (w : W)
    (ws : gmap string (list Row)) cfg (id userId : string) :
  (let r := listRequest cfg (appointmentsSheet cfg) in
   let out := run h (deleteAppointment cfg id userId) w in
   exists L,
     run h (getAppointments cfg userId) w = (Returned L, (h r w).2, [r]) /\
     (is_not_found out.1.1 <-> forall a, a ∈ L -> Appointment.id a <> id) /\
     (is_not_found out.1.1 ->
      out = (Raised (NotFound "Appointment not found"), (h r w).2, [r])) /\
     (is_not_found
        (run sheets_backend (deleteAppointment cfg id userId) ws).1.1 ->
      (run sheets_backend (deleteAppointment cfg id userId) ws).1.2 = ws)) /\
  (let r := listRequest cfg (patientsSheet cfg) in
   let out := run h (deletePatient cfg id userId) w in
   exists L,
     run h (getPatients cfg userId) w = (Returned L, (h r w).2, [r]) /\
     (is_not_found out.1.1 <-> forall p, p ∈ L -> Patient.id p <> id) /\
     (is_not_found out.1.1 ->
      out = (Raised (NotFound "Patient not found"), (h r w).2, [r])) /\
     (is_not_found
        (run sheets_backend (deletePatient cfg id userId) ws).1.1 ->
      (run sheets_backend (deletePatient cfg id userId) ws).1.2 = ws)).
Proof.
  split.
  - intros r out. eexists. split; [apply run_getAppointments|]. fold r.
    assert (forall V (g : Request -> V -> FetchResult * V) (v : V),
              let o := run g (deleteAppointment cfg id userId) v in
              let Lv := listingOf 13 rowToAppointment userId (g r v).1 in
              (is_not_found o.1.1 <->
               findIndex (fun apt => String.eqb (Appointment.id apt) id) Lv
               = None) /\
              (is_not_found o.1.1 ->
               o = (Raised (NotFound "Appointment not found"),
                    (g r v).2, [r]))) as Hgen.
    { intros V g v o Lv. subst o. rewrite run_deleteAppointment.
      fold r Lv. simpl.
      destruct (findIndex _ Lv) as [k|] eqn:Hk; simpl.
      - split; [split; [|done]|]; by intros ?%after_write_not_found.
      - split; [split; [done|]|done]. intros _. by eexists. }
    destruct (Hgen W h w) as (Hiff & Hout).
    split; [|split; [done|]].
    + rewrite <- findIndex_id_None. exact Hiff.
    + intros Hnf. destruct (Hgen _ sheets_backend ws) as (_ & Hws).
      rewrite (Hws Hnf). simpl. apply sheets_backend_read.
  - intros r out. eexists. split; [apply run_getPatients|]. fold r.
    assert (forall V (g : Request -> V -> FetchResult * V) (v : V),
              let o := run g (deletePatient cfg id userId) v in
              let Lv := listingOf 10 rowToPatient userId (g r v).1 in
              (is_not_found o.1.1 <->
               findIndex (fun pat => String.eqb (Patient.id pat) id) Lv
               = None) /\
              (is_not_found o.1.1 ->
               o = (Raised (NotFound "Patient not found"),
                    (g r v).2, [r]))) as Hgen.
    { intros V g v o Lv. subst o. rewrite run_deletePatient.
      fold r Lv. simpl.
      destruct (findIndex _ Lv) as [k|] eqn:Hk; simpl.
      - split; [split; [|done]|]; by intros ?%after_write_not_found.
      - split; [split; [done|]|done]. intros _. by eexists. }
    destruct (Hgen W h w) as (Hiff & Hout).
    split; [|split; [done|]].
    + rewrite <- findIndex_id_None. exact Hiff.
    + intros Hnf. destruct (Hgen _ sheets_backend ws) as (_ & Hws).
      rewrite (Hws Hnf). simpl. apply sheets_backend_read.
Qed.

Lemma delete_not_found_iff_absent_witness :
  run sheets_backend (deletePatient sampleConfig "pat_9" "user-a") sharedWorld
  = (Raised (NotFound "Patient not found"), sharedWorld,
     [listRequest sampleConfig "Patients"]).
Proof.
  destruct (proj2 (delete_not_found_iff_absent sheets_backend sharedWorld
                     sharedWorld sampleConfig "pat_9" "user-a"))
    as (L & _ & _ & Hout & _).
  rewrite Hout.
  - vm_compute. reflexivity.
  - exists "Patient not found". vm_compute. reflexivity.
Defined.

Lemma sheets_clear cfg sheet lastCol (k : nat) (rows : list Row)
    (ws : gmap string (list Row)) :
  ws !! sheet = Some rows ->
  sheets_backend (rowClear cfg sheet lastCol (k + 2)) ws
  = (Response 200 (Some empty_body), <[sheet := <[S k := []]> rows]> ws).
Proof.
  intros Hws. unfold sheets_backend, rowClear.
  replace (k + 2) with (S (S k)) by lia. simpl. by rewrite Hws.
Qed.

Lemma listing_index_in_grid {E} col (mk : Row -> E) userId (p : E -> bool)
    (ws : gmap string (list Row)) sheet (k : nat) :
  findIndex p (listedRows col mk userId (default [] (ws !! sheet))) = Some k ->
  exists hd data,
    ws !! sheet = Some (hd :: data) /\ k < length data /\
    findIndex p (collectRows col mk userId data) = Some k.
Proof.
  intros Hk. destruct (findIndex_Some _ _ _ Hk) as (x & Hx & _).
  pose proof (list_elem_of_lookup_2 _ _ _ Hx) as Hin.
  destruct (listedRows_cons col mk userId _ x Hin)
    as (hd & data & Hrows & HL & _).
  destruct (ws !! sheet) as [rows|]; simpl in Hrows; [|done].
  subst rows. simpl in *. rewrite HL in Hk, Hx.
  pose proof (lookup_lt_Some _ _ _ Hx) as Hlt.
  pose proof (collectRows_length col mk userId data) as Hlen.
  exists hd, data. repeat split; [lia|done].
Qed.

Lemma changes_one_data_row_refl sheet (ws : gmap string (list Row)) :
  changes_one_data_row sheet ws ws.
Proof. repeat split. by exists 0. Qed.

Lemma changes_one_data_row_insert sheet (ws : gmap string (list Row))
    (rows : list Row) (n : nat) (row : Row) :
  ws !! sheet = Some rows ->
  changes_one_data_row sheet ws (<[sheet := <[S n := row]> rows]> ws).
Proof.
  intros Hws. unfold changes_one_data_row, grid_height, grid_row.
  rewrite lookup_insert_eq, Hws. simpl. split; [|split; [|split]].
  - intros s Hs. by rewrite lookup_insert_ne.
  - by rewrite length_insert.
  - by destruct rows.
  - exists (S n). intros j Hj. by rewrite list_lookup_insert_ne.
Qed.

(** X7. On the remote table, an update or a delete of an appointment or a
    patient, whatever its arguments and whether or not it finds the
    record, leaves every other sheet, the number of rows of its sheet and
    the header row as they were, and changes at most one row. *)
Theorem update_and_delete_change_one_data_row (ws : gmap string (list Row))
    cfg (now id userId : string) (updatesA : Appointment.Partial.t)
    (updatesP : Patient.Partial.t) :
  changes_one_data_row (appointmentsSheet cfg) ws
    (run sheets_backend (updateAppointment cfg now id updatesA) ws).1.2 /\
  changes_one_data_row (appointmentsSheet cfg) ws
    (run sheets_backend (deleteAppointment cfg id userId) ws).1.2 /\
  changes_one_data_row (patientsSheet cfg) ws
    (run sheets_backend (updatePatient cfg now id updatesP) ws).1.2 /\
  changes_one_data_row (patientsSheet cfg) ws
    (run sheets_backend (deletePatient cfg id userId) ws).1.2.
Proof.
  split; [|split; [|split]].
  - rewrite run_updateAppointment. cbv zeta.
    rewrite listing_sheets, sheets_backend_read.
    destruct (findIndex _ _) as [k|] eqn:Hk;
      [|apply changes_one_data_row_refl].
    destruct (findIndex_Some _ _ _ Hk) as (x & -> & _).
    destruct (listing_index_in_grid _ _ _ _ _ _ _ Hk)
      as (hd & data & Hws & Hlt & _).
    cbn [fst snd]. erewrite sheets_put by done. cbn [fst snd].
    by apply (changes_one_data_row_insert _ _ (hd :: data) k).
  - rewrite run_deleteAppointment. cbv zeta.
    rewrite listing_sheets, sheets_backend_read.
    destruct (findIndex _ _) as [k|] eqn:Hk;
      [|apply changes_one_data_row_refl].
    destruct (listing_index_in_grid _ _ _ _ _ _ _ Hk)
      as (hd & data & Hws & Hlt & _).
    cbn [fst snd]. erewrite sheets_clear by done. cbn [fst snd].
    by apply changes_one_data_row_insert.
  - rewrite run_updatePatient. cbv zeta.
    rewrite listing_sheets, sheets_backend_read.
    destruct (findIndex _ _) as [k|] eqn:Hk;
      [|apply changes_one_data_row_refl].
    destruct (findIndex_Some _ _ _ Hk) as (x & -> & _).
    destruct (listing_index_in_grid _ _ _ _ _ _ _ Hk)
      as (hd & data & Hws & Hlt & _).
    cbn [fst snd]. erewrite sheets_put by done. cbn [fst snd].
    by apply (changes_one_data_row_insert _ _ (hd :: data) k).
  - rewrite run_deletePatient. cbv zeta.
    rewrite listing_sheets, sheets_backend_read.
    destruct (findIndex _ _) as [k|] eqn:Hk;
      [|apply changes_one_data_row_refl].
    destruct (listing_index_in_grid _ _ _ _ _ _ _ Hk)
      as (hd & data & Hws & Hlt & _).
    cbn [fst snd]. erewrite sheets_clear by done. cbn [fst snd].
    by apply changes_one_data_row_insert.
Qed.

Section Located.
Context {E : Type} (col : nat) (mk : Row -> E) (userId : string).
Context (idOf : E -> string) (id : string).
Context (idOf_mk : forall row, idOf (mk row) = js_or (row !! 0) "").

(** When the rows before position [k] all belong to the owner, they are
    all listed. *)
Lemma collectRows_owned_prefix (data : list Row) (k : nat) :
  (forall j row, j < k -> data !! j = Some row ->
                 owned_by col userId row = true) ->
  collectRows col mk userId (take k data) = mk <$> take k data.
Proof.
  revert k. induction data as [|row data IH]; intros k Hown.
  - by rewrite take_nil.
  - destruct k as [|k]; [done|]. simpl.
    pose proof (Hown 0 row ltac:(lia) eq_refl) as Hrow.
    unfold owned_by in Hrow. rewrite Hrow. f_equal. apply IH.
    intros j r Hj Hr. apply (Hown (S j) r); [lia|done].
Qed.

Context (data : list Row) (k : nat) (target : Row).
Context (Hbefore : forall j row, j < k -> data !! j = Some row ->
                                 owned_by col userId row = true).
Context (Htarget : data !! k = Some target).
Context (Howned : owned_by col userId target = true).
Context (Hid : js_or (target !! 0) "" = id).
Context (Hunique : forall j row, data !! j = Some row ->
                                 owned_by col userId row = true ->
                                 js_or (row !! 0) "" = id -> j = k).

Lemma other_rows_differ (j : nat) (row : Row) :
  j <> k -> data !! j = Some row -> owned_by col userId row = true ->
  String.eqb (idOf (mk row)) id = false.
Proof.
  intros Hj Hrow Ho. apply String.eqb_neq. rewrite idOf_mk.
  intros Heq. by apply Hj, (Hunique j row).
Qed.

Lemma prefix_differs (x : E) :
  x ∈ mk <$> take k data -> String.eqb (idOf x) id = false.
Proof.
  intros (row & -> & Hrow)%list_elem_of_fmap.
  apply list_elem_of_lookup in Hrow as [j Hj].
  apply lookup_take_Some in Hj as [Hj Hlt].
  apply (other_rows_differ j); [lia|done|]. by apply (Hbefore j).
Qed.

Lemma suffix_differs (x : E) :
  x ∈ collectRows col mk userId (drop (S k) data) ->
  String.eqb (idOf x) id = false.
Proof.
  intros (row & Hrow & Ho & ->)%elem_of_collectRows.
  apply list_elem_of_lookup in Hrow as [j Hj].
  rewrite lookup_drop in Hj.
  apply (other_rows_differ (S k + j)); [lia|done|done].
Qed.

(** The record is found at its scan position. *)
Lemma located_at_scan_position :
  findIndex (fun x => String.eqb (idOf x) id) (collectRows col mk userId data)
  = Some k.
Proof.
  pose proof (lookup_lt_Some _ _ _ Htarget) as Hlt.
  rewrite <- (take_drop_middle data k target Htarget), collectRows_app.
  rewrite collectRows_owned_prefix by done. simpl.
  unfold owned_by in Howned. rewrite Howned.
  rewrite findIndex_app_first.
  - rewrite length_fmap, length_take. f_equal. lia.
  - apply prefix_differs.
  - apply String.eqb_eq. by rewrite idOf_mk.
Qed.

(** Once its row is blank, no listed record has the id. *)
Lemma cleared_not_listed (x : E) :
  x ∈ collectRows col mk userId (<[k := []]> data) ->
  String.eqb (idOf x) id = false.
Proof.
  pose proof (lookup_lt_Some _ _ _ Htarget) as Hlt.
  rewrite insert_take_drop by done. rewrite collectRows_app. simpl.
  rewrite collectRows_owned_prefix by done.
  intros [Hx|Hx]%elem_of_app.
  - by apply prefix_differs.
  - by apply suffix_differs.
Qed.
End Located.

(** X8. Delete, where it is right.  Take a record of the owner at data
    position [k] of the remote table, such that every data row before it
    belongs to the same owner (no row of another owner and no blank row
    precedes it) and no other row of the owner has its id.  Then delete
    returns normally and blanks exactly that row, the next listing of the
    owner holds no record with the id, and a second delete of the id
    raises the not-found error.  Holds for appointments and patients. *)
Theorem delete_then_list_when_no_gap_precedes (ws : gmap string (list Row))
    cfg (id userId : string) (hd : Row) (data : list Row) (k : nat)
    (target : Row) :
  (ws !! appointmentsSheet cfg = Some (hd :: data) ->
   (forall j row, j < k -> data !! j = Some row ->
                  owned_by 13 userId row = true) ->
   data !! k = Some target ->
   owned_by 13 userId target = true ->
   js_or (target !! 0) "" = id ->
   (forall j row, data !! j = Some row -> owned_by 13 userId row = true ->
                  js_or (row !! 0) "" = id -> j = k) ->
   let first := run sheets_backend (deleteAppointment cfg id userId) ws in
   first.1
   = (Returned tt, <[appointmentsSheet cfg := hd :: <[k := []]> data]> ws) /\
   (exists L',
      (run sheets_backend (getAppointments cfg userId) first.1.2).1.1
      = Returned L' /\
      forall a, a ∈ L' -> Appointment.id a <> id) /\
   (run sheets_backend (deleteAppointment cfg id userId) first.1.2).1.1
   = Raised (NotFound "Appointment not found")) /\
  (ws !! patientsSheet cfg = Some (hd :: data) ->
   (forall j row, j < k -> data !! j = Some row ->
                  owned_by 10 userId row = true) ->
   data !! k = Some target ->
   owned_by 10 userId target = true ->
   js_or (target !! 0) "" = id ->
   (forall j row, data !! j = Some row -> owned_by 10 userId row = true ->
                  js_or (row !! 0) "" = id -> j = k) ->
   let first := run sheets_backend (deletePatient cfg id userId) ws in
   first.1
   = (Returned tt, <[patientsSheet cfg := hd :: <[k := []]> data]> ws) /\
   (exists L',
      (run sheets_backend (getPatients cfg userId) first.1.2).1.1
      = Returned L' /\
      forall p, p ∈ L' -> Patient.id p <> id) /\
   (run sheets_backend (deletePatient cfg id userId) first.1.2).1.1
   = Raised (NotFound "Patient not found")).
Proof.
  split.
  - intros Hws Hbefore Htarget Howned Hid Hunique first.
    pose proof (located_at_scan_position 13 rowToAppointment userId
                  Appointment.id id (fun _ => eq_refl) data k target
                  Hbefore Htarget Howned Hid Hunique) as Hk.
    pose proof (cleared_not_listed 13 rowToAppointment userId
                  Appointment.id id (fun _ => eq_refl) data k target
                  Hbefore Htarget Hunique) as Hgone.
    assert (first.1 = (Returned tt,
                       <[appointmentsSheet cfg := hd :: <[k := []]> data]> ws))
      as Hfirst.
    { subst first. rewrite run_deleteAppointment. cbv zeta.
      rewrite listing_sheets, sheets_backend_read, Hws. simpl.
      rewrite listedRows_drop. simpl. rewrite drop_0, Hk.
      cbn [fst snd]. by erewrite sheets_clear by done. }
    split; [done|]. rewrite Hfirst. cbn [fst snd]. split.
    + eexists. split.
      * rewrite run_list_appointments_sheets. cbn [fst snd].
        by rewrite lookup_insert_eq.
      * simpl. rewrite listedRows_drop. simpl. rewrite drop_0.
        intros a Ha. by apply String.eqb_neq, Hgone.
    + rewrite run_deleteAppointment. cbv zeta.
      rewrite listing_sheets, sheets_backend_read, lookup_insert_eq. simpl.
      rewrite listedRows_drop. simpl. rewrite drop_0.
      by rewrite (proj2 (findIndex_None _ _) Hgone).
  - intros Hws Hbefore' Htarget Howned Hid Hunique first.
    pose proof (located_at_scan_position 10 rowToPatient userId
                  Patient.id id (fun _ => eq_refl) data k target
                  Hbefore' Htarget Howned Hid Hunique) as Hk.
    pose proof (cleared_not_listed 10 rowToPatient userId
                  Patient.id id (fun _ => eq_refl) data k target
                  Hbefore' Htarget Hunique) as Hgone.
    assert (first.1 = (Returned tt,
                       <[patientsSheet cfg := hd :: <[k := []]> data]> ws))
      as Hfirst.
    { subst first. rewrite run_deletePatient. cbv zeta.
      rewrite listing_sheets, sheets_backend_read, Hws. simpl.
      rewrite listedRows_drop. simpl. rewrite drop_0, Hk.
      cbn [fst snd]. by erewrite sheets_clear by done. }
    split; [done|]. rewrite Hfirst. cbn [fst snd]. split.
    + eexists. split.
      * rewrite run_list_patients_sheets. cbn [fst snd].
        by rewrite lookup_insert_eq.
      * simpl. rewrite listedRows_drop. simpl. rewrite drop_0.
        intros a Ha. by apply String.eqb_neq, Hgone.
    + rewrite run_deletePatient. cbv zeta.
      rewrite listing_sheets, sheets_backend_read, lookup_insert_eq. simpl.
      rewrite listedRows_drop. simpl. rewrite drop_0.
      by rewrite (proj2 (findIndex_None _ _) Hgone).
Qed.

Lemma delete_then_list_when_no_gap_precedes_witness :
  let first := run sheets_backend
                 (deleteAppointment sampleConfig "apt_2" "user-b")
                 sharedWorld in
  first.1.1 = Returned tt /\
  (run sheets_backend (deleteAppointment sampleConfig "apt_2" "user-b")
     first.1.2).1.1
  = Raised (NotFound "Appointment not found").
Proof.
  destruct (proj1 (delete_then_list_when_no_gap_precedes sharedWorld
                     sampleConfig "apt_2" "user-b" appointmentHeaders
                     (drop 1 sharedAppointments) 0
                     (appointmentToRow
                        (sampleAppointment "apt_2" "user-b" "pending"))))
    as (Hfirst & _ & Hsecond).
  - reflexivity.
  - intros j row Hj. lia.
  - reflexivity.
  - reflexivity.
  - reflexivity.
  - intros [|[|[|j]]] row Hrow Ho Hi; [done| |done|done].
    injection Hrow as <-. discriminate.
  - intros first. split; [|exact Hsecond].
    subst first. by rewrite Hfirst.
Defined.

(** ** Listings *)

Lemma listingOf_row {E} col (mk : Row -> E) userId res (x : E) :
  x ∈ listingOf col mk userId res ->
  exists row,
    row ∈ drop 1 (fetched_rows res) /\ row !! col = Some userId /\
    x = mk row.
Proof.
  unfold listingOf, fetched_rows. destruct res as [e|status [body|]];
    try (intros H; by apply elem_of_nil in H).
  destruct (400 <=? status)%nat; [intros H; by apply elem_of_nil in H|].
  rewrite listedRows_drop.
  intros (row & Hrow & Ho%strict_eq_true & ->)%elem_of_collectRows.
  by exists row.
Qed.

Lemma collectRows_disjoint_length {E} col (mk : Row -> E) (a b : string)
    (l : list Row) :
  a <> b ->
  length (collectRows col mk a l) + length (collectRows col mk b l)
  <= length l.
Proof.
  intros Hab. induction l as [|row l IH]; simpl; [done|].
  destruct (strict_eq (row !! col) a) eqn:Ha,
           (strict_eq (row !! col) b) eqn:Hb; simpl; try lia.
  apply strict_eq_true in Ha, Hb. congruence.
Qed.

(** X9. Whatever the backend answers, every record of a listing is the
    parse of a fetched row after the first one (the header row is never
    listed, whatever it holds) whose owner cell is the requested owner;
    no field of it is absent, and the status of a listed appointment is
    never empty (an empty status cell is listed as [pending]). *)
Theorem listed_records_are_parsed_data_rows {W}
    (h : Request -> W -> FetchResult * W) (w : W) cfg (userId : string) :
  (forall L w' trace (a : Appointment.t),
     run h (getAppointments cfg userId) w = (Returned L, w', trace) ->
     a ∈ L ->
     (exists row,
        row ∈ drop 1
                (fetched_rows
                   (h (listRequest cfg (appointmentsSheet cfg)) w).1) /\
        row !! 13 = Some userId /\ a = rowToAppointment row /\
        Appointment.status a = js_or (row !! 7) "pending") /\
     Appointment.status a <> "" /\
     forall f, Appointment.get f a <> None) /\
  (forall L w' trace (p : Patient.t),
     run h (getPatients cfg userId) w = (Returned L, w', trace) ->
     p ∈ L ->
     (exists row,
        row ∈ drop 1
                (fetched_rows (h (listRequest cfg (patientsSheet cfg)) w).1) /\
        row !! 10 = Some userId /\ p = rowToPatient row) /\
     forall f, Patient.get f p <> None).
Proof.
  split; intros L w' trace x Hrun Hx.
  - rewrite run_getAppointments in Hrun. simpl in Hrun.
    injection Hrun as <- _ _.
    apply listingOf_row in Hx as (row & Hrow & Ho & ->).
    split; [by exists row|]. apply rowToAppointment_present.
  - rewrite run_getPatients in Hrun. simpl in Hrun.
    injection Hrun as <- _ _.
    apply listingOf_row in Hx as (row & Hrow & Ho & ->).
    split; [by exists row|]. apply rowToPatient_present.
Qed.

Lemma listed_records_are_parsed_data_rows_witness :
  Appointment.status (sampleAppointment "apt_1" "user-a" "pending") <> "".
Proof.
  apply (proj1 (listed_records_are_parsed_data_rows sheets_backend
                  sharedWorld sampleConfig "user-a")
           [sampleAppointment "apt_1" "user-a" "pending"] sharedWorld
           [listRequest sampleConfig "Appointments"]).
  - vm_compute. reflexivity.
  - apply list_elem_of_here.
Defined.

Lemma listings_disjoint {E} col (mk : Row -> E) (ownerA ownerB : string)
    (res : FetchResult) :
  ownerA <> ownerB ->
  let data := drop 1 (fetched_rows res) in
  exists rowsA rowsB,
    listingOf col mk ownerA res = mk <$> rowsA /\
    listingOf col mk ownerB res = mk <$> rowsB /\
    rowsA `sublist_of` data /\ rowsB `sublist_of` data /\
    (forall row, row ∈ rowsA -> row !! col = Some ownerA) /\
    (forall row, row ∈ rowsB -> row !! col = Some ownerB) /\
    (forall row, row ∈ rowsA -> row ∉ rowsB) /\
    length rowsA + length rowsB <= length data.
Proof.
  intros Hab data. rewrite !listingOf_filter. fold data.
  destruct (thrown_by res) as [e|].
  - exists [], [].
    split; [done|]. split; [done|].
    split; [apply sublist_nil_l|]. split; [apply sublist_nil_l|].
    split; [intros row Hrow; by apply elem_of_nil in Hrow|].
    split; [intros row Hrow; by apply elem_of_nil in Hrow|].
    split; [intros row Hrow; by apply elem_of_nil in Hrow|].
    simpl. lia.
  - eexists _, _. split; [done|]. split; [done|].
    split; [apply sublist_filter|]. split; [apply sublist_filter|].
    split; [by intros row [? _]%list_elem_of_filter|].
    split; [by intros row [? _]%list_elem_of_filter|].
    split.
    + intros row [Ha _]%list_elem_of_filter [Hb _]%list_elem_of_filter.
      congruence.
    + clear -Hab. induction data as [|row data IH]; [done|].
      rewrite !filter_cons.
      destruct (decide (row !! col = Some ownerA)) as [Ha|],
               (decide (row !! col = Some ownerB)) as [Hb|];
        simpl; try lia.
      congruence.
Qed.

(** X10. Owners partition the table.  The listings of two different
    owners, taken from the same answer of the backend, are the parses of
    two selections of the fetched rows after the header; every row of the
    first selection has the first owner in its owner cell, every row of
    the second the second owner, so no row is listed for both owners and
    no record of one listing is a record of the other.  Together the two
    listings never hold more records than the table has rows after the
    header.  Holds for appointments and patients. *)
Theorem listings_of_two_owners_share_no_row {W}
    (h : Request -> W -> FetchResult * W) (w : W) cfg (ownerA ownerB : string) :
  ownerA <> ownerB ->
  (forall LA LB wa wb ta tb,
     run h (getAppointments cfg ownerA) w = (Returned LA, wa, ta) ->
     run h (getAppointments cfg ownerB) w = (Returned LB, wb, tb) ->
     let data :=
       drop 1 (fetched_rows
                 (h (listRequest cfg (appointmentsSheet cfg)) w).1) in
     (exists rowsA rowsB,
        LA = rowToAppointment <$> rowsA /\ LB = rowToAppointment <$> rowsB /\
        rowsA `sublist_of` data /\ rowsB `sublist_of` data /\
        (forall row, row ∈ rowsA -> row !! 13 = Some ownerA) /\
        (forall row, row ∈ rowsB -> row !! 13 = Some ownerB) /\
        (forall row, row ∈ rowsA -> row ∉ rowsB)) /\
     (forall a, a ∈ LA -> a ∉ LB) /\
     length LA + length LB <= length data) /\
  (forall LA LB wa wb ta tb,
     run h (getPatients cfg ownerA) w = (Returned LA, wa, ta) ->
     run h (getPatients cfg ownerB) w = (Returned LB, wb, tb) ->
     let data :=
       drop 1 (fetched_rows (h (listRequest cfg (patientsSheet cfg)) w).1) in
     (exists rowsA rowsB,
        LA = rowToPatient <$> rowsA /\ LB = rowToPatient <$> rowsB /\
        rowsA `sublist_of` data /\ rowsB `sublist_of` data /\
        (forall row, row ∈ rowsA -> row !! 10 = Some ownerA) /\
        (forall row, row ∈ rowsB -> row !! 10 = Some ownerB) /\
        (forall row, row ∈ rowsA -> row ∉ rowsB)) /\
     (forall p, p ∈ LA -> p ∉ LB) /\
     length LA + length LB <= length data).
Proof.
  intros Hab. split; intros LA LB wa wb ta tb Ha Hb data.
  - rewrite run_getAppointments in Ha, Hb. simpl in Ha, Hb.
    injection Ha as <- _ _. injection Hb as <- _ _.
    destruct (listings_disjoint 13 rowToAppointment ownerA ownerB
                (h (listRequest cfg (appointmentsSheet cfg)) w).1 Hab)
      as (rowsA & rowsB & HA & HB & HsA & HsB & HcA & HcB & Hdis & Hlen).
    split; [|split].
    + by exists rowsA, rowsB.
    + intros a (rowA & Ho%strict_eq_true & ->)%elem_of_listingOf
               (rowB & Ho'%strict_eq_true & Heq)%elem_of_listingOf.
      apply (f_equal Appointment.userId) in Heq. simpl in Heq.
      rewrite Ho, Ho', !js_or_same in Heq. done.
    + rewrite HA, HB, !length_fmap. exact Hlen.
  - rewrite run_getPatients in Ha, Hb. simpl in Ha, Hb.
    injection Ha as <- _ _. injection Hb as <- _ _.
    destruct (listings_disjoint 10 rowToPatient ownerA ownerB
                (h (listRequest cfg (patientsSheet cfg)) w).1 Hab)
      as (rowsA & rowsB & HA & HB & HsA & HsB & HcA & HcB & Hdis & Hlen).
    split; [|split].
    + by exists rowsA, rowsB.
    + intros p (rowA & Ho%strict_eq_true & ->)%elem_of_listingOf
               (rowB & Ho'%strict_eq_true & Heq)%elem_of_listingOf.
      apply (f_equal Patient.userId) in Heq. simpl in Heq.
      rewrite Ho, Ho', !js_or_same in Heq. done.
    + rewrite HA, HB, !length_fmap. exact Hlen.
Qed.

Lemma listings_of_two_owners_share_no_row_witness :
  (sampleAppointment "apt_1" "user-a" "pending"
   ∉ [sampleAppointment "apt_2" "user-b" "pending"]) /\
  length [sampleAppointment "apt_1" "user-a" "pending"]
  + length [sampleAppointment "apt_2" "user-b" "pending"]
  <= length (drop 1
               (fetched_rows
                  (sheets_backend (listRequest sampleConfig "Appointments")
                     sharedWorld).1)).
Proof.
  destruct (proj1 (listings_of_two_owners_share_no_row sheets_backend
                     sharedWorld sampleConfig "user-a" "user-b"
                     ltac:(discriminate))
              [sampleAppointment "apt_1" "user-a" "pending"]
              [sampleAppointment "apt_2" "user-b" "pending"]
              sharedWorld sharedWorld
              [listRequest sampleConfig "Appointments"]
              [listRequest sampleConfig "Appointments"])
    as (_ & Hdis & Hlen).
  - vm_compute. reflexivity.
  - vm_compute. reflexivity.
  - split; [|exact Hlen]. apply Hdis. apply list_elem_of_here.
Defined.

(** ** Spreadsheet id extraction *)

Lemma spreadsheetIdMatch_eq (url : string) :
  spreadsheetIdMatch url
  = match (if String.prefix "/spreadsheets/d/" url
           then match id_run (string_drop 16 url) with
                | EmptyString => None
                | run => Some run
                end
           else None) with
    | Some run => Some run
    | None =>
        match url with
        | EmptyString => None
        | String _ rest => spreadsheetIdMatch rest
        end
    end.
Proof. by destruct url. Qed.

Lemma spreadsheetIdMatch_skip (c : ascii) (s : string) :
  String.prefix "/spreadsheets/d/" (String c s) = false ->
  spreadsheetIdMatch (String c s) = spreadsheetIdMatch s.
Proof. intros H. by rewrite spreadsheetIdMatch_eq, H. Qed.

Lemma spreadsheetIdMatch_here (s : string) :
  String.prefix "/spreadsheets/d/" s = true ->
  id_run (string_drop 16 s) <> "" ->
  spreadsheetIdMatch s = Some (id_run (string_drop 16 s)).
Proof.
  intros H Hrun. rewrite spreadsheetIdMatch_eq, H.
  by destruct (id_run (string_drop 16 s)).
Qed.

Lemma id_run_app (id rest : string) :
  all_id_chars id = true -> id_run (id ++ rest) = id ++ id_run rest.
Proof.
  induction id as [|c id IH]; [done|].
  change (String c id ++ rest) with (String c (id ++ rest)).
  cbn [all_id_chars id_run]. intros [Hc Hid]%andb_true_iff.
  rewrite Hc, IH by done. done.
Qed.

Lemma all_id_chars_id_run (s : string) : all_id_chars (id_run s) = true.
Proof.
  induction s as [|c s IH]; [done|]. cbn [id_run].
  destruct (is_id_char c) eqn:Hc; [|done]. cbn [all_id_chars].
  by rewrite Hc, IH.
Qed.

Lemma marker_starts_with_slash (c : ascii) (s : string) :
  String.prefix "/spreadsheets/d/" (String c s) = true -> is_id_char c = false.
Proof.
  intros H.
  change (match ascii_dec "/" c with
          | left _ => String.prefix "spreadsheets/d/" s
          | right _ => false
          end = true) in H.
  by destruct (ascii_dec "/" c) as [<-|].
Qed.

Lemma spreadsheetIdMatch_id_chars (s : string) :
  all_id_chars s = true -> spreadsheetIdMatch s = None.
Proof.
  induction s as [|c s IH]; [done|]. cbn [all_id_chars].
  intros [Hc Hs]%andb_true_iff.
  rewrite spreadsheetIdMatch_skip; [by apply IH|].
  destruct (String.prefix "/spreadsheets/d/" (String c s)) eqn:Hp; [|done].
  apply marker_starts_with_slash in Hp. congruence.
Qed.

Lemma spreadsheetIdMatch_Some (url id : string) :
  spreadsheetIdMatch url = Some id -> id <> "" /\ all_id_chars id = true.
Proof.
  induction url as [|c url IH]; rewrite spreadsheetIdMatch_eq.
  - done.
  - destruct (String.prefix "/spreadsheets/d/" (String c url)); [|exact IH].
    destruct (id_run (string_drop 16 (String c url))) as [|c' run] eqn:Hrun;
      [exact IH|].
    intros [= <-]. split; [done|]. rewrite <- Hrun. apply all_id_chars_id_run.
Qed.

Lemma string_app_assoc (a b c : string) : (a ++ b) ++ c = a ++ (b ++ c).
Proof.
  induction a as [|x a IH]; [done|].
  change (String x a ++ b) with (String x (a ++ b)).
  change (String x (a ++ b) ++ c) with (String x ((a ++ b) ++ c)).
  change (String x a ++ (b ++ c)) with (String x (a ++ (b ++ c))).
  by rewrite IH.
Qed.

Lemma string_length_app (a b : string) :
  String.length (a ++ b) = String.length a + String.length b.
Proof.
  induction a as [|x a IH]; [done|].
  change (String x a ++ b) with (String x (a ++ b)).
  cbn [String.length]. by rewrite IH.
Qed.

(** Whether a text that is no longer than [a] starts [a ++ b] does not
    depend on [b]. *)
Lemma prefix_within (s a b : string) :
  String.length s <= String.length a ->
  String.prefix s (a ++ b) = String.prefix s a.
Proof.
  revert s. induction a as [|x a IH]; intros [|y s] Hlen.
  - change ("" ++ b) with b. by destruct b.
  - simpl in Hlen. lia.
  - done.
  - change (String x a ++ b) with (String x (a ++ b)).
    cbn [String.prefix]. destruct (ascii_dec y x); [|done].
    apply IH. simpl in Hlen. lia.
Qed.

(** Where the marker does not start inside [pre], the search goes on to
    the marker that follows [pre]. *)
Lemma spreadsheetIdMatch_before_marker (pre t : string) :
  includes (pre ++ "/spreadsheets/d") "/spreadsheets/d/" = false ->
  spreadsheetIdMatch (pre ++ "/spreadsheets/d/" ++ t)
  = spreadsheetIdMatch ("/spreadsheets/d/" ++ t).
Proof.
  induction pre as [|c pre IH]; [done|].
  change (String c pre ++ "/spreadsheets/d")
    with (String c (pre ++ "/spreadsheets/d")).
  change (String c pre ++ "/spreadsheets/d/" ++ t)
    with (String c (pre ++ "/spreadsheets/d/" ++ t)).
  cbn [includes]. intros [Hhere Hlater]%orb_false_iff.
  rewrite spreadsheetIdMatch_skip; [by apply IH|].
  etransitivity; [|exact Hhere].
  change ("/spreadsheets/d/" ++ t) with ("/spreadsheets/d" ++ "/" ++ t).
  rewrite <- string_app_assoc.
  change (String c ((pre ++ "/spreadsheets/d") ++ "/" ++ t))
    with (String c (pre ++ "/spreadsheets/d") ++ "/" ++ t).
  apply prefix_within.
  cbn [String.length]. rewrite string_length_app. simpl. lia.
Qed.

(** X11. The spreadsheet id typed into the settings form.  Take any text
    in which the marker [/spreadsheets/d/] is followed by an id, a
    non-empty run of letters, digits, [-] and [_], and then by a rest that
    does not start with such a character, and in which the marker does
    not start anywhere before that place: whatever precedes the marker
    (any scheme and host, or none), the id is extracted.  A text made of
    such characters only (a bare id) is kept as it is; whenever the
    pattern matches, the result is non-empty and made of such characters
    only; and extracting twice gives the same as extracting once. *)
Theorem extractSpreadsheetId_properties :
  (forall pre id rest : string,
     includes (pre ++ "/spreadsheets/d") "/spreadsheets/d/" = false ->
     id <> "" -> all_id_chars id = true -> id_run rest = "" ->
     extractSpreadsheetId (pre ++ "/spreadsheets/d/" ++ id ++ rest) = id) /\
  (forall url : string,
     all_id_chars url = true -> extractSpreadsheetId url = url) /\
  (forall url id : string,
     spreadsheetIdMatch url = Some id ->
     extractSpreadsheetId url = id /\ id <> "" /\ all_id_chars id = true) /\
  (forall url : string,
     extractSpreadsheetId (extractSpreadsheetId url)
     = extractSpreadsheetId url).
Proof.
  split; [|split; [|split]].
  - intros pre id rest Hpre Hid Hall Hrest. unfold extractSpreadsheetId.
    rewrite spreadsheetIdMatch_before_marker by done.
    assert (id_run (id ++ rest) = id) as Hrun.
    { rewrite id_run_app, Hrest by done. clear.
      induction id as [|c id IH]; [done|].
      change (String c id ++ "") with (String c (id ++ "")). by rewrite IH. }
    destruct id as [|c id]; [done|].
    change (String c id ++ rest) with (String c (id ++ rest)) in *.
    remember (id ++ rest) as t eqn:Ht. clear Ht.
    lazy beta iota delta [String.append].
    rewrite spreadsheetIdMatch_here.
    + cbn [string_drop]. by rewrite Hrun.
    + reflexivity.
    + cbn [string_drop]. by rewrite Hrun.
  - intros url Hall. unfold extractSpreadsheetId.
    by rewrite spreadsheetIdMatch_id_chars.
  - intros url id Hm. unfold extractSpreadsheetId. rewrite Hm.
    split; [done|]. by apply (spreadsheetIdMatch_Some url).
  - intros url. unfold extractSpreadsheetId at 2 3.
    destruct (spreadsheetIdMatch url) as [id|] eqn:Hm;
      [|unfold extractSpreadsheetId; by rewrite Hm].
    apply spreadsheetIdMatch_Some in Hm as [_ Hall].
    unfold extractSpreadsheetId. by rewrite spreadsheetIdMatch_id_chars.
Qed.

Lemma extractSpreadsheetId_properties_witness :
  extractSpreadsheetId
    ("https://docs.google.com" ++ "/spreadsheets/d/" ++ "1AbC-d_9"
       ++ "/edit#gid=0")
  = "1AbC-d_9" /\
  extractSpreadsheetId
    ("http://docs.google.com" ++ "/spreadsheets/d/" ++ "1AbC-d_9" ++ "")
  = "1AbC-d_9" /\
  extractSpreadsheetId
    ("" ++ "/spreadsheets/d/" ++ "AAA" ++ "/spreadsheets/d/BBB/")
  = "AAA" /\
  extractSpreadsheetId "1AbC-d_9" = "1AbC-d_9".
Proof.
  destruct extractSpreadsheetId_properties as (Hurl & Hbare & _ & _).
  split; [|split; [|split]].
  - apply Hurl; [reflexivity|discriminate|reflexivity|reflexivity].
  - apply Hurl; [reflexivity|discriminate|reflexivity|reflexivity].
  - apply Hurl; [reflexivity|discriminate|reflexivity|reflexivity].
  - apply Hbare. reflexivity.
Defined.

(** ** Status counters of the appointments view *)

Lemma status_tests_exclusive (a : Appointment.t) :
  let n := (if has_status "pending" a then 1 else 0)
           + (if has_status "confirmed" a then 1 else 0)
           + (if has_status "completed" a then 1 else 0)
           + (if has_status "cancelled" a then 1 else 0) in
  n <= 1 /\ (n = 1 <-> Appointment.is_status (Appointment.status a)).
Proof.
  unfold has_status, Appointment.is_status.
  destruct (String.eqb_spec (Appointment.status a) "pending") as [->|H1];
    [simpl; split; [lia|]; split; [by left|done]|].
  destruct (String.eqb_spec (Appointment.status a) "confirmed") as [->|H2];
    [simpl; split; [lia|]; split; [by right; left|done]|].
  destruct (String.eqb_spec (Appointment.status a) "completed") as [->|H3];
    [simpl; split; [lia|]; split; [by right; right; right|done]|].
  destruct (String.eqb_spec (Appointment.status a) "cancelled") as [->|H4];
    [simpl; split; [lia|]; split; [by right; right; left|done]|].
  simpl. split; [lia|]. split; [lia|]. by intros [?|[?|[?|?]]].
Qed.

(** X12. The status counters of the appointments view.  The four counters
    [pending], [confirmed], [completed] and [cancelled] never add up to
    more than [all], and they add up to [all] exactly when the status of
    every appointment is one of these four values: a row whose status
    cell holds any other text is counted in [all] alone. *)
Theorem statusCounts_add_up (appointments : list Appointment.t) :
  let c := statusCounts appointments in
  count_pending c + count_confirmed c + count_completed c + count_cancelled c
  <= count_all c /\
  (count_pending c + count_confirmed c + count_completed c + count_cancelled c
   = count_all c <->
   forall a, a ∈ appointments -> Appointment.is_status (Appointment.status a)).
Proof.
  unfold statusCounts. cbn [count_all count_pending count_confirmed
                            count_completed count_cancelled].
  induction appointments as [|a l [IHle IHiff]].
  - simpl. split; [lia|]. split; [|done]. intros _ a Ha.
    by apply elem_of_nil in Ha.
  - destruct (status_tests_exclusive a) as [Hle Hone]. cbn zeta in Hle, Hone.
    cbn [List.filter length].
    destruct (has_status "pending" a), (has_status "confirmed" a),
             (has_status "completed" a), (has_status "cancelled" a);
      cbn [length] in *; try lia.
    all: split; [lia|].
    all: split;
      [ intros Hsum a' [->|Ha']%elem_of_cons;
          [apply Hone; lia|apply IHiff; [lia|done]]
      | intros Hall;
        assert (Appointment.is_status (Appointment.status a)) as Ha
          by (apply Hall; left);
        apply Hone in Ha;
        assert (forall a', a' ∈ l ->
                           Appointment.is_status (Appointment.status a'))
          as Hl by (intros a' Ha'; apply Hall; by right);
        apply IHiff in Hl; lia ].
Qed.

Lemma statusCounts_add_up_witness :
  let c := statusCounts [ sampleAppointment "apt_1" "user-a" "pending";
                          sampleAppointment "apt_3" "user-a" "completed" ] in
  count_pending c + count_confirmed c + count_completed c + count_cancelled c
  = count_all c.
Proof.
  apply (proj2 (statusCounts_add_up
                  [ sampleAppointment "apt_1" "user-a" "pending";
                    sampleAppointment "apt_3" "user-a" "completed" ])).
  intros a [->|[->|Ha]%elem_of_cons]%elem_of_cons.
  - by left.
  - by right; right; right.
  - by apply elem_of_nil in Ha.
Defined.

(** ** Update with several fields *)

Lemma overwrite_listing_length {E} cfg sheet lastCol col (mk : Row -> E)
    userId (p : E -> bool) (ws ws' : gmap string (list Row)) (k : nat)
    (row : Row) res :
  findIndex p (listedRows col mk userId (default [] (ws !! sheet))) = Some k ->
  strict_eq (row !! col) userId = true ->
  sheets_backend (rowWrite cfg sheet lastCol (k + 2) row) ws = (res, ws') ->
  length (listedRows col mk userId (default [] (ws !! sheet)))
  <= length (listedRows col mk userId (default [] (ws' !! sheet)))
  <= S (length (listedRows col mk userId (default [] (ws !! sheet)))).
Proof.
  intros Hk Hown Hput.
  destruct (listing_index_in_grid _ _ _ _ _ _ _ Hk)
    as (hd & data & Hws & Hlt & _).
  rewrite (sheets_put _ _ _ _ _ _ _ _ Hws Hlt) in Hput.
  injection Hput as _ <-. rewrite lookup_insert_eq, Hws. simpl.
  rewrite !listedRows_drop. simpl. rewrite !drop_0.
  destruct (lookup_lt_is_Some_2 data k Hlt) as [old Hold].
  assert (length (collectRows col mk userId data)
          = length (collectRows col mk userId (take k data))
            + length (collectRows col mk userId [old])
            + length (collectRows col mk userId (drop (S k) data))) as ->.
  { rewrite <- (take_drop_middle data k old Hold) at 1.
    change (old :: drop (S k) data) with ([old] ++ drop (S k) data)%list.
    rewrite !collectRows_app, !length_app. lia. }
  rewrite insert_take_drop by done.
  rewrite collectRows_app, length_app. simpl. rewrite Hown.
  destruct (strict_eq (old !! col) userId); simpl; lia.
Qed.

Lemma updateAppointment_then_list (ws : gmap string (list Row)) cfg
    (now id ownerId : string) (updates : Appointment.Partial.t) L k existing :
  (run sheets_backend (getAppointments cfg ownerId) ws).1.1 = Returned L ->
  findIndex (fun apt => String.eqb (Appointment.id apt) id) L = Some k ->
  L !! k = Some existing ->
  Appointment.Partial.userId updates = Some ownerId ->
  (forall v, Appointment.Partial.status updates = Some v -> v <> "") ->
  let updated := mergeAppointment existing updates now in
  exists ws' L',
    (run sheets_backend (updateAppointment cfg now id updates) ws).1
    = (Returned tt, ws') /\
    (run sheets_backend (getAppointments cfg ownerId) ws').1
    = (Returned L', ws') /\
    updated ∈ L' /\
    (Appointment.Partial.id updates = None ->
     exists j,
       findIndex (fun apt => String.eqb (Appointment.id apt) id) L' = Some j /\
       L' !! j = Some updated) /\
    length L <= length L' <= S (length L).
Proof.
  intros Hrun Hk Hex Hu Hstatus updated.
  rewrite run_list_appointments_sheets in Hrun. simpl in Hrun.
  injection Hrun as <-.
  pose proof (list_elem_of_lookup_2 _ _ _ Hex) as Hin.
  apply elem_of_listedRows in Hin as (row0 & _ & Hown0 & Hparse0).
  apply strict_eq_true in Hown0.
  destruct (rowToAppointment_present row0) as [Hst0 Hall0].
  rewrite <- Hparse0 in Hst0, Hall0.
  destruct (findIndex_Some _ _ _ Hk) as (x & Hx & Hid & _).
  rewrite Hex in Hx. injection Hx as <-. apply String.eqb_eq in Hid.
  assert (forall g, g <> Appointment.UpdatedAt ->
            Appointment.get g updated
            = match Appointment.Partial.get g updates with
              | Some v => Some v
              | None => Appointment.get g existing
              end) as Hget.
  { intros g Hg. subst updated. by rewrite mergeAppointment_get. }
  assert (rowToAppointment (appointmentToRow updated) = updated) as Hrt.
  { apply rowToAppointment_appointmentToRow.
    - pose proof (Hget Appointment.Status ltac:(done)) as Hs.
      change (Some (Appointment.status updated)
              = match Appointment.Partial.status updates with
                | Some v => Some v
                | None => Some (Appointment.status existing)
                end) in Hs.
      intros Hempty. rewrite Hempty in Hs.
      destruct (Appointment.Partial.status updates) as [v|] eqn:Hv;
        injection Hs as Hs; [by apply (Hstatus v)|done].
    - intros g. destruct (decide (g = Appointment.UpdatedAt)) as [->|Hg].
      + done.
      + rewrite Hget by done.
        destruct (Appointment.Partial.get g updates); [done|apply Hall0]. }
  assert (strict_eq (appointmentToRow updated !! 13) ownerId = true) as Hown.
  { apply strict_eq_true.
    change 13 with (Appointment.column Appointment.UserId).
    rewrite appointmentToRow_lookup, Hget by done.
    change (Appointment.Partial.get Appointment.UserId updates)
      with (Appointment.Partial.userId updates). by rewrite Hu. }
  destruct (overwrite_then_list cfg (appointmentsSheet cfg) "N" 13
              rowToAppointment appointmentToRow ownerId
              (fun apt => String.eqb (Appointment.id apt) id)
              ws k updated Hk Hown Hrt) as (ws' & Hput & Hin' & Hfirst).
  exists ws', (listedRows 13 rowToAppointment ownerId
                 (default [] (ws' !! appointmentsSheet cfg))).
  split; [|split; [|split; [|split]]].
  - rewrite run_updateAppointment. cbv zeta. rewrite Hu, js_or_same.
    rewrite listing_sheets, Hk, Hex, sheets_backend_read. cbn [fst snd].
    fold updated. by rewrite Hput.
  - by rewrite run_list_appointments_sheets.
  - exact Hin'.
  - intros Hnoid. apply Hfirst. apply String.eqb_eq.
    pose proof (Hget Appointment.Id ltac:(done)) as Hi.
    change (Appointment.Partial.get Appointment.Id updates)
      with (Appointment.Partial.id updates) in Hi. rewrite Hnoid in Hi.
    transitivity (Appointment.id existing); [|done]. by injection Hi.
  - by apply (overwrite_listing_length cfg (appointmentsSheet cfg) "N" 13
                rowToAppointment ownerId _ ws ws' k
                (appointmentToRow updated) _ Hk Hown Hput).
Qed.

Lemma updatePatient_then_list (ws : gmap string (list Row)) cfg
    (now id ownerId : string) (updates : Patient.Partial.t) L k existing :
  (run sheets_backend (getPatients cfg ownerId) ws).1.1 = Returned L ->
  findIndex (fun pat => String.eqb (Patient.id pat) id) L = Some k ->
  L !! k = Some existing ->
  Patient.Partial.userId updates = Some ownerId ->
  let updated := mergePatient existing updates now in
  exists ws' L',
    (run sheets_backend (updatePatient cfg now id updates) ws).1
    = (Returned tt, ws') /\
    (run sheets_backend (getPatients cfg ownerId) ws').1
    = (Returned L', ws') /\
    updated ∈ L' /\
    (Patient.Partial.id updates = None ->
     exists j,
       findIndex (fun pat => String.eqb (Patient.id pat) id) L' = Some j /\
       L' !! j = Some updated) /\
    length L <= length L' <= S (length L).
Proof.
  intros Hrun Hk Hex Hu updated.
  rewrite run_list_patients_sheets in Hrun. simpl in Hrun.
  injection Hrun as <-.
  pose proof (list_elem_of_lookup_2 _ _ _ Hex) as Hin.
  apply elem_of_listedRows in Hin as (row0 & _ & Hown0 & Hparse0).
  apply strict_eq_true in Hown0.
  pose proof (rowToPatient_present row0) as Hall0.
  rewrite <- Hparse0 in Hall0.
  destruct (findIndex_Some _ _ _ Hk) as (x & Hx & Hid & _).
  rewrite Hex in Hx. injection Hx as <-. apply String.eqb_eq in Hid.
  assert (forall g, g <> Patient.UpdatedAt ->
            Patient.get g updated
            = match Patient.Partial.get g updates with
              | Some v => Some v
              | None => Patient.get g existing
              end) as Hget.
  { intros g Hg. subst updated. by rewrite mergePatient_get. }
  assert (rowToPatient (patientToRow updated) = updated) as Hrt.
  { apply rowToPatient_patientToRow.
    intros g. destruct (decide (g = Patient.UpdatedAt)) as [->|Hg].
    - done.
    - rewrite Hget by done.
      destruct (Patient.Partial.get g updates); [done|apply Hall0]. }
  assert (strict_eq (patientToRow updated !! 10) ownerId = true) as Hown.
  { apply strict_eq_true.
    change 10 with (Patient.column Patient.UserId).
    rewrite patientToRow_lookup, Hget by done.
    change (Patient.Partial.get Patient.UserId updates)
      with (Patient.Partial.userId updates). by rewrite Hu. }
  destruct (overwrite_then_list cfg (patientsSheet cfg) "K" 10
              rowToPatient patientToRow ownerId
              (fun pat => String.eqb (Patient.id pat) id)
              ws k updated Hk Hown Hrt) as (ws' & Hput & Hin' & Hfirst).
  exists ws', (listedRows 10 rowToPatient ownerId
                 (default [] (ws' !! patientsSheet cfg))).
  split; [|split; [|split; [|split]]].
  - rewrite run_updatePatient. cbv zeta. rewrite Hu, js_or_same.
    rewrite listing_sheets, Hk, Hex, sheets_backend_read. cbn [fst snd].
    fold updated. by rewrite Hput.
  - by rewrite run_list_patients_sheets.
  - exact Hin'.
  - intros Hnoid. apply Hfirst. apply String.eqb_eq.
    pose proof (Hget Patient.Id ltac:(done)) as Hi.
    change (Patient.Partial.get Patient.Id updates)
      with (Patient.Partial.id updates) in Hi. rewrite Hnoid in Hi.
    transitivity (Patient.id existing); [|done]. by injection Hi.
  - by apply (overwrite_listing_length cfg (patientsSheet cfg) "K" 10
                rowToPatient ownerId _ ws ws' k
                (patientToRow updated) _ Hk Hown Hput).
Qed.

(** X13. Update with any number of fields, followed by list.  The partial
    update carries the owner ([userId]) and any other keys; a supplied
    status is not empty.  For a record of the owner's listing found by
    its id, update returns normally and the next listing of the owner
    holds the merged record; unless the update supplies an id, the merged
    record is the first of the listing with the id.  The listing never
    gets shorter and grows by at most one record (it grows when the row
    that update overwrote was not a row of the owner).  Holds for
    appointments and patients. *)
Theorem update_with_owner_then_list (ws : gmap string (list Row)) cfg
    (now id ownerId : string) :
  (forall (updates : Appointment.Partial.t) L k existing,
     (run sheets_backend (getAppointments cfg ownerId) ws).1.1 = Returned L ->
     findIndex (fun apt => String.eqb (Appointment.id apt) id) L = Some k ->
     L !! k = Some existing ->
     Appointment.Partial.userId updates = Some ownerId ->
     (forall v, Appointment.Partial.status updates = Some v -> v <> "") ->
     let updated := mergeAppointment existing updates now in
     exists ws' L',
       (run sheets_backend (updateAppointment cfg now id updates) ws).1
       = (Returned tt, ws') /\
       (run sheets_backend (getAppointments cfg ownerId) ws').1
       = (Returned L', ws') /\
       updated ∈ L' /\
       (Appointment.Partial.id updates = None ->
        exists j,
          findIndex (fun apt => String.eqb (Appointment.id apt) id) L'
          = Some j /\ L' !! j = Some updated) /\
       length L <= length L' <= S (length L)) /\
  (forall (updates : Patient.Partial.t) L k existing,
     (run sheets_backend (getPatients cfg ownerId) ws).1.1 = Returned L ->
     findIndex (fun pat => String.eqb (Patient.id pat) id) L = Some k ->
     L !! k = Some existing ->
     Patient.Partial.userId updates = Some ownerId ->
     let updated := mergePatient existing updates now in
     exists ws' L',
       (run sheets_backend (updatePatient cfg now id updates) ws).1
       = (Returned tt, ws') /\
       (run sheets_backend (getPatients cfg ownerId) ws').1
       = (Returned L', ws') /\
       updated ∈ L' /\
       (Patient.Partial.id updates = None ->
        exists j,
          findIndex (fun pat => String.eqb (Patient.id pat) id) L' = Some j /\
          L' !! j = Some updated) /\
       length L <= length L' <= S (length L)).
Proof.
  split.
  - intros updates L k existing. apply updateAppointment_then_list.
  - intros updates L k existing. apply updatePatient_then_list.
Qed.

Lemma update_with_owner_then_list_witness :
  exists ws' L',
    (run sheets_backend
       (updateAppointment sampleConfig "2025-02-02T08:00:00.000Z" "apt_1"
          backdated) sharedWorld).1 = (Returned tt, ws') /\
    (run sheets_backend (getAppointments sampleConfig "user-a") ws').1
    = (Returned L', ws') /\
    length L' <= 2.
Proof.
  destruct (proj1 (update_with_owner_then_list sharedWorld sampleConfig
                     "2025-02-02T08:00:00.000Z" "apt_1" "user-a")
              backdated [sampleAppointment "apt_1" "user-a" "pending"] 0
              (sampleAppointment "apt_1" "user-a" "pending"))
    as (ws' & L' & Hupd & Hlist & _ & _ & Hlen).
  - vm_compute. reflexivity.
  - vm_compute. reflexivity.
  - reflexivity.
  - reflexivity.
  - intros v Hv. discriminate.
  - exists ws', L'. split; [exact Hupd|]. split; [exact Hlist|].
    simpl in Hlen. lia.
Defined.

(** ** Patients view *)

Lemma run_returned {W A} (h : Request -> W -> FetchResult * W) (p : Prog A)
    (w w' : W) (a : A) :
  (run h p w).1 = (Returned a, w') ->
  run h p w = (Returned a, w', (run h p w).2).
Proof. destruct (run h p w) as [[o v] t]. simpl. by intros [= -> ->]. Qed.

#[local] Arguments js_or : simpl never.

(** X14. Saving the patient dialog for a patient being edited.  The
    patient is a record of the signed-in user's listing, found by its id.
    The handler then shows the success toast, closes the dialog and
    reloads the list, and the first record of the reloaded list with the
    patient's id has the name, phone and the five optional fields of the
    form, the id, owner and [createdAt] of the patient, and the fresh
    [updatedAt].  In particular, saving the form as [handleEdit] filled it
    changes nothing but [updatedAt]. *)
Theorem handleSubmit_saves_the_form (ws : gmap string (list Row)) cfg
    (userId millis random now : string) (patient : Patient.t)
    (formData : PatientForm) L k :
  (run sheets_backend (getPatients cfg userId) ws).1.1 = Returned L ->
  findIndex (fun pat => String.eqb (Patient.id pat) (Patient.id patient)) L
  = Some k ->
  L !! k = Some patient ->
  let saved :=
    {| Patient.id := Patient.id patient;
       Patient.name := form_name formData;
       Patient.phone := form_phone formData;
       Patient.email := Some (form_email formData);
       Patient.dateOfBirth := Some (form_dateOfBirth formData);
       Patient.address := Some (form_address formData);
       Patient.emergencyContact := Some (form_emergencyContact formData);
       Patient.medicalNotes := Some (form_medicalNotes formData);
       Patient.createdAt := Patient.createdAt patient;
       Patient.updatedAt := now;
       Patient.userId := userId |} in
  exists L' j,
    (run sheets_backend
       (handleSubmit (Some cfg) (Some userId) millis random now
          (Some patient) formData) ws).1.1
    = Returned {| view_patients := Some L';
                  view_patientDialogClosed := true;
                  view_patientToast :=
                    Some (ToastSuccess "Patient updated successfully") |} /\
    findIndex (fun pat => String.eqb (Patient.id pat) (Patient.id patient)) L'
    = Some j /\
    L' !! j = Some saved /\
    (formData = formOfPatient patient ->
     forall f, f <> Patient.UpdatedAt ->
               Patient.get f saved = Patient.get f patient).
Proof.
  intros Hrun Hk Hex saved.
  assert (Patient.userId patient = userId /\
          forall f, Patient.get f patient <> None) as [Howner Hall].
  { rewrite run_list_patients_sheets in Hrun. simpl in Hrun.
    injection Hrun as <-.
    pose proof (list_elem_of_lookup_2 _ _ _ Hex) as Hin.
    apply elem_of_listedRows in Hin as (row0 & _ & Hown0 & ->).
    apply strict_eq_true in Hown0. split; [|apply rowToPatient_present].
    simpl. rewrite Hown0. apply js_or_same. }
  destruct (updatePatient_then_list ws cfg now (Patient.id patient) userId
              (updatesOfForm formData userId) L k patient Hrun Hk Hex
              eq_refl) as (ws' & L' & Hupd & Hlist & _ & Hfirst & _).
  destruct (Hfirst eq_refl) as (j & Hj & Hlook).
  exists L', j. split; [|split; [exact Hj|split]].
  - unfold handleSubmit. rewrite run_try_catch, !run_bind.
    rewrite (run_returned _ _ _ _ _ Hupd). cbn [run]. cbv beta iota.
    rewrite run_bind.
    destruct (run sheets_backend (getPatients cfg userId) ws')
      as [[o v] t]. simpl in Hlist. by injection Hlist as -> ->.
  - by rewrite Hlook.
  - intros -> f Hf. unfold saved. clear Hrun Hk Hex Hupd Hfirst Hlook.
    pose proof (Hall Patient.Email) as H1.
    pose proof (Hall Patient.DateOfBirth) as H2.
    pose proof (Hall Patient.Address) as H3.
    pose proof (Hall Patient.EmergencyContact) as H4.
    pose proof (Hall Patient.MedicalNotes) as H5.
    destruct patient as [? ? ? [e|] [d|] [ad|] [em|] [mn|] ? ? ?];
      simpl in H1, H2, H3, H4, H5, Howner; try done.
    subst. destruct f; simpl; rewrite ?js_or_same; done.
Qed.

Lemma handleSubmit_saves_the_form_witness :
  exists L' j saved,
    (run sheets_backend
       (handleSubmit (Some sampleConfig) (Some "user-a") "1738400000000"
          "k3x9q2m1z" "2025-02-02T08:00:00.000Z"
          (Some (samplePatient "pat_1" "user-a"))
          (formOfPatient (samplePatient "pat_1" "user-a")))
       sharedWorld).1.1
    = Returned {| view_patients := Some L';
                  view_patientDialogClosed := true;
                  view_patientToast :=
                    Some (ToastSuccess "Patient updated successfully") |} /\
    findIndex (fun pat => String.eqb (Patient.id pat) "pat_1") L' = Some j /\
    L' !! j = Some saved /\
    Patient.email saved = Some "ann@example.org" /\
    Patient.updatedAt saved = "2025-02-02T08:00:00.000Z".
Proof.
  destruct (handleSubmit_saves_the_form sharedWorld sampleConfig "user-a"
              "1738400000000" "k3x9q2m1z" "2025-02-02T08:00:00.000Z"
              (samplePatient "pat_1" "user-a")
              (formOfPatient (samplePatient "pat_1" "user-a"))
              [samplePatient "pat_1" "user-a"] 0)
    as (L' & j & Hrun & Hj & Hlook & Hsame).
  - vm_compute. reflexivity.
  - vm_compute. reflexivity.
  - reflexivity.
  - exists L', j. eexists. split; [exact Hrun|]. split; [exact Hj|].
    split; [exact Hlook|]. split; [|reflexivity].
    apply (Hsame eq_refl Patient.Email). discriminate.
Defined.



(** ** Appointments view: creation *)

(** X16. Creating an appointment from the form.  The handler never
    raises.  With a required field empty (patient name, phone, date, time
    or service type) it sends nothing, keeps the list and the form and
    shows the required-fields toast.  With the required fields filled it
    sends exactly one request, the append of a row whose status cell is
    [pending] and whose owner cell is the signed-in user; when the append
    succeeds the new appointment is put in front of the local list, the
    form is emptied and the dialog closed; when it fails the list and the
    form are kept and the failure toast is shown. *)
Theorem handleCreateAppointment_outcomes {W}
    (h : Request -> W -> FetchResult * W) (w : W) cfg
    (userId millis random now : string) (appointments : list Appointment.t)
    (form : AppointmentForm) :
  let run_handler :=
    run h (handleCreateAppointment (Some cfg) (Some userId) millis random now
             appointments form) w in
  let kept toast :=
    {| view_appointments := appointments; view_form := form;
       view_dialogClosed := false; view_toast := Some (ToastError toast) |} in
  let a := newAppointment millis random now (draftOfForm form userId) in
  let r := rowAppend cfg (appointmentsSheet cfg) (appointmentToRow a) in
  (exists st, run_handler.1.1 = Returned st) /\
  (form_incomplete form = true ->
   run_handler = (Returned (kept "Please fill in all required fields"), w, []))
  /\
  (form_incomplete form = false ->
   run_handler.2 = [r] /\
   appointmentToRow a !! 7 = Some "pending" /\
   appointmentToRow a !! 13 = Some userId /\
   (thrown_by (h r w).1 = None ->
    run_handler.1.1
    = Returned {| view_appointments := a :: appointments;
                  view_form := emptyAppointmentForm;
                  view_dialogClosed := true;
                  view_toast :=
                    Some (ToastSuccess "Appointment created successfully!") |})
   /\
   (forall e, thrown_by (h r w).1 = Some e ->
              run_handler.1.1 = Returned (kept "Failed to create appointment"))).
Proof.
  intros run_handler kept a r. subst run_handler.
  unfold handleCreateAppointment.
  destruct (form_incomplete form).
  - split; [by eexists|]. split; [done|]. done.
  - rewrite run_try_catch, run_bind, run_createAppointment. cbv zeta.
    fold a r. unfold unless_thrown.
    destruct (thrown_by (h r w).1) as [e|]; cbn [run]; cbv beta iota.
    + split; [by eexists|]. split; [done|]. intros _.
      repeat split; done.
    + split; [by eexists|]. split; [done|]. intros _.
      repeat split; done.
Qed.

Lemma handleCreateAppointment_outcomes_witness :
  run sheets_backend
    (handleCreateAppointment (Some sampleConfig) (Some "user-a")
       "1738400000000" "k3x9q2m1z" "2025-02-01T09:00:00.000Z" []
       emptyAppointmentForm) headedWorld
  = (Returned {| view_appointments := [];
                 view_form := emptyAppointmentForm;
                 view_dialogClosed := false;
                 view_toast :=
                   Some (ToastError "Please fill in all required fields") |},
     headedWorld, []).
Proof.
  destruct (handleCreateAppointment_outcomes sheets_backend headedWorld
              sampleConfig "user-a" "1738400000000" "k3x9q2m1z"
              "2025-02-01T09:00:00.000Z" [] emptyAppointmentForm)
    as (_ & Hempty & _).
  apply Hempty. reflexivity.
Defined.

(** ** Settings: saving the configuration *)

Lemma run_testConnection {W} (h : Request -> W -> FetchResult * W) (w : W)
    cfg :
  spreadsheetId cfg <> "" ->
  run h (testConnection cfg) w
  = (Returned (probeResult (h (probeRequest cfg) w).1),
     (h (probeRequest cfg) w).2, [probeRequest cfg]).
Proof.
  intros Hid. unfold testConnection, probeResult, thrown_by, probeRequest.
  destruct (String.eqb_spec (spreadsheetId cfg) ""); [done|].
  rewrite run_try_catch, run_bind, run_makeRequest. simpl.
  destruct (h _ w) as [[m|status [body|]] w1]; simpl; try done.
  - destruct (400 <=? status)%nat; simpl; [done|].
    by destruct (properties body).
  - by destruct (400 <=? status)%nat.
Qed.

Lemma probeResult_success (res : FetchResult) :
  success (probeResult res) = true <-> carries_properties res.
Proof.
  unfold probeResult, thrown_by, carries_properties.
  destruct res as [m|status [body|]]; simpl.
  - split; [done|]. by intros (? & ? & ? & _).
  - destruct (400 <=? status)%nat eqn:Hs; simpl.
    + split; [done|]. intros (st & b & [= -> ->] & Hlt & _).
      apply Nat.leb_le in Hs. lia.
    + apply Nat.leb_gt in Hs. destruct (properties body) eqn:Hp; simpl.
      * split; [|done]. intros _. by exists status, body.
      * split; [done|]. intros (st & b & [= -> ->] & _ & Hp').
        congruence.
  - destruct (400 <=? status)%nat; simpl;
      (split; [done|]; by intros (? & ? & ? & _)).
Qed.

(** X17. Saving the settings.  The handler never raises.  With no
    spreadsheet id it sends nothing and stores nothing.  Otherwise it
    sends the metadata probe first; when the probe does not succeed with
    a body carrying [properties] it stops there, stores nothing and shows
    the error of the connection test.  The configuration is written to
    the local storage exactly when the probe succeeds and the header
    initialisation that follows does not raise.  On the remote table this
    is exactly when both sheets exist, blank or not, and the table is
    left as it was. *)
Theorem handleSave_stores_after_probe_and_initialisation {W}
    (h : Request -> W -> FetchResult * W) (w : W)
    (ws : gmap string (list Row)) (config : GoogleSheetsConfig) :
  let out := run h (handleSave config) w in
  let probe := probeRequest (construct config) in
  (exists st, out.1.1 = Returned st /\
     (spreadsheetId config = "" -> save_stored st = false /\ out.2 = []) /\
     (spreadsheetId config <> "" ->
      (exists rest, out.2 = probe :: rest) /\
      (~ carries_properties (h probe w).1 ->
       out.2 = [probe] /\ save_stored st = false /\
       save_connectionError st
       = Some (Some (js_or (error (probeResult (h probe w).1))
                       "Failed to connect to Google Sheets. Please check your configuration."))) /\
      (save_stored st = true <->
       carries_properties (h probe w).1 /\
       (run h (initializeSheets (construct config)) (h probe w).2).1.1
       = Returned tt))) /\
  (spreadsheetId config <> "" ->
   let saved := run sheets_backend (handleSave config) ws in
   saved.1.2 = ws /\
   exists st, saved.1.1 = Returned st /\
     (save_stored st = true <->
      is_Some (ws !! appointmentsSheet (construct config)) /\
      is_Some (ws !! patientsSheet (construct config)))).
Proof.
  intros out probe.
  assert (forall V (g : Request -> V -> FetchResult * V) (v : V),
            spreadsheetId config <> "" ->
            let res := g probe v in
            let init := run g (initializeSheets (construct config)) res.2 in
            exists st,
              run g (handleSave config) v
              = (Returned st,
                 if success (probeResult res.1) then init.1.2 else res.2,
                 probe :: if success (probeResult res.1) then init.2 else [])
              /\
              (save_stored st
               = success (probeResult res.1)
                 && match init.1.1 with
                    | Returned _ => true
                    | Raised _ => false
                    end) /\
              (success (probeResult res.1) = false ->
               save_connectionError st
               = Some (Some (js_or (error (probeResult res.1))
                               "Failed to connect to Google Sheets. Please check your configuration.")))) as Hgen.
  { intros V g v Hid res init. subst res init. unfold handleSave.
    destruct (String.eqb_spec (spreadsheetId config) ""); [done|].
    rewrite run_try_catch, run_bind, run_testConnection by done.
    fold probe. cbv beta iota.
    destruct (success (probeResult (g probe v).1)) eqn:Hs.
    - rewrite run_bind.
      destruct (run g (initializeSheets (construct config)) (g probe v).2)
        as [[[[]|e] v1] t1]; cbn [run fst snd]; cbv beta iota;
        eexists; (split; [by rewrite ?app_nil_r|]); by split.
    - cbn [run]. cbv beta iota. eexists. split; [done|]. by split. }
  split.
  - destruct (String.eqb_spec (spreadsheetId config) "") as [Hid|Hid].
    + subst out. unfold handleSave. rewrite Hid. simpl.
      eexists. split; [done|]. split; [done|]. done.
    + destruct (Hgen W h w Hid) as (st & Hrun & Hstored & Herr).
      subst out. rewrite Hrun. cbn [fst snd]. exists st.
      split; [done|]. split; [done|]. intros _. split; [by eexists|].
      split.
      * intros Hno. rewrite <- probeResult_success in Hno.
        apply not_true_is_false in Hno. rewrite Hno in *.
        split; [done|]. split; [done|]. by apply Herr.
      * rewrite Hstored, andb_true_iff, probeResult_success.
        split; intros [Hp Hinit]; (split; [done|]);
          destruct (run h (initializeSheets (construct config))
                      (h probe w).2).1.1 as [[]|e]; done.
  - intros Hid saved.
    destruct (Hgen _ sheets_backend ws Hid) as (st & Hrun & Hstored & _).
    subst saved. rewrite Hrun. clear Hrun. cbn [fst snd].
    assert ((sheets_backend probe ws) = (Response 200 (Some metadata_body), ws))
      as Hprobe by done.
    rewrite Hprobe in *. cbn [fst snd] in *.
    change (success (probeResult (Response 200 (Some metadata_body))))
      with true in *. cbv beta iota in *.
    rewrite initializeSheets_sheets in *.
    split.
    + by destruct (ws !! appointmentsSheet (construct config)),
                  (ws !! patientsSheet (construct config)).
    + exists st. split; [done|]. rewrite Hstored.
      destruct (ws !! appointmentsSheet (construct config)),
               (ws !! patientsSheet (construct config)); simpl;
        split; try done; try (by intros [[??] [??]]); by intros; eauto.
Qed.

Lemma handleSave_stores_after_probe_and_initialisation_witness :
  exists st,
    (run sheets_backend (handleSave sampleConfig) blankWorld).1.1
    = Returned st /\
    save_stored st = true /\
    (run sheets_backend (handleSave sampleConfig) blankWorld).1.2 = blankWorld.
Proof.
  destruct (proj2 (handleSave_stores_after_probe_and_initialisation
                     sheets_backend blankWorld blankWorld sampleConfig))
    as (Hsame & st & Hrun & Hstored).
  - simpl. discriminate.
  - exists st. split; [exact Hrun|]. split; [|exact Hsame].
    apply Hstored. split; eexists; reflexivity.
Defined.

(** ** Dashboard *)

Lemma filter_length_le {A} (f : A -> bool) (l : list A) :
  length (List.filter f l) <= length l.
Proof. induction l as [|a l IH]; simpl; [done|]. destruct (f a); simpl; lia. Qed.

(** X18. Loading the dashboard.  Whatever the backend does, the handler
    never raises and sends exactly two requests, the read of the
    appointments and then the read of the patients, and no write.  The
    counters of today's, pending, WhatsApp and SMS appointments never
    exceed the total of appointments, at most five recent appointments
    are shown, and when both reads fail every counter is zero: a backend
    failure shows as an empty dashboard, not as an error. *)
Theorem loadDashboardData_counters {W}
    (h : Request -> W -> FetchResult * W) (w : W) cfg (userId : string)
    (isTodayDate : string -> bool)
    (sortNewestFirst : list Appointment.t -> list Appointment.t) :
  let ra := listRequest cfg (appointmentsSheet cfg) in
  let rp := listRequest cfg (patientsSheet cfg) in
  exists data,
    run h (loadDashboardData isTodayDate sortNewestFirst (Some cfg)
             (Some userId)) w
    = (Returned (Some data), (h rp (h ra w).2).2, [ra; rp]) /\
    let s := dashboard_stats data in
    todayAppointments s <= totalAppointments s /\
    pendingAppointments s <= totalAppointments s /\
    whatsappMessages s <= totalAppointments s /\
    smsMessages s <= totalAppointments s /\
    length (dashboard_recent data) <= 5 /\
    (fetch_failed (h ra w).1 -> fetch_failed (h rp (h ra w).2).1 ->
     s = {| totalAppointments := 0; todayAppointments := 0;
            pendingAppointments := 0; totalPatients := 0;
            whatsappMessages := 0; smsMessages := 0 |}).
Proof.
  intros ra rp. unfold loadDashboardData.
  rewrite run_try_catch, run_bind, run_getAppointments. cbv zeta.
  fold ra. cbv beta iota.
  rewrite run_bind, run_getPatients. cbv zeta. fold rp.
  cbn [run]. cbv beta iota.
  eexists. split; [reflexivity|]. cbn [dashboard_stats dashboard_recent
    totalAppointments todayAppointments pendingAppointments totalPatients
    whatsappMessages smsMessages].
  repeat (split; [apply filter_length_le|]).
  split; [rewrite length_take; lia|].
  intros Ha Hp.
  assert (forall E col (mk : Row -> E) res,
            fetch_failed res -> listingOf col mk userId res = []) as Hnil.
  { intros E col mk [e|status [body|]] Hf; simpl in *; try done.
    by apply Nat.leb_le in Hf as ->. }
  by rewrite !Hnil.
Qed.

Lemma loadDashboardData_counters_witness :
  exists data,
    (run (answer (Response 503 None))
       (loadDashboardData (fun _ => true) (fun l => l) (Some sampleConfig)
          (Some "user-a")) tt).1.1 = Returned (Some data) /\
    totalAppointments (dashboard_stats data) = 0 /\
    totalPatients (dashboard_stats data) = 0.
Proof.
  destruct (loadDashboardData_counters (answer (Response 503 None)) tt
              sampleConfig "user-a" (fun _ => true) (fun l => l))
    as (data & Hrun & _ & _ & _ & _ & _ & Hfail).
  exists data. rewrite Hrun. split; [reflexivity|].
  rewrite Hfail; [by split| |]; simpl; lia.
Defined.

(** ** Appointments view: status change *)

Lemma markStatus_length id newStatus now (l : list Appointment.t) :
  length (markStatus id newStatus now l) = length l.
Proof. apply length_map. Qed.

Lemma markStatus_lookup id newStatus now (l : list Appointment.t) i :
  markStatus id newStatus now l !! i
  = (fun apt => if String.eqb (Appointment.id apt) id
                then withStatus newStatus now apt else apt) <$> l !! i.
Proof. apply list_lookup_fmap. Qed.

Lemma findIndex_markStatus id newStatus now (l : list Appointment.t) :
  findIndex (fun apt => String.eqb (Appointment.id apt) id)
    (markStatus id newStatus now l)
  = findIndex (fun apt => String.eqb (Appointment.id apt) id) l.
Proof.
  unfold markStatus.
  induction l as [|a l IH]; [done|].
  cbn [List.map findIndex].
  destruct (String.eqb (Appointment.id a) id) eqn:Ha.
  - change (Appointment.id (withStatus newStatus now a))
      with (Appointment.id a). by rewrite Ha.
  - by rewrite Ha, IH.
Qed.

(** X19. [handleStatusChange] of the appointments view.  It never raises
    and sends exactly the requests of the update.  The local list is
    rewritten only after the update returned normally: then every local
    record with the id gets the new status, the others and the length of
    the list stay; when the update raises (record not found, failed
    write) the local list is kept and the failure toast is shown.  On
    the remote table, for a local list that is the owner's listing and
    holds the id, with a new status that is not empty, the handler
    succeeds and the record it shows agrees with the first record of the
    id in the next listing on every field but the update time. *)
Theorem handleStatusChange_outcomes {W} (h : Request -> W -> FetchResult * W)
    (w : W) (ws : gmap string (list Row)) cfg
    (userId now nowLocal id newStatus : string)
    (appointments : list Appointment.t) :
  let handler :=
    handleStatusChange (Some cfg) (Some userId) now nowLocal appointments
      id newStatus in
  let update := updateAppointment cfg now id (statusChange newStatus userId) in
  let local := markStatus id newStatus nowLocal appointments in
  let has_id := fun apt => String.eqb (Appointment.id apt) id in
  ((run h handler w).1.2 = (run h update w).1.2 /\
   (run h handler w).2 = (run h update w).2 /\
   ((run h update w).1.1 = Returned tt ->
    (run h handler w).1.1
    = Returned (local, Some (ToastSuccess ("Appointment " ++ newStatus)))) /\
   (forall e, (run h update w).1.1 = Raised e ->
      (run h handler w).1.1
      = Returned (appointments,
                  Some (ToastError "Failed to update appointment")))) /\
  (length local = length appointments /\
   forall i apt, appointments !! i = Some apt ->
     local !! i
     = Some (if has_id apt then withStatus newStatus nowLocal apt else apt)) /\
  (forall k,
     (run sheets_backend (getAppointments cfg userId) ws).1.1
     = Returned appointments ->
     findIndex has_id appointments = Some k ->
     newStatus <> "" ->
     exists ws' L' j shown stored,
       (run sheets_backend handler ws).1
       = (Returned (local, Some (ToastSuccess ("Appointment " ++ newStatus))),
          ws') /\
       (run sheets_backend (getAppointments cfg userId) ws').1
       = (Returned L', ws') /\
       findIndex has_id local = Some k /\ local !! k = Some shown /\
       findIndex has_id L' = Some j /\ L' !! j = Some stored /\
       Appointment.status shown = newStatus /\
       Appointment.updatedAt shown = nowLocal /\
       Appointment.updatedAt stored = now /\
       forall f, f <> Appointment.UpdatedAt ->
         Appointment.get f shown = Appointment.get f stored).
Proof.
  intros handler update local has_id.
  assert (forall {V} (g : Request -> V -> FetchResult * V) (v : V),
            run g handler v
            = match run g update v with
              | (Returned _, v1, t1) =>
                  (Returned
                     (local, Some (ToastSuccess ("Appointment " ++ newStatus))),
                   v1, t1)
              | (Raised _, v1, t1) =>
                  (Returned (appointments,
                             Some (ToastError "Failed to update appointment")),
                   v1, t1)
              end) as Hrun.
  { intros V g v. subst handler. unfold handleStatusChange.
    rewrite run_try_catch, run_bind. fold update.
    destruct (run g update v) as [[[[]|e] v1] t1]; simpl;
      by rewrite app_nil_r. }
  split; [|split].
  - rewrite Hrun.
    destruct (run h update w) as [[[[]|e] v1] t1]; simpl.
    + split; [done|split; [done|split; [done|]]]. by intros e' [=].
    + split; [done|split; [done|split; [by intros [=]|done]]].
  - split; [apply markStatus_length|].
    intros i apt Hi. subst local. by rewrite markStatus_lookup, Hi.
  - intros k Hlist Hk Hne.
    destruct (findIndex_Some _ _ _ Hk) as (existing & Hex & Hid & _).
    destruct (updateAppointment_then_list ws cfg now id userId
                (statusChange newStatus userId) appointments k existing
                Hlist Hk Hex eq_refl)
      as (ws' & L' & Hupd & Hlist' & _ & Hfirst & _).
    { by intros v [= <-]. }
    destruct (Hfirst eq_refl) as (j & Hj & Hstored).
    exists ws', L', j, (withStatus newStatus nowLocal existing),
      (mergeAppointment existing (statusChange newStatus userId) now).
    split; [|split; [|split; [|split; [|split; [|split; [|split;
      [|split; [|split]]]]]]]]; try done.
    + rewrite Hrun. fold update in Hupd.
      destruct (run sheets_backend update ws) as [[o v1] t1].
      simpl in Hupd. by injection Hupd as -> ->.
    + subst local has_id. by rewrite findIndex_markStatus.
    + subst local. rewrite markStatus_lookup, Hex. simpl.
      fold (has_id existing). by rewrite Hid.
    + intros f Hf. rewrite mergeAppointment_get by done.
      assert (Appointment.userId existing = userId) as Hown.
      { rewrite run_list_appointments_sheets in Hlist. simpl in Hlist.
        injection Hlist as Hlist.
        pose proof (list_elem_of_lookup_2 _ _ _ Hex) as Hin.
        rewrite <- Hlist in Hin.
        apply elem_of_listedRows in Hin as (row0 & _ & Hown0 & ->).
        apply strict_eq_true in Hown0. unfold rowToAppointment.
        cbn [Appointment.userId]. rewrite Hown0. apply js_or_same. }
      destruct f; try done. simpl. by rewrite Hown.
Qed.

Lemma handleStatusChange_outcomes_witness :
  exists ws' L' j shown stored,
    (run sheets_backend
       (handleStatusChange (Some sampleConfig) (Some "user-a")
          "2025-02-02T08:00:00.000Z" "2025-02-02T08:00:01.000Z"
          [sampleAppointment "apt_1" "user-a" "pending"] "apt_1" "confirmed")
       sharedWorld).1.2 = ws' /\
    (run sheets_backend (getAppointments sampleConfig "user-a") ws').1
    = (Returned L', ws') /\
    L' !! j = Some stored /\
    Appointment.status shown = "confirmed" /\
    Appointment.get Appointment.Status stored = Some "confirmed".
Proof.
  destruct (proj2 (proj2 (handleStatusChange_outcomes
                     (answer (FetchThrows None)) tt sharedWorld sampleConfig "user-a"
                     "2025-02-02T08:00:00.000Z" "2025-02-02T08:00:01.000Z"
                     "apt_1" "confirmed"
                     [sampleAppointment "apt_1" "user-a" "pending"])) 0)
    as (ws' & L' & j & shown & stored & Hrun & Hlist & _ & _ & _ & Hj & Hs
        & _ & _ & Hagree).
  - vm_compute. reflexivity.
  - vm_compute. reflexivity.
  - discriminate.
  - exists ws', L', j, shown, stored.
    split; [by rewrite Hrun|]. split; [exact Hlist|]. split; [exact Hj|].
    split; [exact Hs|].
    rewrite <- Hagree by discriminate. simpl. by rewrite Hs.
Defined.

(** ** Connection test: outcomes *)

(** X20. What the connection test answers.  With no spreadsheet id it
    answers [success: false] with the error "Spreadsheet ID is required"
    and issues no request.  Otherwise it never raises, issues the metadata
    probe alone, and answers [success: true], without an error, exactly
    when the probe succeeds with a body carrying [properties]; a probe
    that succeeds without them is an invalid spreadsheet response.  A
    probe that fails is reported through the text of the thrown error
    (for a status of 400 or more, the text [makeRequest] builds from the
    status, the provider's message and the details): the not-found
    message when the text contains "404", else the access-denied message
    when it contains "403", else the bad-request message when it contains
    "400", else the text itself; a thrown value that is no error is
    reported as "Connection failed".  Hence a 404 probe always reports
    not-found, a 403 probe reports access-denied or not-found and nothing
    else, and a 403 or 400 probe without provider message and details
    reports access-denied or bad-request. *)
Theorem testConnection_outcomes {W}
    (h : Request -> W -> FetchResult * W) (w : W) cfg :
  (spreadsheetId cfg = "" ->
   run h (testConnection cfg) w
   = (Returned {| success := false;
                  error := Some "Spreadsheet ID is required" |}, w, []) /\
   includes "Spreadsheet ID is required" "ID is required" = true) /\
  (spreadsheetId cfg <> "" ->
   let res := (h (probeRequest cfg) w).1 in
   exists result,
     run h (testConnection cfg) w
     = (Returned result, (h (probeRequest cfg) w).2, [probeRequest cfg]) /\
     (success result = true <-> carries_properties res) /\
     (success result = true -> error result = None) /\
     (thrown_by res = None -> success result = false ->
      error result = Some "Invalid spreadsheet response") /\
     (res = FetchThrows None -> error result = Some "Connection failed") /\
     (forall text,
        res = FetchThrows (Some text) \/
        (exists status body,
           res = Response status body /\ (400 <= status)%nat /\
           text = errorMessage status body) ->
        success result = false /\
        (includes text "404" = true -> error result = Some msg_not_found) /\
        (includes text "404" = false -> includes text "403" = true ->
         error result = Some msg_access_denied) /\
        (includes text "404" = false -> includes text "403" = false ->
         includes text "400" = true ->
         error result = Some msg_invalid_request) /\
        (includes text "404" = false -> includes text "403" = false ->
         includes text "400" = false -> error result = Some text)) /\
     (forall body, res = Response 404 body ->
        error result = Some msg_not_found) /\
     (forall body, res = Response 403 body ->
        error result = Some msg_access_denied \/
        error result = Some msg_not_found) /\
     (forall body, res = Response 403 body -> bare_error body ->
        error result = Some msg_access_denied) /\
     (forall body, res = Response 400 body -> bare_error body ->
        error result = Some msg_invalid_request)).
Proof.
  split.
  - intros Hid. unfold testConnection. rewrite Hid. simpl. done.
  - intros Hid res. exists (probeResult res).
    split; [by apply run_testConnection|].
    split; [apply probeResult_success|].
    assert (forall text,
              res = FetchThrows (Some text) \/
              (exists status body,
                 res = Response status body /\ (400 <= status)%nat /\
                 text = errorMessage status body) ->
              probeResult res
              = {| success := false;
                   error :=
                     Some (if includes text "404" then msg_not_found
                           else if includes text "403" then msg_access_denied
                           else if includes text "400"
                                then msg_invalid_request
                                else text) |}) as Hrule.
    { intros text [->|(status & body & -> & Hs & ->)].
      - done.
      - unfold probeResult, thrown_by.
        apply Nat.leb_le in Hs. by rewrite Hs. }
    assert (forall status body,
              res = Response status body -> (400 <= status)%nat ->
              probeResult res
              = {| success := false;
                   error :=
                     Some (let text := errorMessage status body in
                           if includes text "404" then msg_not_found
                           else if includes text "403" then msg_access_denied
                           else if includes text "400"
                                then msg_invalid_request
                                else text) |}) as Hstatus.
    { intros status body Hres Hs. apply Hrule. right. by exists status, body. }
    split; [|split; [|split; [|split; [|split; [|split; [|split]]]]]].
    + unfold probeResult. destruct (thrown_by res); [done|].
      destruct res as [m|status [body|]]; try done.
      by destruct (properties body).
    + intros Hnone. unfold probeResult. rewrite Hnone.
      destruct res as [m|status [body|]]; try done.
      by destruct (properties body).
    + by intros ->.
    + intros text Htext. rewrite (Hrule text Htext). cbn [success error].
      split; [done|]. split; [by intros ->|].
      split; [by intros -> ->|]. split; by intros -> -> ->.
    + intros body Hres. rewrite (Hstatus 404 body Hres) by lia.
      cbn [error]. cbv zeta.
      by rewrite (errorMessage_includes 404 body "404").
    + intros body Hres. rewrite (Hstatus 403 body Hres) by lia.
      cbn [error]. cbv zeta.
      rewrite (errorMessage_includes 403 body "403") by done.
      destruct (includes (errorMessage 403 body) "404"); [by right|by left].
    + intros body Hres Hbare. rewrite (Hstatus 403 body Hres) by lia.
      by rewrite (errorMessage_bare 403 body Hbare).
    + intros body Hres Hbare. rewrite (Hstatus 400 body Hres) by lia.
      by rewrite (errorMessage_bare 400 body Hbare).
Qed.

Lemma testConnection_outcomes_witness :
  run sheets_backend (testConnection unconfigured) sharedWorld
  = (Returned {| success := false;
                 error := Some "Spreadsheet ID is required" |},
     sharedWorld, []) /\
  exists result,
    run (answer deniedResponse) (testConnection sampleConfig) tt
    = (Returned result, tt, [probeRequest sampleConfig]) /\
    error result = Some msg_not_found.
Proof.
  split.
  - apply (testConnection_outcomes sheets_backend sharedWorld unconfigured).
    reflexivity.
  - destruct (proj2 (testConnection_outcomes (answer deniedResponse) tt
                       sampleConfig))
      as (result & Hrun & _ & _ & _ & _ & Hrule & _).
    + simpl. discriminate.
    + exists result. split; [exact Hrun|].
      apply (Hrule
               "Google Sheets API error: 403 - The caller does not have permission for project 240417").
      * right. eexists 403, _. split; [reflexivity|]. split; [lia|].
        reflexivity.
      * reflexivity.
Defined.
